(** * LiquibaseDB: the migration engine of [liquibase_cli.py]

    A shallow embedding of the migration model, the changelog parser, the
    changelog (ledger) table, the change executor and the commands,
    followed by the properties of the engine that the specification states
    about them and by further properties read off the code. *)

From Stdlib Require Import String Ascii List ZArith Lia Bool DecimalString
  Sorted.
Import ListNotations.

Set Warnings "-register-all,-notation-for-abbreviation".

Local Open Scope string_scope.
Local Open Scope Z_scope.

(* ================================================================== *)
(** ** Python strings and bytes

    A Python [str] is modelled by a Rocq [string] whose characters are the
    code points below 256. *)

Module PyStr.

Definition code (c : ascii) : Z := Z.of_N (N_of_ascii c).

(** The double quote character, code 34. *)
Definition dquote : ascii := ascii_of_N 34.

Definition hex_digit (n : Z) : ascii :=
  ascii_of_N (Z.to_N (if n <? 10 then 48 + n else 87 + n)).

(** Two lower-case hexadecimal digits of a byte. *)
Definition hex2 (b : Z) : string :=
  String (hex_digit (b / 16)) (String (hex_digit (b mod 16)) EmptyString).

(** [str.encode()]: UTF-8, for code points below 256. *)
Definition utf8_char (c : ascii) : list Z :=
  let n := code c in
  if n <? 128 then [n] else [192 + n / 64; 128 + n mod 64].

Fixpoint encode (s : string) : list Z :=
  match s with
  | EmptyString => []
  | String c r => utf8_char c ++ encode r
  end.

(** [sep.join(items)] *)
Fixpoint join (sep : string) (items : list string) : string :=
  match items with
  | [] => ""
  | [x] => x
  | x :: r => x ++ sep ++ join sep r
  end.

(** [str(n)] for a Python [int]. *)
Definition of_int (n : Z) : string := NilZero.string_of_int (Z.to_int n).

(** [x in xs] for a list of strings. *)
Definition mem (x : string) (xs : list string) : bool :=
  existsb (String.eqb x) xs.

End PyStr.

(* ================================================================== *)
(** ** [hashlib.md5]

    The digest of RFC 1321 on a list of bytes, on 32-bit words kept in [Z]
    with the wrap-around written out. *)

Module MD5.

Definition mask32 : Z := 4294967295.
Definition add32 (x y : Z) : Z := Z.land (x + y) mask32.
Definition not32 (x : Z) : Z := Z.lxor x mask32.
Definition rotl32 (x : Z) (n : Z) : Z :=
  Z.lor (Z.land (Z.shiftl x n) mask32) (Z.shiftr x (32 - n)).

Definition K : list Z :=
  [ 0xd76aa478; 0xe8c7b756; 0x242070db; 0xc1bdceee;
    0xf57c0faf; 0x4787c62a; 0xa8304613; 0xfd469501;
    0x698098d8; 0x8b44f7af; 0xffff5bb1; 0x895cd7be;
    0x6b901122; 0xfd987193; 0xa679438e; 0x49b40821;
    0xf61e2562; 0xc040b340; 0x265e5a51; 0xe9b6c7aa;
    0xd62f105d; 0x02441453; 0xd8a1e681; 0xe7d3fbc8;
    0x21e1cde6; 0xc33707d6; 0xf4d50d87; 0x455a14ed;
    0xa9e3e905; 0xfcefa3f8; 0x676f02d9; 0x8d2a4c8a;
    0xfffa3942; 0x8771f681; 0x6d9d6122; 0xfde5380c;
    0xa4beea44; 0x4bdecfa9; 0xf6bb4b60; 0xbebfbc70;
    0x289b7ec6; 0xeaa127fa; 0xd4ef3085; 0x04881d05;
    0xd9d4d039; 0xe6db99e5; 0x1fa27cf8; 0xc4ac5665;
    0xf4292244; 0x432aff97; 0xab9423a7; 0xfc93a039;
    0x655b59c3; 0x8f0ccc92; 0xffeff47d; 0x85845dd1;
    0x6fa87e4f; 0xfe2ce6e0; 0xa3014314; 0x4e0811a1;
    0xf7537e82; 0xbd3af235; 0x2ad7d2bb; 0xeb86d391 ].

Definition S : list Z :=
  [ 7; 12; 17; 22; 7; 12; 17; 22; 7; 12; 17; 22; 7; 12; 17; 22;
    5; 9; 14; 20; 5; 9; 14; 20; 5; 9; 14; 20; 5; 9; 14; 20;
    4; 11; 16; 23; 4; 11; 16; 23; 4; 11; 16; 23; 4; 11; 16; 23;
    6; 10; 15; 21; 6; 10; 15; 21; 6; 10; 15; 21; 6; 10; 15; 21 ].

Definition nthZ (l : list Z) (i : Z) : Z := nth (Z.to_nat i) l 0.

(** The message padded to a multiple of 64 bytes: a 1 bit, zeros, and the
    bit length as a 64-bit little-endian integer. *)
Fixpoint le_bytes (n : nat) (x : Z) : list Z :=
  match n with
  | O => []
  | Datatypes.S k => (x mod 256) :: le_bytes k (x / 256)
  end.

Definition pad (msg : list Z) : list Z :=
  let len := Z.of_nat (length msg) in
  let zeros := (55 - len) mod 64 in
  msg ++ [128] ++ repeat 0 (Z.to_nat zeros) ++ le_bytes 8 (8 * len).

Fixpoint words (n : nat) (bs : list Z) : list Z :=
  match n, bs with
  | Datatypes.S k, b0 :: b1 :: b2 :: b3 :: r =>
      (b0 + 256 * b1 + 65536 * b2 + 16777216 * b3) :: words k r
  | _, _ => []
  end.

Record state := mkState { sa : Z; sb : Z; sc : Z; sd : Z }.

Definition init : state :=
  mkState 0x67452301 0xefcdab89 0x98badcfe 0x10325476.

Definition round (M : list Z) (i : Z) (st : state) : state :=
  let '(mkState a b c d) := st in
  let '(f, g) :=
    if i <? 16 then (Z.lor (Z.land b c) (Z.land (not32 b) d), i)
    else if i <? 32 then
      (Z.lor (Z.land d b) (Z.land (not32 d) c), (5 * i + 1) mod 16)
    else if i <? 48 then (Z.lxor b (Z.lxor c d), (3 * i + 5) mod 16)
    else (Z.lxor c (Z.lor b (not32 d)), (7 * i) mod 16) in
  let f' := add32 (add32 (add32 f a) (nthZ K i)) (nthZ M g) in
  mkState d (add32 b (rotl32 f' (nthZ S i))) b c.

Fixpoint rounds (M : list Z) (n : nat) (i : Z) (st : state) : state :=
  match n with
  | O => st
  | Datatypes.S k => rounds M k (i + 1) (round M i st)
  end.

Definition block (st : state) (M : list Z) : state :=
  let st' := rounds M 64 0 st in
  mkState (add32 (sa st) (sa st')) (add32 (sb st) (sb st'))
          (add32 (sc st) (sc st')) (add32 (sd st) (sd st')).

Fixpoint blocks (n : nat) (bs : list Z) (st : state) : state :=
  match n with
  | O => st
  | Datatypes.S k => blocks k (skipn 64 bs) (block st (words 16 bs))
  end.

Definition digest (msg : list Z) : list Z :=
  let p := pad msg in
  let st := blocks (length p / 64) p init in
  le_bytes 4 (sa st) ++ le_bytes 4 (sb st)
    ++ le_bytes 4 (sc st) ++ le_bytes 4 (sd st).

(** [hashlib.md5(data).hexdigest()] *)
Definition hexdigest (msg : list Z) : string :=
  fold_right (fun b acc => PyStr.hex2 b ++ acc) "" (digest msg).

End MD5.

Example md5_empty :
  MD5.hexdigest (PyStr.encode "") = "d41d8cd98f00b204e9800998ecf8427e".
Proof. vm_compute. reflexivity. Qed.

Example md5_abc :
  MD5.hexdigest (PyStr.encode "abc") = "900150983cd24fb0d6963f7d28e17f72".
Proof. vm_compute. reflexivity. Qed.

Example md5_two_blocks :
  MD5.hexdigest (PyStr.encode
    "12345678901234567890123456789012345678901234567890123456789012345678901234567890")
  = "57edf4a22be3c955ac49da2e2107b67a".
Proof. vm_compute. reflexivity. Qed.

(* ================================================================== *)
(** ** Parsed values and exceptions

    [yaml.safe_load] and [json.load] hand the engine values built from
    [None], booleans, integers, strings, lists and dictionaries (floats are
    left out); a dictionary keeps its insertion order and its keys are
    strings. *)

Inductive jvalue : Type :=
| JNull
| JBool (b : bool)
| JInt (n : Z)
| JStr (s : string)
| JList (l : list jvalue)
| JDict (d : list (string * jvalue)).

Inductive exn : Type :=
| AttributeError
| IndexError
| KeyError (key : string)
| TypeError
| ValueError (msg : string)
| OverflowError
| SqliteError.

Inductive result (A : Type) : Type :=
| Ok (a : A)
| Raise (e : exn).
Arguments Ok {A} a.
Arguments Raise {A} e.

Module Py.

Fixpoint lookup (k : string) (d : list (string * jvalue)) : option jvalue :=
  match d with
  | [] => None
  | (k', v) :: r => if String.eqb k k' then Some v else lookup k r
  end.

(** [v[k]] for a string key [k]. *)
Definition getitem (v : jvalue) (k : string) : result jvalue :=
  match v with
  | JDict d =>
      match lookup k d with Some x => Ok x | None => Raise (KeyError k) end
  | _ => Raise TypeError
  end.

(** [v.get(k, default)] *)
Definition get (v : jvalue) (k : string) (default : jvalue) : result jvalue :=
  match v with
  | JDict d =>
      match lookup k d with Some x => Ok x | None => Ok default end
  | _ => Raise AttributeError
  end.

(** [k in v], used on dictionaries only. *)
Definition contains (k : string) (v : jvalue) : result bool :=
  match v with
  | JDict d =>
      match lookup k d with Some _ => Ok true | None => Ok false end
  | _ => Raise TypeError
  end.

(** [list(v.keys())] and [list(v.values())] *)
Definition keys (v : jvalue) : result (list string) :=
  match v with
  | JDict d => Ok (map fst d)
  | _ => Raise AttributeError
  end.

Definition values (v : jvalue) : result (list jvalue) :=
  match v with
  | JDict d => Ok (map snd d)
  | _ => Raise AttributeError
  end.

(** [l[0]] *)
Definition first {A : Type} (l : list A) : result A :=
  match l with
  | [] => Raise IndexError
  | x :: _ => Ok x
  end.

Fixpoint chars (s : string) : list jvalue :=
  match s with
  | EmptyString => []
  | String c r => JStr (String c EmptyString) :: chars r
  end.

(** The items a [for] loop over [v] visits. *)
Definition iter (v : jvalue) : result (list jvalue) :=
  match v with
  | JList l => Ok l
  | JDict d => Ok (map (fun kv => JStr (fst kv)) d)
  | JStr s => Ok (chars s)
  | _ => Raise TypeError
  end.

(** Truth value of [v] in a condition. *)
Definition truthy (v : jvalue) : bool :=
  match v with
  | JNull => false
  | JBool b => b
  | JInt n => negb (n =? 0)
  | JStr s => negb (String.eqb s "")
  | JList l => match l with [] => false | _ => true end
  | JDict d => match d with [] => false | _ => true end
  end.

(** [v == False] *)
Definition eq_False (v : jvalue) : bool :=
  match v with
  | JBool b => negb b
  | JInt n => n =? 0
  | _ => false
  end.

(** [repr(s)] for a string: single quotes unless the string holds a single
    quote and no double quote. *)
Fixpoint has_char (c : ascii) (s : string) : bool :=
  match s with
  | EmptyString => false
  | String c' r => Ascii.eqb c c' || has_char c r
  end.

Definition printable (n : Z) : bool :=
  ((32 <=? n) && (n <? 127)) || ((161 <=? n) && negb (n =? 173)).

Definition repr_char (q : ascii) (c : ascii) : string :=
  let n := PyStr.code c in
  if Ascii.eqb c q || (n =? 92) then String "\" (String c "")
  else if n =? 9 then "\t"
  else if n =? 10 then "\n"
  else if n =? 13 then "\r"
  else if printable n then String c ""
  else "\x" ++ PyStr.hex2 n.

Fixpoint repr_body (q : ascii) (s : string) : string :=
  match s with
  | EmptyString => ""
  | String c r => repr_char q c ++ repr_body q r
  end.

Definition repr_str (s : string) : string :=
  let q := if has_char "'" s && negb (has_char PyStr.dquote s)
           then PyStr.dquote else "'"%char in
  String q (repr_body q s ++ String q "").

(** [repr(v)] *)
Fixpoint repr (v : jvalue) : string :=
  match v with
  | JNull => "None"
  | JBool true => "True"
  | JBool false => "False"
  | JInt n => PyStr.of_int n
  | JStr s => repr_str s
  | JList l => "[" ++ PyStr.join ", " (map repr l) ++ "]"
  | JDict d =>
      "{" ++ PyStr.join ", "
               (map (fun kv => repr_str (fst kv) ++ ": " ++ repr (snd kv)) d)
          ++ "}"
  end.

(** [str(v)], what an f-string field [{v}] expands to. *)
Definition str (v : jvalue) : string :=
  match v with
  | JStr s => s
  | _ => repr v
  end.

(** [sep.join(items)]: every item has to be a string. *)
Fixpoint strings (items : list jvalue) : result (list string) :=
  match items with
  | [] => Ok []
  | JStr s :: r =>
      match strings r with Ok l => Ok (s :: l) | Raise e => Raise e end
  | _ :: _ => Raise TypeError
  end.

End Py.

(* ================================================================== *)
(** ** [json.dumps] with its default separators and [ensure_ascii] *)

Module Json.

Definition escape_char (c : ascii) : string :=
  let n := PyStr.code c in
  if n =? 34 then String "\" (String PyStr.dquote "")
  else if n =? 92 then "\\"
  else if n =? 10 then "\n"
  else if n =? 13 then "\r"
  else if n =? 9 then "\t"
  else if n =? 8 then "\b"
  else if n =? 12 then "\f"
  else if (32 <=? n) && (n <? 127) then String c ""
  else "\u00" ++ PyStr.hex2 n.

Fixpoint escape (s : string) : string :=
  match s with
  | EmptyString => ""
  | String c r => escape_char c ++ escape r
  end.

Definition quote (s : string) : string :=
  String PyStr.dquote (escape s ++ String PyStr.dquote "").

Fixpoint dumps (v : jvalue) : string :=
  match v with
  | JNull => "null"
  | JBool true => "true"
  | JBool false => "false"
  | JInt n => PyStr.of_int n
  | JStr s => quote s
  | JList l => "[" ++ PyStr.join ", " (map dumps l) ++ "]"
  | JDict d =>
      "{" ++ PyStr.join ", "
               (map (fun kv => quote (fst kv) ++ ": " ++ dumps (snd kv)) d)
          ++ "}"
  end.

End Json.

(* ================================================================== *)
(** ** Computations that may raise *)

Definition rbind {A B : Type} (r : result A) (k : A -> result B) : result B :=
  match r with
  | Ok a => k a
  | Raise e => Raise e
  end.

Notation "'let?' x ':=' r 'in' k" := (rbind r (fun x => k))
  (at level 10, x name, r at level 100, k at level 200).

(** A list comprehension or an accumulating loop whose body may raise: the
    items are visited in order and the first exception ends the loop. *)
Fixpoint map_result {A B : Type} (f : A -> result B) (l : list A)
  : result (list B) :=
  match l with
  | [] => Ok []
  | x :: r =>
      let? y := f x in
      let? ys := map_result f r in
      Ok (y :: ys)
  end.

(* ================================================================== *)
(** ** Keys and SQLite parameters

    Values that can be keys of a dictionary, with the equality Python gives
    them ([True == 1], and a string never equals a number); and what SQLite
    stores in a TEXT column when such a value is bound to a parameter. *)

Inductive hkey : Type :=
| KNone
| KInt (n : Z)
| KStr (s : string).

Module PyKey.

Definition eqb (a b : hkey) : bool :=
  match a, b with
  | KNone, KNone => true
  | KInt n, KInt m => n =? m
  | KStr s, KStr t => String.eqb s t
  | _, _ => false
  end.

(** The key of a hashable value; lists and dictionaries are unhashable. *)
Definition key (v : jvalue) : option hkey :=
  match v with
  | JNull => Some KNone
  | JBool b => Some (KInt (if b then 1 else 0))
  | JInt n => Some (KInt n)
  | JStr s => Some (KStr s)
  | _ => None
  end.

(** The key of a value read from a TEXT column: a [str], or [None] for
    NULL. *)
Definition of_text (x : option string) : hkey :=
  match x with
  | Some s => KStr s
  | None => KNone
  end.

(** [v == x] for a value [x] read from a TEXT column. *)
Definition eq_text (v : jvalue) (x : option string) : bool :=
  match key v with
  | Some k => eqb k (of_text x)
  | None => false
  end.

End PyKey.

Module Sqlite.

(** A parameter bound for a TEXT column: numbers are stored as their
    decimal text and [None] as NULL; an integer outside 64 bits and a list
    or dictionary make the binding raise. *)
Definition bind_text (v : jvalue) : result (option string) :=
  match v with
  | JNull => Ok None
  | JBool b => Ok (Some (if b then "1" else "0"))
  | JInt n =>
      if (- 9223372036854775808 <=? n) && (n <? 9223372036854775808)
      then Ok (Some (PyStr.of_int n))
      else Raise OverflowError
  | JStr s => Ok (Some s)
  | _ => Raise SqliteError
  end.

End Sqlite.

(* ================================================================== *)
(** ** The migration model

    The fields hold the values the parser hands over, whatever their
    types: the annotations of the constructor are not enforced, and the
    sample changelog of [generate] has integer identifiers. *)

Module Migration.

Record t : Type := mk {
  id : jvalue;
  author : jvalue;
  description : jvalue;
  changes : jvalue;
  rollback : jvalue;
  checksum : string
}.

(** The text that is hashed: the f-string
    [{self.id}{self.author}{json.dumps(self.changes)}]. *)
Definition content (id author changes : jvalue) : string :=
  Py.str id ++ Py.str author ++ Json.dumps changes.

Definition _calculate_checksum (id author changes : jvalue) : string :=
  MD5.hexdigest (PyStr.encode (content id author changes)).

(** [Migration(id, author, description, changes, rollback)], with
    [self.rollback = rollback or []]. *)
Definition new (id author description changes rollback : jvalue) : t :=
  mk id author description changes
     (if Py.truthy rollback then rollback else JList [])
     (_calculate_checksum id author changes).

End Migration.

(* ================================================================== *)
(** ** ChangelogParser

    [parse_yaml] and [parse_json] run the same loop on the value that
    [yaml.safe_load] or [json.load] returns; that value is the input
    here. *)

Module ChangelogParser.

Fixpoint is_infix (p s : string) : bool :=
  String.prefix p s
  || match s with
     | EmptyString => false
     | String _ r => is_infix p r
     end.

Definition is_str (k : string) (v : jvalue) : bool :=
  match v with
  | JStr s => String.eqb s k
  | _ => false
  end.

(** [k in v] for a string [k] and any value [v]. *)
Definition contains (k : string) (v : jvalue) : result bool :=
  match v with
  | JDict d =>
      Ok (match Py.lookup k d with Some _ => true | None => false end)
  | JStr s => Ok (is_infix k s)
  | JList l => Ok (existsb (is_str k) l)
  | _ => Raise TypeError
  end.

(** The body of the loop over [data.get('databaseChangeLog', [])]: [None]
    when the entry has no ['changeSet']. *)
Definition parse_entry (changeset : jvalue) : result (option Migration.t) :=
  let? has := contains "changeSet" changeset in
  if has then
    let? cs := Py.getitem changeset "changeSet" in
    let? id := Py.getitem cs "id" in
    let? author := Py.getitem cs "author" in
    let? description := Py.get cs "comment" (JStr "") in
    let? changes := Py.getitem cs "changes" in
    let? rollback := Py.get cs "rollback" (JList []) in
    Ok (Some (Migration.new id author description changes rollback))
  else Ok None.

Fixpoint somes {A : Type} (l : list (option A)) : list A :=
  match l with
  | [] => []
  | Some x :: r => x :: somes r
  | None :: r => somes r
  end.

Definition parse (data : jvalue) : result (list Migration.t) :=
  let? log := Py.get data "databaseChangeLog" (JList []) in
  let? entries := Py.iter log in
  let? migrations := map_result parse_entry entries in
  Ok (somes migrations).

End ChangelogParser.

(* ================================================================== *)
(** ** Python slices and dictionaries *)

(** [l[start:]] *)
Definition slice_from {A : Type} (start : Z) (l : list A) : list A :=
  let len := Z.of_nat (length l) in
  let lo := if start <? 0 then Z.max (start + len) 0 else Z.min start len in
  skipn (Z.to_nat lo) l.

(** [d[k] = v]: an existing key keeps its place and takes the new value. *)
Fixpoint dict_set {V : Type} (d : list (hkey * V)) (k : hkey) (v : V)
  : list (hkey * V) :=
  match d with
  | [] => [(k, v)]
  | (k', v') :: r =>
      if PyKey.eqb k k' then (k', v) :: r else (k', v') :: dict_set r k v
  end.

Fixpoint dict_get {V : Type} (d : list (hkey * V)) (k : hkey) : option V :=
  match d with
  | [] => None
  | (k', v) :: r => if PyKey.eqb k k' then Some v else dict_get r k
  end.

(* ================================================================== *)
(** ** The store

    The SQLite file holds the user's schema and data, the
    [DATABASECHANGELOG] table and the [DATABASECHANGELOGLOCK] table, all
    reached through one connection. The two engine tables are modelled row
    by row and are taken to exist with the columns [_init_changelog_table]
    gives them; the user's part is a value of an arbitrary type. *)

(** A row of [DATABASECHANGELOG]; the columns [comments], [contexts],
    [labels] and [deployment_id] are never written and are left out. The
    [id] column is TEXT PRIMARY KEY, in which SQLite admits NULL. *)
Record ChangelogRow : Type := mkRow {
  row_id : option string;
  row_author : string;
  row_filename : string;
  date_executed : string;
  order_executed : Z;
  exec_type : string;
  md5sum : string;
  row_description : option string;
  tag : option string;
  liquibase_version : string
}.

(** The row of [DATABASECHANGELOGLOCK] ([id] is fixed to 1 by its CHECK). *)
Record LockRow : Type := mkLock {
  locked : bool;
  lockgranted : option string;
  lockedby : option string
}.

(** What [click.echo] prints, message by message; identifiers and authors
    appear as the f-strings format them. *)
Inductive message : Type :=
| MsgExecuting (id author : string)
| MsgExecuted (id : string)
| MsgExecuteError (id : string) (e : exn)
| MsgRollingBack (id : string)
| MsgNoRollback
| MsgRolledBack (id : string)
| MsgRollbackError (id : string) (e : exn)
| MsgUpToDate
| MsgFoundPending (n : nat)
| MsgDropColumnNote.

(** [SELECT ... ORDER BY order_executed]: rows by ascending
    [order_executed], rows of equal order in table order. *)
Fixpoint insert_by_order (r : ChangelogRow) (l : list ChangelogRow)
  : list ChangelogRow :=
  match l with
  | [] => [r]
  | x :: t =>
      if order_executed r <=? order_executed x then r :: x :: t
      else x :: insert_by_order r t
  end.

Definition order_by_order_executed (rows : list ChangelogRow)
  : list ChangelogRow :=
  fold_right insert_by_order [] rows.

(** [WHERE id = ?] with a bound text: NULL equals nothing. *)
Definition id_is (t : option string) (r : ChangelogRow) : bool :=
  match t, row_id r with
  | Some a, Some b => String.eqb b a
  | _, _ => false
  end.

(** The largest [order_executed] of the table, 0 when it is empty. *)
Definition max_order (rows : list ChangelogRow) : Z :=
  fold_right Z.max 0 (map order_executed rows).

(** The orders of the table are 1, 2, ..., n in table order. *)
Definition dense (rows : list ChangelogRow) : Prop :=
  map order_executed rows = map Z.of_nat (seq 1 (length rows)).

(** [executed[-count:]] reversed. *)
Definition to_rollback_of {A : Type} (count : Z) (executed : list A)
  : list A :=
  rev (slice_from (- count) executed).

(** [m.id in executed] *)
Definition is_executed (executed : list (option string)) (m : Migration.t)
  : bool :=
  existsb (PyKey.eq_text (Migration.id m)) executed.

(** [[m for m in migrations if m.id not in executed]] *)
Definition pending_of (migrations : list Migration.t)
    (executed : list (option string)) : list Migration.t :=
  filter (fun m => negb (is_executed executed m)) migrations.

(** [{m.id: m for m in migrations}]: an unhashable identifier raises. *)
Fixpoint migrations_dict_from (d : list (hkey * Migration.t))
    (migrations : list Migration.t) : result (list (hkey * Migration.t)) :=
  match migrations with
  | [] => Ok d
  | m :: r =>
      match PyKey.key (Migration.id m) with
      | Some k => migrations_dict_from (dict_set d k m) r
      | None => Raise TypeError
      end
  end.

Definition migrations_dict_of (migrations : list Migration.t)
  : result (list (hkey * Migration.t)) :=
  migrations_dict_from [] migrations.

Definition set_tag (t : string) (r : ChangelogRow) : ChangelogRow :=
  mkRow (row_id r) (row_author r) (row_filename r) (date_executed r)
        (order_executed r) (exec_type r) (md5sum r) (row_description r)
        (Some t) (liquibase_version r).

Inductive tag_message : Type :=
| MsgNoMigrationsToTag
| MsgTagged (tag_name : string).

Section Engine.

Variable Schema : Type.

(** The database as a connection sees it. *)
Record Database : Type := mkDatabase {
  tables : Schema;
  changelog : list ChangelogRow;
  changeloglock : option LockRow
}.

(** SQLite's execution of one statement of the change executor, with its
    parameters, on the database: whether the statement returned ([true])
    or raised, and the database it leaves. A statement may read and write
    every table, the engine's own included, and one that raises may leave
    part of its effect behind. *)
Variable sqlite_execute :
  string -> list jvalue -> Database -> bool * Database.

(** [datetime.now().isoformat()] at the n-th reading of the clock. *)
Variable isoformat : nat -> string.

(** The world of a run: the database as the open connection sees it
    ([db]), the database as the last commit left it on disk ([durable]),
    the clock and the terminal. *)
Record World : Type := mkWorld {
  db : Database;
  durable : Database;
  clock : nat;
  console : list message
}.

Definition set_db (d : Database) (w : World) : World :=
  mkWorld d (durable w) (clock w) (console w).
Definition set_clock (n : nat) (w : World) : World :=
  mkWorld (db w) (durable w) n (console w).
Definition set_console (o : list message) (w : World) : World :=
  mkWorld (db w) (durable w) (clock w) o.

Definition set_changelog (c : list ChangelogRow) (w : World) : World :=
  set_db (mkDatabase (tables (db w)) c (changeloglock (db w))) w.
Definition set_changeloglock (l : option LockRow) (w : World) : World :=
  set_db (mkDatabase (tables (db w)) (changelog (db w)) l) w.

(** [self.conn.commit()] *)
Definition commit (w : World) : World :=
  mkWorld (db w) (db w) (clock w) (console w).

(** *** Computations: state, output and exceptions *)

Definition M (A : Type) : Type := World -> result A * World.

Definition ret {A : Type} (a : A) : M A := fun w => (Ok a, w).

Definition raise {A : Type} (e : exn) : M A := fun w => (Raise e, w).

Definition bind {A B : Type} (m : M A) (k : A -> M B) : M B :=
  fun w =>
    match m w with
    | (Ok a, w') => k a w'
    | (Raise e, w') => (Raise e, w')
    end.

(** [try: body except Exception as e: handler] *)
Definition try_except {A : Type} (body : M A) (handler : exn -> M A) : M A :=
  fun w =>
    match body w with
    | (Ok a, w') => (Ok a, w')
    | (Raise e, w') => handler e w'
    end.

Definition lift {A : Type} (r : result A) : M A := fun w => (r, w).

Definition echo (msg : message) : M unit :=
  fun w => (Ok tt, set_console (console w ++ [msg]) w).

Definition datetime_now_isoformat : M string :=
  fun w => (Ok (isoformat (clock w)), set_clock (S (clock w)) w).

Notation "x <- m ;; k" := (bind m (fun x => k))
  (at level 61, m at next level, right associativity).
Notation "m ;; k" := (bind m (fun _ => k))
  (at level 61, right associativity).

Fixpoint for_each {A : Type} (l : list A) (body : A -> M unit) : M unit :=
  match l with
  | [] => ret tt
  | x :: r => body x ;; for_each r body
  end.

(** *** DatabaseManager *)

(** [sqlite3.connect(db_path)]: a new connection sees what is on disk. *)
Definition connect : M unit :=
  fun w => (Ok tt, set_db (durable w) w).

(** [CREATE TABLE IF NOT EXISTS] for the two engine tables, then
    [INSERT OR IGNORE INTO DATABASECHANGELOGLOCK (id, locked) VALUES (1, 0)]
    and a commit. *)
Definition _init_changelog_table : M unit :=
  fun w =>
    match changeloglock (db w) with
    | Some _ => (Ok tt, commit w)
    | None =>
        (Ok tt,
         commit (set_changeloglock (Some (mkLock false None None)) w))
    end.

(** [DatabaseManager(db_path)] *)
Definition DatabaseManager : M unit :=
  connect ;; _init_changelog_table.

(** [execute_sql] on a statement of the change executor: when the
    statement returns, the connection commits; when it raises, no commit
    follows and what the statement left stays in the open transaction. *)
Definition execute_sql (sql : string) (params : list jvalue) : M unit :=
  fun w =>
    match sqlite_execute sql params (db w) with
    | (true, d) => (Ok tt, commit (set_db d w))
    | (false, d) => (Raise SqliteError, set_db d w)
    end.

(** The row that the INSERT of [execute_migration] writes: the parameters
    are bound in order, [author] is NOT NULL and a non-NULL [id] has to be
    new. *)
Definition changelog_row (id author : jvalue) (filename now : string)
    (order : Z) (checksum : string) (description : jvalue)
  : result ChangelogRow :=
  let? i := Sqlite.bind_text id in
  let? a := Sqlite.bind_text author in
  let? d := Sqlite.bind_text description in
  match a with
  | Some a' =>
      Ok (mkRow i a' filename now order "EXECUTED" checksum d None "1.0.0")
  | None => Raise SqliteError
  end.

(** [execute_sql("INSERT INTO DATABASECHANGELOG ...", (...))] *)
Definition execute_sql_insert_changelog (id author : jvalue)
    (filename now : string) (order : Z) (checksum : string)
    (description : jvalue) : M unit :=
  fun w =>
    match changelog_row id author filename now order checksum description
    with
    | Raise e => (Raise e, w)
    | Ok row =>
        if existsb (id_is (row_id row)) (changelog (db w))
        then (Raise SqliteError, w)
        else (Ok tt, commit (set_changelog (changelog (db w) ++ [row]) w))
    end.

(** [execute_sql("DELETE FROM DATABASECHANGELOG WHERE id = ?", (id,))] *)
Definition execute_sql_delete_changelog (id : jvalue) : M unit :=
  fun w =>
    match Sqlite.bind_text id with
    | Raise e => (Raise e, w)
    | Ok t =>
        (Ok tt,
         commit (set_changelog
                   (filter (fun r => negb (id_is t r)) (changelog (db w)))
                   w))
    end.

(** [fetch_all("SELECT id FROM DATABASECHANGELOG ORDER BY order_executed")] *)
Definition fetch_all_changelog : M (list ChangelogRow) :=
  fun w => (Ok (order_by_order_executed (changelog (db w))), w).

(** *** MigrationExecutor *)

Definition get_executed_migrations : M (list (option string)) :=
  rows <- fetch_all_changelog ;;
  ret (map row_id rows).

(** [col.get('constraints', {}).get(key)] *)
Definition constraint (col : jvalue) (key : string) : result jvalue :=
  let? constraints := Py.get col "constraints" (JDict []) in
  Py.get constraints key JNull.

(** The body of the loop over [columns] in [_create_table]. *)
Definition column_def (col : jvalue) : result string :=
  let? name := Py.getitem col "name" in
  let? type := Py.getitem col "type" in
  let col_def := Py.str name ++ " " ++ Py.str type in
  let? primaryKey := constraint col "primaryKey" in
  let col_def :=
    if Py.truthy primaryKey then col_def ++ " PRIMARY KEY" else col_def in
  let? autoIncrement := constraint col "autoIncrement" in
  let col_def :=
    if Py.truthy autoIncrement then col_def ++ " AUTOINCREMENT"
    else col_def in
  let? nullable := constraint col "nullable" in
  let col_def :=
    if Py.eq_False nullable then col_def ++ " NOT NULL" else col_def in
  let? unique := constraint col "unique" in
  let col_def := if Py.truthy unique then col_def ++ " UNIQUE" else col_def in
  let? has_default := Py.contains "defaultValue" col in
  if has_default then
    let? defaultValue := Py.getitem col "defaultValue" in
    Ok (col_def ++ " DEFAULT " ++ Py.str defaultValue)
  else Ok col_def.

Definition _create_table (data : jvalue) : M unit :=
  table_name <- lift (Py.getitem data "tableName") ;;
  columns <- lift (Py.getitem data "columns") ;;
  cols <- lift (Py.iter columns) ;;
  column_defs <- lift (map_result column_def cols) ;;
  let sql := "CREATE TABLE " ++ Py.str table_name
               ++ " (" ++ PyStr.join ", " column_defs ++ ")" in
  execute_sql sql [].

Definition _add_column (data : jvalue) : M unit :=
  table_name <- lift (Py.getitem data "tableName") ;;
  column <- lift (Py.getitem data "column") ;;
  name <- lift (Py.getitem column "name") ;;
  type <- lift (Py.getitem column "type") ;;
  let col_def := Py.str name ++ " " ++ Py.str type in
  has_default <- lift (Py.contains "defaultValue" column) ;;
  col_def <-
    (if has_default then
       defaultValue <- lift (Py.getitem column "defaultValue") ;;
       ret (col_def ++ " DEFAULT " ++ Py.str defaultValue)
     else ret col_def) ;;
  let sql := "ALTER TABLE " ++ Py.str table_name
               ++ " ADD COLUMN " ++ col_def in
  execute_sql sql [].

Definition _drop_column (data : jvalue) : M unit :=
  echo MsgDropColumnNote ;;
  table_name <- lift (Py.getitem data "tableName") ;;
  column_name <- lift (Py.getitem data "columnName") ;;
  let sql := "ALTER TABLE " ++ Py.str table_name
               ++ " DROP COLUMN " ++ Py.str column_name in
  execute_sql sql [].

Definition _rename_column (data : jvalue) : M unit :=
  table_name <- lift (Py.getitem data "tableName") ;;
  old_name <- lift (Py.getitem data "oldColumnName") ;;
  new_name <- lift (Py.getitem data "newColumnName") ;;
  let sql := "ALTER TABLE " ++ Py.str table_name ++ " RENAME COLUMN "
               ++ Py.str old_name ++ " TO " ++ Py.str new_name in
  execute_sql sql [].

Definition _create_index (data : jvalue) : M unit :=
  index_name <- lift (Py.getitem data "indexName") ;;
  table_name <- lift (Py.getitem data "tableName") ;;
  columns <- lift (Py.getitem data "columns") ;;
  cols <- lift (Py.iter columns) ;;
  names <- lift (map_result (fun col => Py.getitem col "name") cols) ;;
  names <- lift (Py.strings names) ;;
  let column_list := PyStr.join ", " names in
  let sql := "CREATE INDEX " ++ Py.str index_name ++ " ON "
               ++ Py.str table_name ++ " (" ++ column_list ++ ")" in
  execute_sql sql [].

Definition _drop_table (data : jvalue) : M unit :=
  table_name <- lift (Py.getitem data "tableName") ;;
  let sql := "DROP TABLE IF EXISTS " ++ Py.str table_name in
  execute_sql sql [].

(** [cursor.execute] takes a [str] only. *)
Definition _execute_raw_sql (data : jvalue) : M unit :=
  sql <- lift (Py.getitem data "sql") ;;
  match sql with
  | JStr s => execute_sql s []
  | _ => raise TypeError
  end.

Definition _insert_data (data : jvalue) : M unit :=
  table_name <- lift (Py.getitem data "tableName") ;;
  cs <- lift (Py.getitem data "columns") ;;
  columns <- lift (Py.keys cs) ;;
  cs <- lift (Py.getitem data "columns") ;;
  values <- lift (Py.values cs) ;;
  let placeholders := PyStr.join ", " (map (fun _ => "?") values) in
  let column_list := PyStr.join ", " columns in
  let sql := "INSERT INTO " ++ Py.str table_name ++ " (" ++ column_list
               ++ ") VALUES (" ++ placeholders ++ ")" in
  execute_sql sql values.

Definition _execute_change (change : jvalue) : M unit :=
  ks <- lift (Py.keys change) ;;
  change_type <- lift (Py.first ks) ;;
  change_data <- lift (Py.getitem change change_type) ;;
  if String.eqb change_type "createTable" then _create_table change_data
  else if String.eqb change_type "addColumn" then _add_column change_data
  else if String.eqb change_type "dropColumn" then _drop_column change_data
  else if String.eqb change_type "renameColumn"
       then _rename_column change_data
  else if String.eqb change_type "createIndex" then _create_index change_data
  else if String.eqb change_type "dropTable" then _drop_table change_data
  else if String.eqb change_type "sql" then _execute_raw_sql change_data
  else if String.eqb change_type "insert" then _insert_data change_data
  else raise (ValueError ("Unknown change type: " ++ change_type)).

(** [for change in changes: self._execute_change(change)] *)
Definition execute_changes (changes : jvalue) : M unit :=
  items <- lift (Py.iter changes) ;;
  for_each items _execute_change.

Definition execute_migration (migration : Migration.t) (filename : string)
  : M bool :=
  echo (MsgExecuting (Py.str (Migration.id migration))
                     (Py.str (Migration.author migration))) ;;
  try_except
    (execute_changes (Migration.changes migration) ;;
     executed <- get_executed_migrations ;;
     let order := Z.of_nat (length executed) + 1 in
     now <- datetime_now_isoformat ;;
     execute_sql_insert_changelog
       (Migration.id migration) (Migration.author migration)
       filename now order (Migration.checksum migration)
       (Migration.description migration) ;;
     echo (MsgExecuted (Py.str (Migration.id migration))) ;;
     ret true)
    (fun e =>
       echo (MsgExecuteError (Py.str (Migration.id migration)) e) ;;
       ret false).

Definition rollback_migration (migration : Migration.t) : M bool :=
  echo (MsgRollingBack (Py.str (Migration.id migration))) ;;
  try_except
    (if negb (Py.truthy (Migration.rollback migration))
     then echo MsgNoRollback ;; ret false
     else
       execute_changes (Migration.rollback migration) ;;
       execute_sql_delete_changelog (Migration.id migration) ;;
       echo (MsgRolledBack (Py.str (Migration.id migration))) ;;
       ret true)
    (fun e =>
       echo (MsgRollbackError (Py.str (Migration.id migration)) e) ;;
       ret false).

(** *** The commands, from the parsed changelog on *)

(** The body of the loop over [pending]: the value [execute_migration]
    returns is dropped. *)
Definition update_body (changelog_file : string) (migration : Migration.t)
  : M unit :=
  _ <- execute_migration migration changelog_file ;; ret tt.

Definition update (migrations : list Migration.t) (changelog_file : string)
  : M unit :=
  executed <- get_executed_migrations ;;
  let pending := pending_of migrations executed in
  match pending with
  | [] => echo MsgUpToDate
  | _ =>
      echo (MsgFoundPending (length pending)) ;;
      for_each pending (update_body changelog_file)
  end.

(** The body of the loop over [to_rollback]: an identifier that is not a
    key of [migrations_dict] falls through the [if]. *)
Definition rollback_body (migrations_dict : list (hkey * Migration.t))
    (migration_id : option string) : M unit :=
  match dict_get migrations_dict (PyKey.of_text migration_id) with
  | Some migration => _ <- rollback_migration migration ;; ret tt
  | None => ret tt
  end.

Definition rollback (count : Z) (migrations : list Migration.t) : M unit :=
  executed <- get_executed_migrations ;;
  let to_rollback := to_rollback_of count executed in
  migrations_dict <- lift (migrations_dict_of migrations) ;;
  for_each to_rollback (rollback_body migrations_dict).

(** [execute_sql("UPDATE DATABASECHANGELOG SET tag = ? WHERE id = ?", ...)] *)
Definition execute_sql_update_tag (tag_name : string) (id : option string)
  : M unit :=
  fun w =>
    (Ok tt,
     commit (set_changelog
               (map (fun r => if id_is id r then set_tag tag_name r else r)
                    (changelog (db w))) w)).

(** [execute_sql("DELETE FROM DATABASECHANGELOG")] *)
Definition execute_sql_clear_changelog : M unit :=
  fun w => (Ok tt, commit (set_changelog [] w)).

(** [fetch_all("SELECT COUNT( * ) as count FROM DATABASECHANGELOG")[0]['count']] *)
Definition fetch_count_changelog : M Z :=
  fun w => (Ok (Z.of_nat (length (changelog (db w)))), w).

(** A command line invocation: [cli] builds the [DatabaseManager] and then
    runs the command. *)
Definition cli_update (migrations : list Migration.t)
    (changelog_file : string) : M unit :=
  DatabaseManager ;; update migrations changelog_file.

Definition cli_rollback (count : Z) (migrations : list Migration.t)
  : M unit :=
  DatabaseManager ;; rollback count migrations.

End Engine.

Arguments Database Schema : clear implicits.
Arguments mkDatabase {Schema}.
Arguments tables {Schema}.
Arguments changelog {Schema}.
Arguments changeloglock {Schema}.
Arguments World Schema : clear implicits.
Arguments M Schema A : clear implicits.
Arguments mkWorld {Schema}.
Arguments db {Schema}.
Arguments durable {Schema}.
Arguments clock {Schema}.
Arguments console {Schema}.
Arguments set_db {Schema}.
Arguments set_clock {Schema}.
Arguments set_console {Schema}.
Arguments set_changelog {Schema}.
Arguments set_changeloglock {Schema}.
Arguments commit {Schema}.
Arguments ret {Schema A}.
Arguments raise {Schema A}.
Arguments bind {Schema A B}.
Arguments try_except {Schema A}.
Arguments lift {Schema A}.
Arguments echo {Schema}.
Arguments datetime_now_isoformat {Schema}.
Arguments for_each {Schema A}.
Arguments connect {Schema}.
Arguments _init_changelog_table {Schema}.
Arguments DatabaseManager {Schema}.
Arguments execute_sql {Schema}.
Arguments execute_sql_insert_changelog {Schema}.
Arguments execute_sql_delete_changelog {Schema}.
Arguments fetch_all_changelog {Schema}.
Arguments get_executed_migrations {Schema}.
Arguments _create_table {Schema}.
Arguments _add_column {Schema}.
Arguments _drop_column {Schema}.
Arguments _rename_column {Schema}.
Arguments _create_index {Schema}.
Arguments _drop_table {Schema}.
Arguments _execute_raw_sql {Schema}.
Arguments _insert_data {Schema}.
Arguments _execute_change {Schema}.
Arguments execute_changes {Schema}.
Arguments execute_migration {Schema}.
Arguments rollback_migration {Schema}.
Arguments update_body {Schema}.
Arguments update {Schema}.
Arguments rollback_body {Schema}.
Arguments rollback {Schema}.
Arguments execute_sql_update_tag {Schema}.
Arguments execute_sql_clear_changelog {Schema}.
Arguments fetch_count_changelog {Schema}.
Arguments cli_update {Schema}.
Arguments cli_rollback {Schema}.

(* ================================================================== *)
(** ** The other commands

    [tag], [validate] and [clear]; the line each command prints is the
    value it returns. *)

Module Cli.

Section Commands.

Variable Schema : Type.

Notation "x <- m ;; k" := (bind (Schema := Schema) m (fun x => k))
  (at level 61, m at next level, right associativity).
Notation "m ;; k" := (bind (Schema := Schema) m (fun _ => k))
  (at level 61, right associativity).

Definition tag (tag_name : string) : M Schema tag_message :=
  executed <- get_executed_migrations ;;
  match executed with
  | [] => ret MsgNoMigrationsToTag
  | _ =>
      let last_migration := last executed None in
      execute_sql_update_tag tag_name last_migration ;;
      ret (MsgTagged tag_name)
  end.

(** The count that [validate] prints. *)
Definition validate : M Schema Z :=
  count <- fetch_count_changelog ;;
  ret count.

Definition clear : M Schema unit :=
  execute_sql_clear_changelog.

End Commands.

Arguments tag {Schema}.
Arguments validate {Schema}.
Arguments clear {Schema}.

End Cli.

(* ================================================================== *)
(** ** Stores for the worked examples

    The user's part of the database is the list of the statements run so
    far. [journal_execute] accepts every statement; [strict_execute]
    refuses a statement that has been run before, as SQLite refuses a
    second [CREATE TABLE] of one table. Neither touches the engine's
    tables. *)

Definition Journal : Type := list (string * list jvalue).

Definition journal_execute (sql : string) (params : list jvalue)
    (d : Database Journal) : bool * Database Journal :=
  (true,
   mkDatabase (tables d ++ [(sql, params)])%list (changelog d)
     (changeloglock d)).

Definition strict_execute (sql : string) (params : list jvalue)
    (d : Database Journal) : bool * Database Journal :=
  if existsb (fun s => String.eqb (fst s) sql) (tables d) then (false, d)
  else journal_execute sql params d.

Definition stamp (n : nat) : string := "t" ++ PyStr.of_int (Z.of_nat n).

Definition empty : Database Journal := mkDatabase [] [] None.

(** A database file that does not exist yet. *)
Definition fresh : World Journal := mkWorld empty empty 0%nat [].

Definition run {A : Type} (m : M Journal A) (w : World Journal)
  : World Journal := snd (m w).

Definition table_change (name : string) : jvalue :=
  JDict [("createTable", JDict
    [("tableName", JStr name);
     ("columns", JList [JDict [("name", JStr "id");
                               ("type", JStr "INTEGER")]])])].

Definition drop_change (name : string) : jvalue :=
  JDict [("dropTable", JDict [("tableName", JStr name)])].

(** A change set that creates a table and drops it on rollback. *)
Definition table_set (id : jvalue) (name : string) : Migration.t :=
  Migration.new id (JStr "dev") (JStr "")
    (JList [table_change name]) (JList [drop_change name]).

Definition cs_A : Migration.t := table_set (JStr "A") "a".
Definition cs_B : Migration.t := table_set (JStr "B") "b".
Definition cs_C : Migration.t := table_set (JStr "C") "c".
Definition cs_D : Migration.t := table_set (JStr "D") "d".

Definition cs_B_no_rollback : Migration.t :=
  Migration.new (JStr "B") (JStr "dev") (JStr "")
    (JList [table_change "b"]) (JList []).

(** The first change set of the sample changelog of [generate], whose
    identifier is the integer 1. *)
Definition cs_users : Migration.t :=
  Migration.new (JInt 1) (JStr "john.doe") (JStr "Create users table")
    (JList [JDict [("createTable", JDict
       [("tableName", JStr "users");
        ("columns", JList
          [JDict [("name", JStr "id"); ("type", JStr "INTEGER");
                  ("constraints", JDict [("primaryKey", JBool true);
                                         ("autoIncrement", JBool true)])];
           JDict [("name", JStr "username"); ("type", JStr "VARCHAR(50)");
                  ("constraints", JDict [("nullable", JBool false);
                                         ("unique", JBool true)])];
           JDict [("name", JStr "created_at"); ("type", JStr "TIMESTAMP");
                  ("defaultValue", JStr "CURRENT_TIMESTAMP")]])])]])
    (JList [JDict [("dropTable", JDict [("tableName", JStr "users")])]]).

(** The same change set with the identifier written as a string. *)
Definition cs_users_str : Migration.t :=
  Migration.new (JStr "1") (Migration.author cs_users)
    (Migration.description cs_users) (Migration.changes cs_users)
    (Migration.rollback cs_users).

Definition cs_phone : Migration.t :=
  Migration.new (JStr "3") (JStr "jane.smith")
    (JStr "Add phone column to users")
    (JList [JDict [("addColumn", JDict
       [("tableName", JStr "users");
        ("column", JDict [("name", JStr "phone");
                          ("type", JStr "VARCHAR(20)")])])]])
    (JList [JDict [("dropColumn", JDict [("tableName", JStr "users");
                                         ("columnName", JStr "phone")])]]).

(** A change set whose second operation is malformed: [addColumn] without
    a [tableName]. *)
Definition malformed_change : jvalue :=
  JDict [("addColumn", JDict
    [("column", JDict [("name", JStr "phone");
                       ("type", JStr "VARCHAR(20)")])])].

Definition cs_half : Migration.t :=
  Migration.new (JStr "half") (JStr "dev") (JStr "")
    (JList [table_change "t"; malformed_change]) (JList []).

(** A change set of an unknown kind. *)
Definition cs_bad : Migration.t :=
  Migration.new (JStr "bad") (JStr "dev") (JStr "")
    (JList [JDict [("frobnicate", JDict [])]]) (JList []).

(** Change set X as it was applied, and as the document defines it later. *)
Definition cs_X : Migration.t := table_set (JStr "X") "x".
Definition cs_X_edited : Migration.t :=
  Migration.new (JStr "X") (JStr "dev") (JStr "")
    (JList [table_change "x"; table_change "y"]) (JList [drop_change "x"]).

(** A store whose lock row says that another engine holds the lock. *)
Definition held_db : Database Journal :=
  mkDatabase [] [] (Some (mkLock true (Some "t0") (Some "other-host"))).
Definition held : World Journal := mkWorld held_db held_db 0%nat [].

Definition ids_and_orders (w : World Journal)
  : list (option string * Z) :=
  map (fun r => (row_id r, order_executed r)) (changelog (db w)).

(* ================================================================== *)
(** ** The model against the interpreter

    Values that CPython gives for the same inputs. *)

Definition e_acute : string := String (ascii_of_N 233) "".
Definition del : string := String (ascii_of_N 127) "".
Definition newline : string := String (ascii_of_N 10) "".
Definition tab : string := String (ascii_of_N 9) "".
Definition dq : string := String PyStr.dquote "".

Definition escaped_changes : jvalue :=
  JList
    [JDict [("sql", JDict
       [("sql", JStr ("say " ++ dq ++ "hi" ++ dq ++ "\now" ++ newline ++ tab
                        ++ e_acute ++ del))])];
     JDict [("insert", JDict
       [("tableName", JStr "t");
        ("columns", JDict [("n", JInt (-5)); ("ok", JBool false);
                           ("z", JNull);
                           ("l", JList [JInt 1; JStr "a"])])])]].

Example checksum_with_escapes :
  Migration.checksum
    (Migration.new (JInt 7) (JStr ("ann" ++ e_acute)) (JStr "")
       escaped_changes JNull)
  = "f3319ebf916fc494c4aa74a8a6e12ce0".
Proof. vm_compute. reflexivity. Qed.

Example checksum_of_the_sample :
  Migration.checksum cs_users = "7d554e32640b20fcab4e48e0bee39ebc".
Proof. vm_compute. reflexivity. Qed.

Example column_def_of_odd_values :
  column_def
    (JDict [("name", JStr "a");
            ("type", JList [JStr "x"; JStr ("q" ++ dq ++ "t"); JStr "it's";
                            JDict [("k", JNull)]]);
            ("constraints", JDict [("nullable", JInt 0);
                                   ("unique", JStr "yes")]);
            ("defaultValue", JBool true)])
  = Ok ("a ['x', 'q" ++ dq ++ "t', " ++ dq ++ "it's" ++ dq
          ++ ", {'k': None}] NOT NULL UNIQUE DEFAULT True").
Proof. vm_compute. reflexivity. Qed.

Example slices_of_three :
  slice_from (- 3) ["A"; "B"; "C"] = ["A"; "B"; "C"] /\
  slice_from (- 2) ["A"; "B"; "C"] = ["B"; "C"] /\
  slice_from (- 10) ["A"; "B"; "C"] = ["A"; "B"; "C"] /\
  slice_from (- 0) ["A"; "B"; "C"] = ["A"; "B"; "C"] /\
  slice_from (- (-1)) ["A"; "B"; "C"] = ["B"; "C"] /\
  slice_from (- (-5)) ["A"; "B"; "C"] = [].
Proof. vm_compute. repeat split. Qed.

(* ================================================================== *)
(** ** Properties of the engine, for every store *)

(** The messages that the handlers of the changes print. *)
Definition notes (l : list message) : Prop :=
  Forall (eq MsgDropColumnNote) l.

Section EngineFacts.

Variable Schema : Type.
Variable sqlite_execute :
  string -> list jvalue -> Database Schema -> bool * Database Schema.
Variable isoformat : nat -> string.

Local Notation W := (World Schema).
Local Notation change := (_execute_change sqlite_execute).

Definition add_console (l : list message) (w : W) : W :=
  set_console (console w ++ l)%list w.

Definition tick (w : W) : W := set_clock (S (clock w)) w.

Lemma add_console_nil (w : W) : add_console [] w = w.
Proof.
  destruct w; unfold add_console, set_console; simpl.
  now rewrite app_nil_r.
Qed.

Lemma add_console_app (l1 l2 : list message) (w : W) :
  add_console l2 (add_console l1 w) = add_console (l1 ++ l2)%list w.
Proof.
  destruct w; unfold add_console, set_console; simpl.
  now rewrite app_assoc.
Qed.

(** *** The shape of one change

    A computation is [quiet] when it only prints notes and then returns or
    raises, whatever the store; it is a [statement] when it prints notes
    and then either raises or hands one statement to SQLite. *)

Definition quiet {A : Type} (m : M Schema A) : Prop :=
  exists r l, notes l /\ forall w, m w = (r, add_console l w).

Definition statement (m : M Schema unit) : Prop :=
  exists l, notes l /\
    ((exists e, forall w, m w = (Raise e, add_console l w)) \/
     (exists sql params,
         forall w, m w = execute_sql sqlite_execute sql params
                           (add_console l w))).

Lemma notes_app (l1 l2 : list message) :
  notes l1 -> notes l2 -> notes (l1 ++ l2).
Proof. intros. now apply Forall_app. Qed.

Lemma quiet_lift {A : Type} (r : result A) : quiet (lift r).
Proof.
  exists r, []. split; [constructor |].
  intro w. now rewrite add_console_nil.
Qed.

Lemma quiet_ret {A : Type} (a : A) : quiet (ret a).
Proof. exact (quiet_lift (Ok a)). Qed.

Lemma quiet_note : quiet (echo MsgDropColumnNote).
Proof.
  exists (Ok tt), [MsgDropColumnNote]. split; [| reflexivity].
  now repeat constructor.
Qed.

Lemma quiet_bind {A B : Type} (m : M Schema A) (k : A -> M Schema B) :
  quiet m -> (forall a, quiet (k a)) -> quiet (bind m k).
Proof.
  intros (r & l & N & Hm) Hk. destruct r as [a | e].
  - destruct (Hk a) as (r' & l' & N' & Hka).
    exists r', (l ++ l')%list. split; [now apply notes_app |].
    intro w. unfold bind. now rewrite Hm, Hka, add_console_app.
  - exists (Raise e), l. split; [assumption |].
    intro w. unfold bind. now rewrite Hm.
Qed.

Lemma statement_raise (e : exn) : statement (raise e).
Proof.
  exists []. split; [constructor |]. left. exists e.
  intro w. now rewrite add_console_nil.
Qed.

Lemma statement_execute_sql (sql : string) (params : list jvalue) :
  statement (execute_sql sqlite_execute sql params).
Proof.
  exists []. split; [constructor |]. right. exists sql, params.
  intro w. now rewrite add_console_nil.
Qed.

Lemma statement_bind {A : Type} (m : M Schema A) (k : A -> M Schema unit) :
  quiet m -> (forall a, statement (k a)) -> statement (bind m k).
Proof.
  intros (r & l & N & Hm) Hk. destruct r as [a | e].
  - destruct (Hk a) as (l' & N' & [(e & Hka) | (sql & params & Hka)]).
    + exists (l ++ l')%list. split; [now apply notes_app |].
      left. exists e. intro w. unfold bind.
      now rewrite Hm, Hka, add_console_app.
    + exists (l ++ l')%list. split; [now apply notes_app |].
      right. exists sql, params. intro w.
      unfold bind. now rewrite Hm, Hka, add_console_app.
  - exists l. split; [assumption |]. left. exists e.
    intro w. unfold bind. now rewrite Hm.
Qed.

Ltac shape :=
  repeat first
    [ apply statement_execute_sql
    | apply statement_raise
    | apply quiet_lift
    | apply quiet_ret
    | apply quiet_note
    | apply statement_bind; [ | intro ]
    | apply quiet_bind; [ | intro ]
    | match goal with
      | |- statement (if ?b then _ else _) => destruct b
      | |- quiet (if ?b then _ else _) => destruct b
      | |- statement (match ?x with _ => _ end) => destruct x
      end
    | progress cbv zeta ].

Lemma _execute_change_statement (c : jvalue) : statement (change c).
Proof.
  unfold _execute_change, _create_table, _add_column, _drop_column,
    _rename_column, _create_index, _drop_table, _execute_raw_sql,
    _insert_data.
  shape.
Qed.

(** One change leaves the clock alone and adds only notes to the
    terminal. *)
Lemma _execute_change_console (c : jvalue) (w : W) :
  clock (snd (change c w)) = clock w /\
  exists l, notes l /\ console (snd (change c w)) = (console w ++ l)%list.
Proof.
  destruct (_execute_change_statement c)
    as (l & N & [(e & H) | (sql & params & H)]); rewrite H.
  - split; [reflexivity |]. now exists l.
  - unfold execute_sql.
    destruct (sqlite_execute sql params (db (add_console l w)))
      as [[|] d]; (split; [reflexivity |]); now exists l.
Qed.

(** When a change returns, what it did is committed. *)
Lemma _execute_change_commits (c : jvalue) (w w' : W) :
  change c w = (Ok tt, w') -> durable w' = db w'.
Proof.
  destruct (_execute_change_statement c)
    as (l & N & [(e & H) | (sql & params & H)]); rewrite H.
  - discriminate.
  - unfold execute_sql.
    destruct (sqlite_execute sql params (db (add_console l w)))
      as [[|] d]; intro E; inversion E; reflexivity.
Qed.

(** A change that raises commits nothing. *)
Lemma _execute_change_raise (c : jvalue) (w w' : W) (e : exn) :
  change c w = (Raise e, w') -> durable w' = durable w.
Proof.
  destruct (_execute_change_statement c)
    as (l & N & [(e' & H) | (sql & params & H)]); rewrite H.
  - intro E. inversion E. reflexivity.
  - unfold execute_sql.
    destruct (sqlite_execute sql params (db (add_console l w)))
      as [[|] d]; intro E; inversion E; reflexivity.
Qed.

Lemma for_each_app {A : Type} (l1 l2 : list A) (body : A -> M Schema unit)
    (w : W) :
  for_each (l1 ++ l2) body w
  = match for_each l1 body w with
    | (Ok _, w1) => for_each l2 body w1
    | (Raise e, w1) => (Raise e, w1)
    end.
Proof.
  revert w. induction l1 as [| x l1 IH]; intro w; simpl.
  - reflexivity.
  - unfold bind. destruct (body x w) as [[[] | e] w1]; [apply IH | reflexivity].
Qed.

Lemma for_each_ext {A : Type} (l : list A) (f g : A -> M Schema unit) :
  (forall x w, f x w = g x w) ->
  forall w, for_each l f w = for_each l g w.
Proof.
  intros E. induction l as [| x l IH]; intro w; simpl.
  - reflexivity.
  - unfold bind. rewrite E.
    destruct (g x w) as [[[] | e] w1]; [apply IH | reflexivity].
Qed.

Lemma for_each_filter {A : Type} (keep : A -> bool)
    (body : A -> M Schema unit) (l : list A) :
  (forall x w, keep x = false -> body x w = (Ok tt, w)) ->
  forall w, for_each (filter keep l) body w = for_each l body w.
Proof.
  intro H. induction l as [| x l IH]; intro w; simpl.
  - reflexivity.
  - destruct (keep x) eqn:K; simpl; unfold bind.
    + destruct (body x w) as [[[] | e] w1]; [apply IH | reflexivity].
    + rewrite (H x w K). apply IH.
Qed.

(** A property of the world that each step of a loop keeps is kept by the
    loop, which ends after its last item or at the first exception. *)
Lemma for_each_keeps {A : Type} (R : W -> Prop)
    (body : A -> M Schema unit) (xs : list A) :
  (forall x a, R a -> R (snd (body x a))) ->
  forall a, R a -> R (snd (for_each xs body a)).
Proof.
  intro Step. induction xs as [| x xs IH]; intros a Ha; simpl.
  - exact Ha.
  - unfold bind. specialize (Step x a Ha).
    destruct (body x a) as [[[] | e] a1]; simpl in *; [now apply IH | easy].
Qed.

Lemma changes_console (items : list jvalue) (w : W) :
  clock (snd (for_each items change w)) = clock w /\
  exists l, notes l /\
    console (snd (for_each items change w)) = (console w ++ l)%list.
Proof.
  apply (for_each_keeps
           (fun a => clock a = clock w /\
                     exists l, notes l /\
                       console a = (console w ++ l)%list)).
  - intros c a (Hc & l & N & Hl).
    destruct (_execute_change_console c a) as (Hc' & l' & N' & Hl').
    split; [congruence |]. exists (l ++ l')%list.
    split; [now apply notes_app |]. now rewrite Hl', Hl, app_assoc.
  - split; [reflexivity |]. exists []. split; [constructor |].
    now rewrite app_nil_r.
Qed.

Lemma execute_changes_console (v : jvalue) (w : W) :
  clock (snd (execute_changes sqlite_execute v w)) = clock w /\
  exists l, notes l /\
    console (snd (execute_changes sqlite_execute v w))
    = (console w ++ l)%list.
Proof.
  unfold execute_changes, bind, lift.
  destruct (Py.iter v) as [items | e].
  - apply changes_console.
  - split; [reflexivity |]. exists []. split; [constructor |].
    simpl. now rewrite app_nil_r.
Qed.

(** *** The ledger query *)

Lemma insert_by_order_length (r : ChangelogRow) (l : list ChangelogRow) :
  length (insert_by_order r l) = S (length l).
Proof.
  induction l as [| x t IH]; simpl; [reflexivity |].
  destruct (order_executed r <=? order_executed x); simpl; congruence.
Qed.

Lemma order_by_length (rows : list ChangelogRow) :
  length (order_by_order_executed rows) = length rows.
Proof.
  induction rows as [| r t IH]; simpl; [reflexivity |].
  now rewrite insert_by_order_length, IH.
Qed.

Lemma insert_by_order_In (x r : ChangelogRow) (l : list ChangelogRow) :
  In x (insert_by_order r l) <-> x = r \/ In x l.
Proof.
  induction l as [| y t IH]; simpl.
  - intuition congruence.
  - destruct (order_executed r <=? order_executed y); simpl.
    + intuition congruence.
    + rewrite IH. intuition congruence.
Qed.

Lemma order_by_In (x : ChangelogRow) (rows : list ChangelogRow) :
  In x (order_by_order_executed rows) <-> In x rows.
Proof.
  induction rows as [| r t IH]; simpl; [tauto |].
  rewrite insert_by_order_In, IH. intuition congruence.
Qed.

Lemma insert_by_order_sorted (r : ChangelogRow) (l : list ChangelogRow) :
  StronglySorted (fun a b => order_executed a <= order_executed b) l ->
  StronglySorted (fun a b => order_executed a <= order_executed b)
    (insert_by_order r l).
Proof.
  induction l as [| x t IH]; intro H; simpl.
  - repeat constructor.
  - apply StronglySorted_inv in H. destruct H as (Ht & Hx).
    destruct (Z.leb_spec (order_executed r) (order_executed x)).
    + constructor; [now constructor |].
      constructor; [assumption |].
      eapply Forall_impl; [| exact Hx]. simpl. intros. lia.
    + constructor; [now apply IH |].
      apply Forall_forall. intros y Hy.
      apply insert_by_order_In in Hy. destruct Hy as [-> | Hy]; [lia |].
      rewrite Forall_forall in Hx. now apply Hx.
Qed.

(** The model of [ORDER BY order_executed] returns the rows by ascending
    order. *)
Lemma order_by_sorted (rows : list ChangelogRow) :
  StronglySorted (fun a b => order_executed a <= order_executed b)
    (order_by_order_executed rows).
Proof.
  induction rows as [| r t IH]; simpl.
  - constructor.
  - now apply insert_by_order_sorted.
Qed.

Lemma order_by_of_sorted (rows : list ChangelogRow) :
  StronglySorted (fun a b => order_executed a <= order_executed b) rows ->
  order_by_order_executed rows = rows.
Proof.
  induction rows as [| r t IH]; simpl; intro H; [reflexivity |].
  apply StronglySorted_inv in H. destruct H as (Ht & Hr).
  rewrite (IH Ht). destruct t as [| x t]; simpl; [reflexivity |].
  inversion Hr as [| ? ? Hx _]; subst.
  now destruct (Z.leb_spec (order_executed r) (order_executed x)); [| lia].
Qed.

(** What [get_executed_migrations] returns in [w]. *)
Definition executed_ids (w : W) : list (option string) :=
  map row_id (order_by_order_executed (changelog (db w))).

Lemma get_executed_migrations_eq (w : W) :
  get_executed_migrations w = (Ok (executed_ids w), w).
Proof. reflexivity. Qed.

Lemma executed_ids_In (x : option string) (w : W) :
  In x (executed_ids w) <-> In x (map row_id (changelog (db w))).
Proof.
  unfold executed_ids. rewrite !in_map_iff.
  split; intros (r & E & H); exists r; split; try assumption;
    now apply order_by_In.
Qed.

Lemma executed_ids_length (w : W) :
  length (executed_ids w) = length (changelog (db w)).
Proof. unfold executed_ids. now rewrite length_map, order_by_length. Qed.

(** *** [execute_migration] and [rollback_migration], step by step *)

Local Notation apply_migration := (execute_migration sqlite_execute isoformat).
Local Notation undo_migration := (rollback_migration sqlite_execute).
Local Notation run_changes := (execute_changes sqlite_execute).

Definition announce (m : Migration.t) (w : W) : W :=
  add_console [MsgExecuting (Py.str (Migration.id m))
                            (Py.str (Migration.author m))] w.

(** The row [execute_migration] tries to insert when it reaches the ledger
    in [w]. *)
Definition new_row (m : Migration.t) (filename : string) (w : W)
  : result ChangelogRow :=
  changelog_row (Migration.id m) (Migration.author m) filename
    (isoformat (clock w)) (Z.of_nat (length (changelog (db w))) + 1)
    (Migration.checksum m) (Migration.description m).

(** The world after the INSERT of [row], its commit and the message. *)
Definition recorded (m : Migration.t) (row : ChangelogRow) (w : W) : W :=
  add_console [MsgExecuted (Py.str (Migration.id m))]
    (commit (set_changelog (changelog (db w) ++ [row])%list (tick w))).

Definition failed (m : Migration.t) (e : exn) (w : W) : W :=
  add_console [MsgExecuteError (Py.str (Migration.id m)) e] w.

Lemma execute_migration_eq (m : Migration.t) (f : string) (w : W) :
  apply_migration m f w
  = match run_changes (Migration.changes m) (announce m w) with
    | (Ok _, w1) =>
        match new_row m f w1 with
        | Ok row =>
            if existsb (id_is (row_id row)) (changelog (db w1))
            then (Ok false, failed m SqliteError (tick w1))
            else (Ok true, recorded m row w1)
        | Raise e => (Ok false, failed m e (tick w1))
        end
    | (Raise e, w1) => (Ok false, failed m e w1)
    end.
Proof.
  unfold execute_migration, try_except, bind, echo, announce, add_console.
  destruct (run_changes (Migration.changes m) _) as [[[] | e] w1].
  - rewrite get_executed_migrations_eq.
    unfold datetime_now_isoformat, execute_sql_insert_changelog, new_row.
    rewrite executed_ids_length. simpl.
    destruct (changelog_row _ _ _ _ _ _ _) as [row | e]; [| reflexivity].
    destruct (existsb _ (changelog (db w1))); reflexivity.
  - reflexivity.
Qed.

(** [execute_migration] never raises. *)
Lemma execute_migration_returns (m : Migration.t) (f : string) (w : W) :
  exists b, fst (apply_migration m f w) = Ok b.
Proof.
  rewrite execute_migration_eq.
  destruct (run_changes _ _) as [[[] | e] w1]; [| now exists false].
  destruct (new_row m f w1) as [row | e]; [| now exists false].
  destruct (existsb _ _); [now exists false | now exists true].
Qed.

Definition rolling_back (m : Migration.t) (w : W) : W :=
  add_console [MsgRollingBack (Py.str (Migration.id m))] w.

(** The world after the DELETE for the bound identifier [t], its commit
    and the message. *)
Definition unrecorded (m : Migration.t) (t : option string) (w : W) : W :=
  add_console [MsgRolledBack (Py.str (Migration.id m))]
    (commit (set_changelog
               (filter (fun r => negb (id_is t r)) (changelog (db w))) w)).

Definition not_undone (m : Migration.t) (e : exn) (w : W) : W :=
  add_console [MsgRollbackError (Py.str (Migration.id m)) e] w.

Lemma rollback_migration_eq (m : Migration.t) (w : W) :
  undo_migration m w
  = if Py.truthy (Migration.rollback m) then
      match run_changes (Migration.rollback m) (rolling_back m w) with
      | (Ok _, w1) =>
          match Sqlite.bind_text (Migration.id m) with
          | Ok t => (Ok true, unrecorded m t w1)
          | Raise e => (Ok false, not_undone m e w1)
          end
      | (Raise e, w1) => (Ok false, not_undone m e w1)
      end
    else (Ok false, add_console [MsgNoRollback] (rolling_back m w)).
Proof.
  unfold rollback_migration, try_except, bind, echo, rolling_back,
    add_console.
  destruct (Py.truthy (Migration.rollback m)); simpl; [| reflexivity].
  destruct (run_changes (Migration.rollback m) _) as [[[] | e] w1];
    [| reflexivity].
  unfold execute_sql_delete_changelog.
  destruct (Sqlite.bind_text (Migration.id m)); reflexivity.
Qed.

Lemma rollback_migration_returns (m : Migration.t) (w : W) :
  exists b, fst (undo_migration m w) = Ok b.
Proof.
  rewrite rollback_migration_eq.
  destruct (Py.truthy _); [| now exists false].
  destruct (run_changes _ _) as [[[] | e] w1]; [| now exists false].
  destruct (Sqlite.bind_text _); [now exists true | now exists false].
Qed.

(** *** The commands *)

Local Notation update_loop :=
  (fun f pending => for_each pending
                      (update_body sqlite_execute isoformat f)).

Lemma update_eq (ms : list Migration.t) (f : string) (w : W) :
  update sqlite_execute isoformat ms f w
  = match pending_of ms (executed_ids w) with
    | [] => (Ok tt, add_console [MsgUpToDate] w)
    | pending =>
        update_loop f pending
          (add_console [MsgFoundPending (length pending)] w)
    end.
Proof.
  unfold update, bind. rewrite get_executed_migrations_eq.
  now destruct (pending_of ms (executed_ids w)).
Qed.

Lemma update_body_eq (f : string) (m : Migration.t) (w : W) :
  update_body sqlite_execute isoformat f m w
  = (Ok tt, snd (apply_migration m f w)).
Proof.
  unfold update_body, bind, ret.
  destruct (execute_migration_returns m f w) as (b & E).
  destruct (apply_migration m f w) as [r w']. simpl in *. now subst.
Qed.

Definition has_definition (d : list (hkey * Migration.t))
    (k : option string) : bool :=
  match dict_get d (PyKey.of_text k) with Some _ => true | None => false end.

Lemma rollback_eq (count : Z) (ms : list Migration.t) (w : W) :
  rollback sqlite_execute count ms w
  = match migrations_dict_of ms with
    | Ok d =>
        for_each (to_rollback_of count (executed_ids w))
          (rollback_body sqlite_execute d) w
    | Raise e => (Raise e, w)
    end.
Proof.
  unfold rollback, bind, lift. rewrite get_executed_migrations_eq.
  now destruct (migrations_dict_of ms).
Qed.

Lemma rollback_body_eq (d : list (hkey * Migration.t))
    (k : option string) (w : W) :
  rollback_body sqlite_execute d k w
  = match dict_get d (PyKey.of_text k) with
    | Some m => (Ok tt, snd (undo_migration m w))
    | None => (Ok tt, w)
    end.
Proof.
  unfold rollback_body. destruct (dict_get d _) as [m |]; [| reflexivity].
  unfold bind, ret. destruct (rollback_migration_returns m w) as (b & E).
  destruct (undo_migration m w) as [r w']. simpl in *. now subst.
Qed.

Lemma slice_from_tail {A : Type} (count : Z) (l : list A) :
  1 <= count ->
  rev (slice_from (- count) l) = firstn (Z.to_nat count) (rev l).
Proof.
  intro H. rewrite firstn_rev. f_equal. unfold slice_from.
  destruct (Z.ltb_spec (- count) 0); [| lia].
  f_equal. lia.
Qed.

Lemma slice_from_zero {A : Type} (l : list A) : slice_from (- 0) l = l.
Proof.
  unfold slice_from. simpl.
  rewrite Z.min_l by lia. reflexivity.
Qed.

(* ------------------------------------------------------------------ *)
(** *** The claims of the specification, for every store *)

Lemma changes_commit (items : list jvalue) (w w' : W) :
  items <> [] ->
  for_each items change w = (Ok tt, w') ->
  durable w' = db w'.
Proof.
  revert w. induction items as [| c items IH]; intros w N; [congruence |].
  simpl. unfold bind.
  destruct (change c w) as [[[] | e] w1] eqn:E; [| discriminate].
  destruct items as [| c' items].
  - simpl. unfold ret. intro H. inversion H; subst.
    exact (_execute_change_commits c w w' E).
  - apply IH. discriminate.
Qed.


(** The same change set with its author, description, operations and
    checksum replaced; the identifier and the rollback stay. *)
Definition redefine (a d c : Migration.t -> jvalue)
    (k : Migration.t -> string) (m : Migration.t) : Migration.t :=
  Migration.mk (Migration.id m) (a m) (d m) (c m) (Migration.rollback m)
    (k m).

Definition map_values (g : Migration.t -> Migration.t)
    (d : list (hkey * Migration.t)) : list (hkey * Migration.t) :=
  map (fun kv => (fst kv, g (snd kv))) d.

Lemma dict_set_map_values (g : Migration.t -> Migration.t)
    (d : list (hkey * Migration.t)) (k : hkey) (v : Migration.t) :
  dict_set (map_values g d) k (g v) = map_values g (dict_set d k v).
Proof.
  induction d as [| [k' v'] d IH]; simpl; [reflexivity |].
  destruct (PyKey.eqb k k'); simpl; [reflexivity | now rewrite IH].
Qed.

Lemma dict_get_map_values (g : Migration.t -> Migration.t)
    (d : list (hkey * Migration.t)) (k : hkey) :
  dict_get (map_values g d) k = option_map g (dict_get d k).
Proof.
  induction d as [| [k' v'] d IH]; simpl; [reflexivity |].
  now destruct (PyKey.eqb k k').
Qed.

Lemma migrations_dict_redefine (a d c : Migration.t -> jvalue)
    (k : Migration.t -> string) (ms : list Migration.t)
    (acc : list (hkey * Migration.t)) :
  migrations_dict_from (map_values (redefine a d c k) acc)
    (map (redefine a d c k) ms)
  = match migrations_dict_from acc ms with
    | Ok r => Ok (map_values (redefine a d c k) r)
    | Raise e => Raise e
    end.
Proof.
  revert acc. induction ms as [| m ms IH]; intro acc; simpl;
    [reflexivity |].
  destruct (PyKey.key (Migration.id m)) as [key |]; [| reflexivity].
  rewrite dict_set_map_values. apply IH.
Qed.

(** C2, as amended. [rollback] never compares fingerprints: of the
    change sets of the supplied document it reads the identifier and the
    rollback operations and nothing else. Replace their operations,
    authors, descriptions and checksums by anything: the run returns the
    same value and leaves the same world, so a change set edited after it
    was applied is rolled back as the unedited one. *)
Theorem rollback_ignores_fingerprints
    (a d c : Migration.t -> jvalue) (k : Migration.t -> string)
    (count : Z) (ms : list Migration.t) (w : W) :
  rollback sqlite_execute count (map (redefine a d c k) ms) w
  = rollback sqlite_execute count ms w.
Proof.
  rewrite !rollback_eq. unfold migrations_dict_of.
  change (@nil (hkey * Migration.t))
    with (map_values (redefine a d c k) []) at 1.
  rewrite migrations_dict_redefine.
  destruct (migrations_dict_from [] ms) as [dict | e]; [| reflexivity].
  apply for_each_ext. intros key w'. unfold rollback_body.
  rewrite dict_get_map_values.
  now destruct (dict_get dict (PyKey.of_text key)).
Qed.

(** C6, as amended. A targeted identifier with no change set in the
    supplied document is passed over without a message or an error and the
    run goes on: [rollback] does exactly what it would do on the targeted
    identifiers that the document defines, in the same order. (The
    dictionary of the document is built first; an unhashable identifier
    in it raises before anything is run.) *)
Theorem rollback_passes_over_missing_definitions
    (count : Z) (ms : list Migration.t) (w : W) :
  rollback sqlite_execute count ms w
  = match migrations_dict_of ms with
    | Ok d =>
        for_each
          (filter (has_definition d)
             (to_rollback_of count (executed_ids w)))
          (rollback_body sqlite_execute d) w
    | Raise e => (Raise e, w)
    end.
Proof.
  rewrite rollback_eq.
  destruct (migrations_dict_of ms) as [d | e]; [| reflexivity].
  symmetry. apply for_each_filter.
  intros k w' H. unfold has_definition in H. unfold rollback_body.
  now destruct (dict_get d (PyKey.of_text k)).
Qed.

(** *** Computations that do not depend on the lock row *)

(** Two worlds that differ at most in their rows of
    [DATABASECHANGELOGLOCK]. *)
Definition same_but_lock (w1 w2 : W) : Prop :=
  tables (db w1) = tables (db w2) /\
  changelog (db w1) = changelog (db w2) /\
  tables (durable w1) = tables (durable w2) /\
  changelog (durable w1) = changelog (durable w2) /\
  clock w1 = clock w2 /\
  console w1 = console w2.

(** A computation that neither reads nor writes the lock row: from worlds
    that differ in that row only it returns the same value and reaches
    worlds that differ in that row only, and the row the connection sees
    is the one it saw before. *)
Definition lock_blind {A : Type} (m : M Schema A) : Prop :=
  forall w1 w2, same_but_lock w1 w2 ->
    fst (m w1) = fst (m w2) /\
    same_but_lock (snd (m w1)) (snd (m w2)) /\
    changeloglock (db (snd (m w1))) = changeloglock (db w1).

Ltac open_worlds :=
  intros [[t1 c1 l1] [t1' c1' l1'] k1 o1] [[t2 c2 l2] [t2' c2' l2'] k2 o2]
         (E1 & E2 & E3 & E4 & E5 & E6);
  simpl in E1, E2, E3, E4, E5, E6; subst.

Lemma lock_blind_lift {A : Type} (r : result A) : lock_blind (lift r).
Proof. open_worlds. simpl. unfold same_but_lock. simpl. tauto. Qed.

Lemma lock_blind_ret {A : Type} (a : A) : lock_blind (ret a).
Proof. exact (lock_blind_lift (Ok a)). Qed.

Lemma lock_blind_echo (msg : message) : lock_blind (echo msg).
Proof. open_worlds. simpl. unfold same_but_lock. simpl. tauto. Qed.

Lemma lock_blind_now : lock_blind (datetime_now_isoformat isoformat).
Proof. open_worlds. simpl. unfold same_but_lock. simpl. tauto. Qed.

Lemma lock_blind_get_executed : lock_blind get_executed_migrations.
Proof. open_worlds. simpl. unfold same_but_lock. simpl. tauto. Qed.

Lemma lock_blind_insert (id author : jvalue) (f now : string) (order : Z)
    (checksum : string) (description : jvalue) :
  lock_blind
    (execute_sql_insert_changelog id author f now order checksum
       description).
Proof.
  open_worlds. unfold execute_sql_insert_changelog. simpl.
  destruct (changelog_row _ _ _ _ _ _ _) as [row | e]; simpl.
  - destruct (existsb _ c2); simpl; unfold same_but_lock; simpl; tauto.
  - unfold same_but_lock. simpl. tauto.
Qed.

Lemma lock_blind_delete (id : jvalue) :
  lock_blind (execute_sql_delete_changelog id).
Proof.
  open_worlds. unfold execute_sql_delete_changelog. simpl.
  destruct (Sqlite.bind_text id); simpl; unfold same_but_lock; simpl;
    tauto.
Qed.

Lemma lock_blind_bind {A B : Type} (m : M Schema A) (k : A -> M Schema B) :
  lock_blind m -> (forall a, lock_blind (k a)) -> lock_blind (bind m k).
Proof.
  intros Hm Hk w1 w2 S. unfold bind.
  destruct (Hm w1 w2 S) as (R & S' & L).
  destruct (m w1) as [r1 a1], (m w2) as [r2 a2]. simpl in *. subst r2.
  destruct r1 as [a | e]; [| tauto].
  destruct (Hk a a1 a2 S') as (R' & S'' & L'). rewrite L' , L. tauto.
Qed.

Lemma lock_blind_try {A : Type} (m : M Schema A)
    (h : exn -> M Schema A) :
  lock_blind m -> (forall e, lock_blind (h e)) ->
  lock_blind (try_except m h).
Proof.
  intros Hm Hh w1 w2 S. unfold try_except.
  destruct (Hm w1 w2 S) as (R & S' & L).
  destruct (m w1) as [r1 a1], (m w2) as [r2 a2]. simpl in *. subst r2.
  destruct r1 as [a | e]; [tauto |].
  destruct (Hh e a1 a2 S') as (R' & S'' & L'). rewrite L', L. tauto.
Qed.

Lemma same_but_lock_refl (w : W) : same_but_lock w w.
Proof. unfold same_but_lock. tauto. Qed.

Lemma lock_blind_bind_lift {A B : Type} (r : result A)
    (k : A -> M Schema B) :
  (forall a, r = Ok a -> lock_blind (k a)) -> lock_blind (bind (lift r) k).
Proof.
  intros H w1 w2 S. unfold bind, lift. destruct r as [a | e]; simpl.
  - exact (H a eq_refl w1 w2 S).
  - destruct S as (? & ? & ? & ? & ? & ?). unfold same_but_lock. tauto.
Qed.

Lemma lock_blind_for_each {A : Type} (body : A -> M Schema unit)
    (xs : list A) :
  (forall x, In x xs -> lock_blind (body x)) ->
  lock_blind (for_each xs body).
Proof.
  induction xs as [| x xs IH]; intro H; simpl.
  - apply lock_blind_ret.
  - apply lock_blind_bind; [apply H; now left |].
    intros _. apply IH. intros y Hy. apply H. now right.
Qed.

(** Every operation of the list [v] is blind to the lock row. *)
Definition lock_blind_operations (v : jvalue) : Prop :=
  forall items c, Py.iter v = Ok items -> In c items ->
                  lock_blind (change c).

Lemma lock_blind_changes (v : jvalue) :
  lock_blind_operations v -> lock_blind (run_changes v).
Proof.
  intro H. unfold execute_changes.
  destruct (Py.iter v) as [items | e] eqn:E.
  - intros w1 w2 S. unfold bind, lift. simpl.
    apply (lock_blind_for_each _ items); [| exact S].
    intros c Hc. exact (H items c E Hc).
  - intros w1 w2 S. unfold bind, lift. simpl.
    destruct S as (? & ? & ? & ? & ? & ?). unfold same_but_lock. tauto.
Qed.

Lemma lock_blind_execute_migration (m : Migration.t) (f : string) :
  lock_blind_operations (Migration.changes m) ->
  lock_blind (apply_migration m f).
Proof.
  intro H. unfold execute_migration.
  apply lock_blind_bind; [apply lock_blind_echo | intros _].
  apply lock_blind_try.
  - apply lock_blind_bind; [now apply lock_blind_changes | intros _].
    apply lock_blind_bind; [apply lock_blind_get_executed | intro ex].
    apply lock_blind_bind; [apply lock_blind_now | intro now].
    apply lock_blind_bind; [apply lock_blind_insert | intros _].
    apply lock_blind_bind; [apply lock_blind_echo | intros _].
    apply lock_blind_ret.
  - intro e. apply lock_blind_bind; [apply lock_blind_echo | intros _].
    apply lock_blind_ret.
Qed.

Lemma lock_blind_rollback_migration (m : Migration.t) :
  lock_blind_operations (Migration.rollback m) ->
  lock_blind (undo_migration m).
Proof.
  intro H. unfold rollback_migration.
  apply lock_blind_bind; [apply lock_blind_echo | intros _].
  apply lock_blind_try.
  - destruct (negb (Py.truthy (Migration.rollback m))).
    + apply lock_blind_bind; [apply lock_blind_echo | intros _].
      apply lock_blind_ret.
    + apply lock_blind_bind; [now apply lock_blind_changes | intros _].
      apply lock_blind_bind; [apply lock_blind_delete | intros _].
      apply lock_blind_bind; [apply lock_blind_echo | intros _].
      apply lock_blind_ret.
  - intro e. apply lock_blind_bind; [apply lock_blind_echo | intros _].
    apply lock_blind_ret.
Qed.

(** *** The dictionary of a document *)

Lemma key_eqb_eq (a b : hkey) : PyKey.eqb a b = true <-> a = b.
Proof.
  destruct a, b; simpl; try (split; [discriminate | congruence]).
  - tauto.
  - rewrite Z.eqb_eq. split; congruence.
  - rewrite String.eqb_eq. split; congruence.
Qed.

Lemma dict_get_set {V : Type} (d : list (hkey * V)) (k k' : hkey) (v : V) :
  dict_get (dict_set d k v) k'
  = if PyKey.eqb k' k then Some v else dict_get d k'.
Proof.
  induction d as [| [k0 v0] d IH]; simpl.
  - reflexivity.
  - destruct (PyKey.eqb k k0) eqn:E; simpl.
    + apply key_eqb_eq in E. subst k0.
      now destruct (PyKey.eqb k' k).
    + destruct (PyKey.eqb k' k0) eqn:E'.
      * apply key_eqb_eq in E'. subst k0.
        destruct (PyKey.eqb k' k) eqn:E''; [| reflexivity].
        apply key_eqb_eq in E''. subst k'.
        assert (X : PyKey.eqb k k = true) by now apply key_eqb_eq.
        congruence.
      * exact IH.
Qed.

Lemma migrations_dict_from_In (ms : list Migration.t)
    (acc d : list (hkey * Migration.t)) (P : Migration.t -> Prop) :
  (forall k m, dict_get acc k = Some m -> P m) ->
  (forall m, In m ms -> P m) ->
  migrations_dict_from acc ms = Ok d ->
  forall k m, dict_get d k = Some m -> P m.
Proof.
  revert acc. induction ms as [| x ms IH]; intros acc Ha Hm; simpl.
  - intro E. inversion E; subst. exact Ha.
  - destruct (PyKey.key (Migration.id x)) as [kx |]; [| discriminate].
    apply IH.
    + intros k m. rewrite dict_get_set.
      destruct (PyKey.eqb k kx).
      * intro E. inversion E; subst. apply Hm. now left.
      * apply Ha.
    + intros m Hin. apply Hm. now right.
Qed.

Lemma migrations_dict_In (ms : list Migration.t)
    (d : list (hkey * Migration.t)) (k : hkey) (m : Migration.t) :
  migrations_dict_of ms = Ok d -> dict_get d k = Some m -> In m ms.
Proof.
  intros E G.
  apply (migrations_dict_from_In ms [] d (fun m => In m ms)) with (k := k);
    try assumption; [discriminate | auto].
Qed.

(** C3, as amended. [update] and [rollback] never read or write the row
    of [DATABASECHANGELOGLOCK] themselves. When the operations of the
    document leave that table alone, so does the whole run: started from
    stores that differ in the lock row only, it returns the same value and
    makes the same changes, a held lock included, and the row is after the
    run what it was before; after a command line invocation it is as the
    set-up of the connection left it. *)
Theorem lock_row_is_never_taken
    (ms : list Migration.t) (f : string) (count : Z) :
  (forall m, In m ms ->
     lock_blind_operations (Migration.changes m) /\
     lock_blind_operations (Migration.rollback m)) ->
  lock_blind (update sqlite_execute isoformat ms f) /\
  lock_blind (rollback sqlite_execute count ms) /\
  forall w,
    changeloglock (db (snd (cli_update sqlite_execute isoformat ms f w)))
    = changeloglock (db (snd (DatabaseManager w))) /\
    changeloglock (db (snd (cli_rollback sqlite_execute count ms w)))
    = changeloglock (db (snd (DatabaseManager w))).
Proof.
  intro H.
  assert (U : lock_blind (update sqlite_execute isoformat ms f)).
  { unfold update.
    apply lock_blind_bind; [apply lock_blind_get_executed | intro ex].
    destruct (pending_of ms ex) as [| p pending] eqn:P;
      [apply lock_blind_echo |].
    apply lock_blind_bind; [apply lock_blind_echo | intros _].
    apply lock_blind_for_each. intros m Hm.
    rewrite <- P in Hm. apply filter_In in Hm. destruct Hm as (Hm & _).
    unfold update_body.
    apply lock_blind_bind; [| intros; apply lock_blind_ret].
    apply lock_blind_execute_migration. now apply H. }
  assert (R : lock_blind (rollback sqlite_execute count ms)).
  { unfold rollback.
    apply lock_blind_bind; [apply lock_blind_get_executed | intro ex].
    apply lock_blind_bind_lift. intros d D.
    apply lock_blind_for_each. intros k _. unfold rollback_body.
    destruct (dict_get d (PyKey.of_text k)) as [m |] eqn:G;
      [| apply lock_blind_ret].
    apply lock_blind_bind; [| intros; apply lock_blind_ret].
    apply lock_blind_rollback_migration.
    apply H. exact (migrations_dict_In ms d _ m D G). }
  split; [exact U | split; [exact R |]].
  intro w. unfold cli_update, cli_rollback, bind.
  destruct (DatabaseManager w) as [[[] | e] w0]; simpl; [| tauto].
  split.
  - now destruct (U w0 w0 (same_but_lock_refl w0)) as (_ & _ & L).
  - now destruct (R w0 w0 (same_but_lock_refl w0)) as (_ & _ & L).
Qed.

(** *** What a run prints *)

Definition is_executing (msg : message) : bool :=
  match msg with MsgExecuting _ _ => true | _ => false end.

Definition is_rolling_back (msg : message) : bool :=
  match msg with MsgRollingBack _ => true | _ => false end.

Definition is_error (msg : message) : bool :=
  match msg with MsgExecuteError _ _ => true | _ => false end.

(** ["Executing: {migration.id} by {migration.author}"] *)
Definition executing (m : Migration.t) : message :=
  MsgExecuting (Py.str (Migration.id m)) (Py.str (Migration.author m)).

Lemma notes_filter (p : message -> bool) (l : list message) :
  p MsgDropColumnNote = false -> notes l -> filter p l = [].
Proof.
  intros Hp N. induction N as [| x l E _ IH]; simpl; [reflexivity |].
  now rewrite <- E, Hp.
Qed.

(** What [execute_migration] prints: its first line, the notes of the
    operations, and the line of the outcome. *)
Lemma execute_migration_console (m : Migration.t) (f : string) (w : W) :
  exists l out,
    notes l /\
    console (snd (apply_migration m f w))
    = (console w ++ executing m :: l ++ [out])%list /\
    ((fst (apply_migration m f w) = Ok true /\
      out = MsgExecuted (Py.str (Migration.id m))) \/
     (fst (apply_migration m f w) = Ok false /\
      exists e, out = MsgExecuteError (Py.str (Migration.id m)) e)).
Proof.
  rewrite execute_migration_eq.
  destruct (execute_changes_console (Migration.changes m) (announce m w))
    as (_ & l & N & Hl).
  destruct (run_changes (Migration.changes m) (announce m w))
    as [[[] | e] w1]; simpl in Hl.
  - destruct (new_row m f w1) as [row | e].
    + destruct (existsb _ _).
      * exists l, (MsgExecuteError (Py.str (Migration.id m)) SqliteError).
        split; [assumption |]. simpl. rewrite Hl, <- !app_assoc.
        split; [reflexivity | right]. split; [reflexivity | eauto].
      * exists l, (MsgExecuted (Py.str (Migration.id m))).
        split; [assumption |]. simpl. rewrite Hl, <- !app_assoc.
        split; [reflexivity | now left].
    + exists l, (MsgExecuteError (Py.str (Migration.id m)) e).
      split; [assumption |]. simpl. rewrite Hl, <- !app_assoc.
      split; [reflexivity | right]. split; [reflexivity | eauto].
  - exists l, (MsgExecuteError (Py.str (Migration.id m)) e).
    split; [assumption |]. simpl. rewrite Hl, <- !app_assoc.
    split; [reflexivity | right]. split; [reflexivity | eauto].
Qed.

Lemma execute_migration_executing (m : Migration.t) (f : string) (w : W) :
  filter is_executing (console (snd (apply_migration m f w)))
  = (filter is_executing (console w) ++ [executing m])%list.
Proof.
  destruct (execute_migration_console m f w)
    as (l & out & N & -> & [(_ & ->) | (_ & e & ->)]);
    rewrite filter_app; simpl; rewrite filter_app, (notes_filter _ l);
    trivial.
Qed.

(** A loop whose steps never raise runs through, and the messages of a
    kind that it prints are those of its steps, in order. *)
Lemma for_each_trace {A : Type} (p : message -> bool)
    (body : A -> M Schema unit) (tr : A -> list message) (xs : list A) :
  (forall x a,
      fst (body x a) = Ok tt /\
      filter p (console (snd (body x a)))
      = (filter p (console a) ++ tr x)%list) ->
  forall a,
    fst (for_each xs body a) = Ok tt /\
    filter p (console (snd (for_each xs body a)))
    = (filter p (console a) ++ flat_map tr xs)%list.
Proof.
  intro Step. induction xs as [| x xs IH]; intro a; simpl.
  - now rewrite app_nil_r.
  - unfold bind. destruct (Step x a) as (R & T).
    destruct (body x a) as [r a1]. simpl in R, T. subst r.
    destruct (IH a1) as (R' & T'). split; [exact R' |].
    now rewrite T', T, app_assoc.
Qed.

Lemma update_loop_trace (f : string) (pending : list Migration.t) (w : W) :
  fst (update_loop f pending w) = Ok tt /\
  filter is_executing (console (snd (update_loop f pending w)))
  = (filter is_executing (console w) ++ map executing pending)%list.
Proof.
  replace (map executing pending)
    with (flat_map (fun m => [executing m]) pending)
    by (induction pending; simpl; congruence).
  apply for_each_trace. intros m a. rewrite update_body_eq. simpl.
  split; [reflexivity | apply execute_migration_executing].
Qed.


(** *** Identifiers in the ledger *)

Definition ledger_ids (w : W) : list (option string) :=
  map row_id (changelog (db w)).

(** No operation of the list [v] removes an identifier from the ledger. *)
Definition keeps_ledger_ids (v : jvalue) : Prop :=
  forall items c w x,
    Py.iter v = Ok items -> In c items ->
    In x (ledger_ids w) -> In x (ledger_ids (snd (change c w))).

Lemma for_each_keeps_In {A : Type} (R : W -> Prop)
    (body : A -> M Schema unit) (xs : list A) :
  (forall x a, In x xs -> R a -> R (snd (body x a))) ->
  forall a, R a -> R (snd (for_each xs body a)).
Proof.
  induction xs as [| x xs IH]; intros Step a Ha; simpl.
  - exact Ha.
  - unfold bind. assert (H := Step x a (or_introl eq_refl) Ha).
    destruct (body x a) as [[[] | e] a1]; simpl in *; [| exact H].
    apply IH; [| exact H]. intros y b Hy. apply Step. now right.
Qed.

Lemma execute_changes_keeps_ids (v : jvalue) (w : W) (x : option string) :
  keeps_ledger_ids v ->
  In x (ledger_ids w) -> In x (ledger_ids (snd (run_changes v w))).
Proof.
  intros K H. unfold execute_changes, bind, lift.
  destruct (Py.iter v) as [items | e] eqn:E; simpl; [| exact H].
  apply (for_each_keeps_In (fun a => In x (ledger_ids a))); [| exact H].
  intros c a Hc. exact (K items c a x E Hc).
Qed.

Lemma changelog_row_id (id author : jvalue) (f now : string) (order : Z)
    (checksum : string) (description : jvalue) (row : ChangelogRow) :
  changelog_row id author f now order checksum description = Ok row ->
  Sqlite.bind_text id = Ok (row_id row).
Proof.
  unfold changelog_row.
  destruct (Sqlite.bind_text id) as [i |]; simpl; [| discriminate].
  destruct (Sqlite.bind_text author) as [[a |] |]; simpl;
    destruct (Sqlite.bind_text description); simpl;
    try discriminate.
  intro E. inversion E. reflexivity.
Qed.

(** One [execute_migration]: the errors printed so far grow by at most
    one line, no identifier leaves the ledger, and when no error line is
    added the identifier of the change set is in the ledger afterwards. *)
Lemma execute_migration_step (m : Migration.t) (f : string) (w : W) :
  keeps_ledger_ids (Migration.changes m) ->
  exists l,
    filter is_error (console (snd (apply_migration m f w)))
    = (filter is_error (console w) ++ l)%list /\
    (forall x, In x (ledger_ids w) ->
               In x (ledger_ids (snd (apply_migration m f w)))) /\
    (l = [] ->
     forall t, Sqlite.bind_text (Migration.id m) = Ok t ->
               In t (ledger_ids (snd (apply_migration m f w)))).
Proof.
  intro K. rewrite execute_migration_eq.
  destruct (execute_changes_console (Migration.changes m) (announce m w))
    as (_ & l & N & Hl).
  assert (Hk := fun x => execute_changes_keeps_ids (Migration.changes m)
                           (announce m w) x K).
  destruct (run_changes (Migration.changes m) (announce m w))
    as [[[] | e] w1]; simpl in Hl, Hk.
  - destruct (new_row m f w1) as [row | e] eqn:Row.
    + destruct (existsb _ _).
      * exists [MsgExecuteError (Py.str (Migration.id m)) SqliteError].
        simpl. rewrite Hl, !filter_app, (notes_filter _ l); trivial.
        simpl. rewrite !app_nil_r.
        split; [reflexivity |]. split; [exact Hk | discriminate].
      * exists []. simpl.
        rewrite Hl, !filter_app, (notes_filter _ l); trivial.
        simpl. rewrite !app_nil_r. split; [reflexivity |].
        unfold ledger_ids. simpl. rewrite map_app. split.
        -- intros x Hx. apply in_or_app. left. now apply Hk.
        -- intros _ t Ht. apply in_or_app. right.
           apply changelog_row_id in Row. rewrite Row in Ht.
           inversion Ht. now left.
    + exists [MsgExecuteError (Py.str (Migration.id m)) e].
      simpl. rewrite Hl, !filter_app, (notes_filter _ l); trivial.
      simpl. rewrite !app_nil_r.
      split; [reflexivity |]. split; [exact Hk | discriminate].
  - exists [MsgExecuteError (Py.str (Migration.id m)) e].
    simpl. rewrite Hl, !filter_app, (notes_filter _ l); trivial.
    simpl. rewrite !app_nil_r.
    split; [reflexivity |]. split; [exact Hk | discriminate].
Qed.

Lemma update_loop_step (f : string) (pending : list Migration.t) :
  (forall m, In m pending -> keeps_ledger_ids (Migration.changes m)) ->
  forall w,
  exists l,
    filter is_error (console (snd (update_loop f pending w)))
    = (filter is_error (console w) ++ l)%list /\
    (forall x, In x (ledger_ids w) ->
               In x (ledger_ids (snd (update_loop f pending w)))) /\
    (l = [] ->
     forall m t, In m pending ->
                 Sqlite.bind_text (Migration.id m) = Ok t ->
                 In t (ledger_ids (snd (update_loop f pending w)))).
Proof.
  induction pending as [| p pending IH]; intros K w.
  - exists []. simpl. rewrite app_nil_r. repeat split; trivial.
    intros _ m t [].
  - simpl. unfold bind. rewrite update_body_eq.
    destruct (execute_migration_step p f w) as (l0 & E0 & K0 & R0);
      [apply K; now left |].
    destruct (IH (fun m H => K m (or_intror H))
                 (snd (apply_migration p f w))) as (l1 & E1 & K1 & R1).
    exists (l0 ++ l1)%list. split; [| split].
    + now rewrite E1, E0, app_assoc.
    + intros x Hx. apply K1, K0, Hx.
    + intros E m t Hm Ht. apply app_eq_nil in E. destruct E as (-> & ->).
      destruct Hm as [<- | Hm].
      * apply K1. now apply R0.
      * now apply (R1 eq_refl m t).
Qed.

Lemma pending_of_nil (ms : list Migration.t)
    (executed : list (option string)) :
  (forall m, In m ms -> is_executed executed m = true) ->
  pending_of ms executed = [].
Proof.
  induction ms as [| m ms IH]; intro H; simpl; [reflexivity |].
  rewrite (H m (or_introl eq_refl)). simpl.
  apply IH. intros x Hx. apply H. now right.
Qed.

Lemma is_executed_str (executed : list (option string))
    (m : Migration.t) (s : string) :
  Migration.id m = JStr s ->
  is_executed executed m = true <-> In (Some s) executed.
Proof.
  intro E. unfold is_executed. rewrite existsb_exists, E. split.
  - intros ([t |] & H & Q); unfold PyKey.eq_text in Q; simpl in Q;
      [| discriminate].
    apply String.eqb_eq in Q. now subst.
  - intro H. exists (Some s). split; [exact H |].
    unfold PyKey.eq_text. simpl. apply String.eqb_refl.
Qed.


(** *** Rollback runs *)

(** ["Rolling back: {migration.id}"] for a target that the document
    defines, nothing for one it does not define. *)
Definition rollback_message (d : list (hkey * Migration.t))
    (k : option string) : list message :=
  match dict_get d (PyKey.of_text k) with
  | Some m => [MsgRollingBack (Py.str (Migration.id m))]
  | None => []
  end.

(** The targets [ks] are undone one after the other from [w] to [w']:
    each target that the document defines has rollback operations, they
    return in the world its predecessor left, and its row is deleted from
    the ledger and the deletion committed; a target the document does not
    define is passed over. *)
Fixpoint undone (d : list (hkey * Migration.t)) (ks : list (option string))
    (w w' : W) : Prop :=
  match ks with
  | [] => w' = w
  | k :: ks' =>
      match dict_get d (PyKey.of_text k) with
      | None => undone d ks' w w'
      | Some m =>
          Py.truthy (Migration.rollback m) = true /\
          exists w1 t,
            run_changes (Migration.rollback m) (rolling_back m w)
            = (Ok tt, w1) /\
            Sqlite.bind_text (Migration.id m) = Ok t /\
            undone d ks' (unrecorded m t w1) w'
      end
  end.

Lemma rollback_migration_console (m : Migration.t) (w : W) :
  filter is_rolling_back (console (snd (undo_migration m w)))
  = (filter is_rolling_back (console w)
     ++ [MsgRollingBack (Py.str (Migration.id m))])%list.
Proof.
  rewrite rollback_migration_eq.
  destruct (Py.truthy (Migration.rollback m)).
  - destruct (execute_changes_console (Migration.rollback m)
                (rolling_back m w)) as (_ & l & N & Hl).
    destruct (run_changes (Migration.rollback m) (rolling_back m w))
      as [[[] | e] w1]; simpl in Hl;
      [destruct (Sqlite.bind_text (Migration.id m)) |];
      simpl; rewrite Hl, !filter_app, (notes_filter _ l); trivial;
      simpl; now rewrite !app_nil_r.
  - simpl. rewrite !filter_app. simpl. now rewrite app_nil_r.
Qed.

Lemma rollback_loop_trace (d : list (hkey * Migration.t))
    (ks : list (option string)) (w : W) :
  fst (for_each ks (rollback_body sqlite_execute d) w) = Ok tt /\
  filter is_rolling_back
    (console (snd (for_each ks (rollback_body sqlite_execute d) w)))
  = (filter is_rolling_back (console w)
     ++ flat_map (rollback_message d) ks)%list.
Proof.
  apply for_each_trace. intros k a. rewrite rollback_body_eq.
  unfold rollback_message.
  destruct (dict_get d (PyKey.of_text k)) as [m |]; simpl.
  - split; [reflexivity | apply rollback_migration_console].
  - now rewrite app_nil_r.
Qed.

Lemma rollback_loop_undone (d : list (hkey * Migration.t))
    (ks : list (option string)) (w w' : W) :
  undone d ks w w' ->
  for_each ks (rollback_body sqlite_execute d) w = (Ok tt, w').
Proof.
  revert w. induction ks as [| k ks IH]; intros w H; simpl in *.
  - now subst.
  - unfold bind. rewrite rollback_body_eq.
    destruct (dict_get d (PyKey.of_text k)) as [m |]; [| now apply IH].
    destruct H as (T & w1 & t & R & B & U).
    rewrite rollback_migration_eq, T, R, B. simpl. now apply IH.
Qed.

Lemma executed_ids_of_sorted (w : W) :
  StronglySorted (fun a b => order_executed a <= order_executed b)
    (changelog (db w)) ->
  executed_ids w = ledger_ids w.
Proof.
  intro H. unfold executed_ids, ledger_ids. now rewrite order_by_of_sorted.
Qed.



(** *** Engines whose statements leave the engine's tables alone *)

(** No statement of the change executor writes [DATABASECHANGELOG]. *)
Definition statements_keep_ledger : Prop :=
  forall sql params d,
    changelog (snd (sqlite_execute sql params d)) = changelog d.

(** No statement of the change executor reads or writes
    [DATABASECHANGELOGLOCK]. *)
Definition statements_keep_lock : Prop :=
  forall sql params d1 d2,
    tables d1 = tables d2 -> changelog d1 = changelog d2 ->
    fst (sqlite_execute sql params d1) = fst (sqlite_execute sql params d2) /\
    tables (snd (sqlite_execute sql params d1))
    = tables (snd (sqlite_execute sql params d2)) /\
    changelog (snd (sqlite_execute sql params d1))
    = changelog (snd (sqlite_execute sql params d2)) /\
    changeloglock (snd (sqlite_execute sql params d1)) = changeloglock d1.

Lemma _execute_change_keeps_ledger (c : jvalue) (w : W) :
  statements_keep_ledger ->
  changelog (db (snd (change c w))) = changelog (db w).
Proof.
  intro K.
  destruct (_execute_change_statement c)
    as (l & N & [(e & H) | (sql & params & H)]); rewrite H.
  - reflexivity.
  - unfold execute_sql. specialize (K sql params (db (add_console l w))).
    destruct (sqlite_execute sql params (db (add_console l w)))
      as [[|] d]; simpl in *; exact K.
Qed.

Lemma statements_keep_ledger_ids (v : jvalue) :
  statements_keep_ledger -> keeps_ledger_ids v.
Proof.
  intros K items c w x _ _ H. unfold ledger_ids.
  now rewrite _execute_change_keeps_ledger.
Qed.

Lemma statements_keep_lock_blind (v : jvalue) :
  statements_keep_lock -> lock_blind_operations v.
Proof.
  intros K items c _ _.
  destruct (_execute_change_statement c)
    as (l & N & [(e & H) | (sql & params & H)]);
    intros w1 w2 S; rewrite !H.
  - destruct S as (? & ? & ? & ? & ? & E). unfold same_but_lock. simpl.
    rewrite E. tauto.
  - unfold execute_sql.
    destruct S as (S1 & S2 & S3 & S4 & S5 & S6).
    destruct (K sql params (db (add_console l w1)) (db (add_console l w2)))
      as (K1 & K2 & K3 & K4); [exact S1 | exact S2 |].
    destruct (sqlite_execute sql params (db (add_console l w1)))
      as [b1 d1], (sqlite_execute sql params (db (add_console l w2)))
      as [b2 d2].
    simpl in K1, K2, K3, K4. subst b2.
    destruct b1; unfold same_but_lock; simpl; rewrite S5, S6; tauto.
Qed.

End EngineFacts.

Arguments add_console {Schema}.
Arguments tick {Schema}.
Arguments executed_ids {Schema}.
Arguments ledger_ids {Schema}.
Arguments announce {Schema}.
Arguments new_row {Schema}.
Arguments recorded {Schema}.
Arguments failed {Schema}.
Arguments rolling_back {Schema}.
Arguments unrecorded {Schema}.
Arguments not_undone {Schema}.
Arguments same_but_lock {Schema}.
Arguments lock_blind {Schema A}.
Arguments lock_blind_operations {Schema}.
Arguments keeps_ledger_ids {Schema}.
Arguments undone {Schema}.
Arguments statements_keep_ledger {Schema}.
Arguments statements_keep_lock {Schema}.

(* ================================================================== *)
(** ** The claims on the example stores *)

(** One command line invocation on the journal store. *)
Definition cli_up (ms : list Migration.t) (w : World Journal)
  : World Journal :=
  run (cli_update journal_execute stamp ms "changelog.yaml") w.

Definition cli_back (count : Z) (ms : list Migration.t) (w : World Journal)
  : World Journal :=
  run (cli_rollback journal_execute count ms) w.

(** What a run printed, given the world before it. *)
Definition printed (before after : World Journal) : list message :=
  skipn (length (console before)) (console after).

Lemma journal_keeps_ledger : statements_keep_ledger journal_execute.
Proof. intros sql params d. reflexivity. Qed.

Lemma journal_keeps_lock : statements_keep_lock journal_execute.
Proof.
  intros sql params d1 d2 E1 E2. simpl. rewrite E1, E2. repeat split.
Qed.

Lemma strict_keeps_ledger : statements_keep_ledger strict_execute.
Proof.
  intros sql params d. unfold strict_execute.
  now destruct (existsb _ (tables d)).
Qed.



(** C2, counterexample: X is applied as [cs_X]; the document then defines
    it as [cs_X_edited], with another checksum than the one in the ledger.
    The rollback goes through: the table is dropped and the row
    deleted. *)
Lemma rollback_of_an_edited_change_set_goes_through :
  let w := cli_up [cs_X] fresh in
  let w' := cli_back 1 [cs_X_edited] w in
  map md5sum (changelog (db w)) = ["4c04b73b358ef2303f74afd68fb5c262"] /\
  Migration.checksum cs_X_edited = "b1fed1a399e7d52b790a2aa7248ebe0d" /\
  fst (cli_rollback journal_execute 1 [cs_X_edited] w) = Ok tt /\
  printed w w' = [MsgRollingBack "X"; MsgRolledBack "X"] /\
  ids_and_orders w' = [] /\
  tables (durable w')
  = [("CREATE TABLE x (id INTEGER)", []); ("DROP TABLE IF EXISTS x", [])].
Proof. vm_compute. repeat split. Qed.

(** C3, counterexample: the lock row says that another engine holds the
    lock; [update] applies the change set all the same, and the row still
    names the other holder afterwards. *)
Lemma update_runs_while_the_lock_is_held :
  let w := cli_up [cs_A] held in
  option_map locked (changeloglock (db held)) = Some true /\
  fst (cli_update journal_execute stamp [cs_A] "changelog.yaml" held)
  = Ok tt /\
  ids_and_orders w = [(Some "A", 1)] /\
  tables (durable w) = [("CREATE TABLE a (id INTEGER)", [])] /\
  changeloglock (db w) = changeloglock (db held).
Proof. vm_compute. repeat split. Qed.

Lemma lock_row_is_never_taken_witness :
  lock_blind (update journal_execute stamp [cs_A; cs_B] "changelog.yaml") /\
  lock_blind (rollback journal_execute 1 [cs_A; cs_B]) /\
  forall w,
    changeloglock
      (db (snd (cli_update journal_execute stamp [cs_A; cs_B]
                  "changelog.yaml" w)))
    = changeloglock (db (snd (DatabaseManager w))) /\
    changeloglock (db (snd (cli_rollback journal_execute 1 [cs_A; cs_B] w)))
    = changeloglock (db (snd (DatabaseManager w))).
Proof.
  apply (lock_row_is_never_taken Journal journal_execute stamp
           [cs_A; cs_B] "changelog.yaml" 1).
  intros m _.
  split; apply statements_keep_lock_blind; exact journal_keeps_lock.
Defined.

(** C4: the order number of a new entry is the number of rows plus one.
    After A and B are applied and A alone is rolled back, B keeps order 2;
    applying A again gives it order 2 as well, where the largest order in
    the ledger plus one is 3. *)
Lemma order_is_reused_after_a_gap :
  let w1 := cli_up [cs_A; cs_B_no_rollback] fresh in
  let w2 := cli_back 2 [cs_A; cs_B_no_rollback] w1 in
  let w3 := cli_up [cs_A; cs_B_no_rollback] w2 in
  ids_and_orders w1 = [(Some "A", 1); (Some "B", 2)] /\
  ids_and_orders w2 = [(Some "B", 2)] /\
  max_order (changelog (db w2)) + 1 = 3 /\
  ids_and_orders w3 = [(Some "B", 2); (Some "A", 2)].
Proof. vm_compute. repeat split. Qed.



(** C6, counterexample: A and B are applied; the document of the rollback
    defines A only. B is passed over without a word and stays in the
    ledger, and the run goes on to undo A. *)
Lemma rollback_goes_on_after_a_missing_definition :
  let w := cli_up [cs_A; cs_B] fresh in
  let w' := cli_back 2 [cs_A] w in
  fst (cli_rollback journal_execute 2 [cs_A] w) = Ok tt /\
  printed w w' = [MsgRollingBack "A"; MsgRolledBack "A"] /\
  ids_and_orders w' = [(Some "B", 2)] /\
  tables (durable w')
  = [("CREATE TABLE a (id INTEGER)", []);
     ("CREATE TABLE b (id INTEGER)", []);
     ("DROP TABLE IF EXISTS a", [])].
Proof. vm_compute. repeat split. Qed.

(** C7: the checksum is the digest of identifier, author and operations
    written one after the other with nothing in between, so the change
    sets (ab, c) and (a, bc) with the same operations have one
    checksum. *)
Lemma checksum_collides_on_different_fields :
  Migration.content (JStr "ab") (JStr "c") (JList [])
  = Migration.content (JStr "a") (JStr "bc") (JList []) /\
  Migration._calculate_checksum (JStr "ab") (JStr "c") (JList [])
  = Migration._calculate_checksum (JStr "a") (JStr "bc") (JList []) /\
  (JStr "ab", JStr "c") <> (JStr "a", JStr "bc").
Proof.
  split; [reflexivity |]. split; [reflexivity | discriminate].
Qed.



(** The ledger after A, B and C were applied, all three rolled back with
    a document that lacks C, and D applied: C has order 3 and D, applied
    after it, order 2. *)
Definition after_a_gap : World Journal :=
  cli_up [cs_D]
    (cli_back 3 [cs_A; cs_B]
       (cli_up [cs_A; cs_B; cs_C] fresh)).


(** The ledger after A, B and C were applied. *)
Definition applied_ABC : World Journal :=
  run DatabaseManager (cli_up [cs_A; cs_B; cs_C] fresh).

(** The dictionary of a document that can be built. *)
Definition dict_of (ms : list Migration.t) : list (hkey * Migration.t) :=
  match migrations_dict_of ms with Ok d => d | Raise _ => [] end.




(* ================================================================== *)
(** ** Operations that write the engine's tables

    A [sql] change runs on the connection that holds the engine's tables.
    [meddling_execute] is a store that carries out two such statements;
    the examples show what the properties above leave to the operations
    of the changelog. *)

Definition meddling_execute (sql : string) (params : list jvalue)
    (d : Database Journal) : bool * Database Journal :=
  if String.eqb sql "DELETE FROM DATABASECHANGELOG" then
    (true, mkDatabase (tables d ++ [(sql, params)])%list [] (changeloglock d))
  else if String.eqb sql "UPDATE DATABASECHANGELOGLOCK SET locked = 1" then
    (true,
     mkDatabase (tables d ++ [(sql, params)])%list (changelog d)
       (Some (mkLock true None None)))
  else journal_execute sql params d.

Definition sql_set (id sql : string) : Migration.t :=
  Migration.new (JStr id) (JStr "dev") (JStr "")
    (JList [JDict [("sql", JDict [("sql", JStr sql)])]]) (JList []).

Definition cs_wipe : Migration.t :=
  sql_set "wipe" "DELETE FROM DATABASECHANGELOG".
Definition cs_lock : Migration.t :=
  sql_set "lock" "UPDATE DATABASECHANGELOGLOCK SET locked = 1".

(** A change set whose operation empties the ledger is recorded after
    it, with order 1; the row of A, applied before it, is gone. *)
Example an_operation_can_empty_the_ledger :
  let w := run (cli_update meddling_execute stamp [cs_A; cs_wipe]
                  "changelog.yaml") fresh in
  ids_and_orders w = [(Some "wipe", 1)] /\
  console w
  = [MsgFoundPending 2; MsgExecuting "A" "dev"; MsgExecuted "A";
     MsgExecuting "wipe" "dev"; MsgExecuted "wipe"].
Proof. vm_compute. repeat split. Qed.

(** A change set whose operation writes the lock row changes it; the
    engine itself does not look at the row before or after. *)
Example an_operation_can_write_the_lock_row :
  let w := run (cli_update meddling_execute stamp [cs_lock; cs_A]
                  "changelog.yaml") fresh in
  option_map locked (changeloglock (db w)) = Some true /\
  ids_and_orders w = [(Some "lock", 1); (Some "A", 2)].
Proof. vm_compute. repeat split. Qed.

(* ================================================================== *)
(** ** Further properties: the change executor *)

(** The kinds [_execute_change] dispatches on. *)
Definition known_kinds : list string :=
  ["createTable"; "addColumn"; "dropColumn"; "renameColumn";
   "createIndex"; "dropTable"; "sql"; "insert"].

(** The kinds whose handler reads [data['tableName']] first. *)
Definition table_first_kinds : list string :=
  ["createTable"; "addColumn"; "dropColumn"; "renameColumn";
   "dropTable"; "insert"].

Lemma string_app_assoc (a b c : string) : (a ++ b) ++ c = a ++ b ++ c.
Proof. induction a as [| x a IH]; simpl; [reflexivity | now rewrite IH]. Qed.

Lemma string_app_nil (a : string) : a ++ "" = a.
Proof. induction a as [| x a IH]; simpl; [reflexivity | now rewrite IH]. Qed.

Section ExecutorFacts.

Variable Schema : Type.
Variable sqlite_execute :
  string -> list jvalue -> Database Schema -> bool * Database Schema.

Local Notation W := (World Schema).
Local Notation change := (_execute_change sqlite_execute).

(** X1. A change whose first key is none of the eight known kinds raises
    [ValueError] with the kind in its message, whatever its data and its
    further keys, and the store is left as it was. *)
Theorem unknown_change_type_raises
    (k : string) (data : jvalue) (rest : list (string * jvalue)) (w : W) :
  ~ In k known_kinds ->
  change (JDict ((k, data) :: rest)) w
  = (Raise (ValueError ("Unknown change type: " ++ k)), w).
Proof.
  intro H. unfold _execute_change, bind, lift. simpl.
  rewrite String.eqb_refl.
  repeat match goal with
  | |- context [String.eqb k ?s] =>
      destruct (String.eqb_spec k s) as [-> | _];
        [exfalso; apply H; simpl; tauto |]
  end.
  reflexivity.
Qed.

(** X2. A change that is not a dictionary raises [AttributeError] and an
    empty dictionary raises [IndexError]; the store is left as it was. *)
Theorem malformed_change_raises (c : jvalue) (w : W) :
  (forall d, c <> JDict d) \/ c = JDict [] ->
  change c w = (Raise (match c with JDict _ => IndexError
                                  | _ => AttributeError end), w).
Proof.
  intros [H | ->]; [| reflexivity].
  destruct c; try reflexivity. now destruct (H d).
Qed.


(** X4. For the six kinds whose handler starts with [data['tableName']], a
    data dictionary without that key makes the change raise
    [KeyError('tableName')] before any statement is built: the database is
    as before. *)
Theorem missing_table_name_raises
    (k : string) (d rest : list (string * jvalue)) (w : W) :
  In k table_first_kinds ->
  Py.lookup "tableName" d = None ->
  fst (change (JDict ((k, JDict d) :: rest)) w)
  = Raise (KeyError "tableName") /\
  db (snd (change (JDict ((k, JDict d) :: rest)) w)) = db w /\
  durable (snd (change (JDict ((k, JDict d) :: rest)) w)) = durable w.
Proof.
  intros Hk Hd. simpl in Hk.
  destruct Hk as [<- | [<- | [<- | [<- | [<- | [<- | []]]]]]];
    unfold _execute_change, _create_table, _add_column, _drop_column,
      _rename_column, _drop_table, _insert_data, bind, lift, echo;
    simpl; rewrite Hd; simpl; repeat split; reflexivity.
Qed.

(** X7. [_insert_data] never writes a value into the statement: the text
    holds the table name, the column names and one question mark for each
    column, and the values go to SQLite as the parameters, in the order of
    the columns. *)
Theorem insert_passes_values_as_parameters
    (d cols : list (string * jvalue)) (t : jvalue) (w : W) :
  Py.lookup "tableName" d = Some t ->
  Py.lookup "columns" d = Some (JDict cols) ->
  _insert_data sqlite_execute (JDict d) w
  = execute_sql sqlite_execute
      ("INSERT INTO " ++ Py.str t
         ++ " (" ++ PyStr.join ", " (map fst cols)
         ++ ") VALUES ("
         ++ PyStr.join ", " (repeat "?" (length cols)) ++ ")")
      (map snd cols) w.
Proof.
  intros Ht Hc. unfold _insert_data, bind, lift. simpl.
  rewrite Ht, Hc. simpl.
  rewrite map_map, <- (length_map snd cols), <- map_const.
  rewrite map_map. reflexivity.
Qed.

End ExecutorFacts.

Lemma unknown_change_type_raises_witness :
  _execute_change journal_execute
    (JDict [("frobnicate", JNull); ("createTable", JNull)]) fresh
  = (Raise (ValueError ("Unknown change type: " ++ "frobnicate")), fresh).
Proof.
  apply (unknown_change_type_raises Journal journal_execute).
  simpl. intros [H | [H | [H | [H | [H | [H | [H | [H | []]]]]]]]];
    discriminate H.
Defined.

Lemma malformed_change_raises_witness :
  _execute_change journal_execute (JStr "createTable") fresh
  = (Raise AttributeError, fresh).
Proof.
  apply (malformed_change_raises Journal journal_execute
           (JStr "createTable") fresh).
  left. intros d H. discriminate H.
Defined.

Lemma missing_table_name_raises_witness :
  let c := JDict [("dropTable", JDict [("table", JStr "users")])] in
  fst (_execute_change journal_execute c fresh)
  = Raise (KeyError "tableName") /\
  db (snd (_execute_change journal_execute c fresh)) = db fresh /\
  durable (snd (_execute_change journal_execute c fresh)) = durable fresh.
Proof.
  apply (missing_table_name_raises Journal journal_execute "dropTable"
           [("table", JStr "users")] [] fresh).
  - simpl. tauto.
  - reflexivity.
Defined.

Lemma insert_passes_values_as_parameters_witness :
  _insert_data journal_execute
    (JDict [("tableName", JStr "users");
            ("columns", JDict [("name", JStr "x'); DROP TABLE users; --");
                               ("age", JInt 7)])]) fresh
  = execute_sql journal_execute
      ("INSERT INTO " ++ "users"
         ++ " (" ++ PyStr.join ", " ["name"; "age"]
         ++ ") VALUES (" ++ PyStr.join ", " (repeat "?" 2) ++ ")")
      [JStr "x'); DROP TABLE users; --"; JInt 7] fresh.
Proof.
  apply (insert_passes_values_as_parameters Journal journal_execute
           [("tableName", JStr "users");
            ("columns", JDict [("name", JStr "x'); DROP TABLE users; --");
                               ("age", JInt 7)])]
           [("name", JStr "x'); DROP TABLE users; --"); ("age", JInt 7)]
           (JStr "users") fresh); reflexivity.
Defined.

(* ================================================================== *)
(** ** Further properties: column definitions *)

(** The value of [constraints.get(key)], [None] when the key is absent. *)
Definition constraint_value (cs : list (string * jvalue)) (key : string)
  : jvalue :=
  match Py.lookup key cs with Some v => v | None => JNull end.

Definition modifiers (cs : list (string * jvalue)) : string :=
  (if Py.truthy (constraint_value cs "primaryKey")
   then " PRIMARY KEY" else "")
  ++ (if Py.truthy (constraint_value cs "autoIncrement")
      then " AUTOINCREMENT" else "")
  ++ (if Py.eq_False (constraint_value cs "nullable")
      then " NOT NULL" else "")
  ++ (if Py.truthy (constraint_value cs "unique") then " UNIQUE" else "").

Definition default_clause (d : list (string * jvalue)) : string :=
  match Py.lookup "defaultValue" d with
  | Some v => " DEFAULT " ++ Py.str v
  | None => ""
  end.

Lemma constraint_of_dict (d cs : list (string * jvalue)) (key : string) :
  Py.lookup "constraints" d = Some (JDict cs) ->
  constraint (JDict d) key = Ok (constraint_value cs key).
Proof.
  intro H. unfold constraint, constraint_value. simpl. rewrite H. simpl.
  now destruct (Py.lookup key cs).
Qed.

(** X5. The definition of a column is its name, its type and then the
    modifiers in one fixed order - PRIMARY KEY, AUTOINCREMENT, NOT NULL,
    UNIQUE, DEFAULT - whatever the order of the keys in the changelog; NOT
    NULL appears only for a [nullable] that equals [False], not for an
    absent one. *)
Theorem column_def_orders_modifiers
    (d cs : list (string * jvalue)) (name type : jvalue) :
  Py.lookup "name" d = Some name ->
  Py.lookup "type" d = Some type ->
  Py.lookup "constraints" d = Some (JDict cs) ->
  column_def (JDict d)
  = Ok (Py.str name ++ " " ++ Py.str type ++ modifiers cs
          ++ default_clause d).
Proof.
  intros Hn Ht Hc. unfold column_def.
  rewrite !(constraint_of_dict d cs _ Hc).
  unfold modifiers, default_clause. simpl. rewrite Hn, Ht. simpl.
  destruct (Py.truthy (constraint_value cs "primaryKey"));
  destruct (Py.truthy (constraint_value cs "autoIncrement"));
  destruct (Py.eq_False (constraint_value cs "nullable"));
  destruct (Py.truthy (constraint_value cs "unique"));
  destruct (Py.lookup "defaultValue" d); simpl;
  rewrite ?string_app_assoc; simpl; rewrite ?string_app_nil;
  reflexivity.
Qed.

(** X6. A column whose [constraints] entry is present but is not a
    dictionary - an empty YAML value, say - raises [AttributeError]; a
    column without the entry is just its name and type, with its default
    if it has one. *)
Theorem column_def_constraints_edge
    (d : list (string * jvalue)) (name type : jvalue) :
  Py.lookup "name" d = Some name ->
  Py.lookup "type" d = Some type ->
  match Py.lookup "constraints" d with
  | Some (JDict _) => True
  | Some _ => column_def (JDict d) = Raise AttributeError
  | None =>
      column_def (JDict d)
      = Ok (Py.str name ++ " " ++ Py.str type ++ default_clause d)
  end.
Proof.
  intros Hn Ht.
  destruct (Py.lookup "constraints" d) as [v |] eqn:Hc.
  - destruct v; try exact I;
      unfold column_def, constraint; simpl; rewrite Hn, Ht, Hc; reflexivity.
  - unfold column_def, constraint, default_clause. simpl.
    rewrite Hn, Ht, Hc. simpl.
    destruct (Py.lookup "defaultValue" d); simpl;
      rewrite ?string_app_assoc; simpl; rewrite ?string_app_nil;
      reflexivity.
Qed.

Lemma column_def_orders_modifiers_witness :
  column_def
    (JDict [("defaultValue", JInt 0);
            ("constraints", JDict [("unique", JBool true);
                                   ("nullable", JBool false);
                                   ("primaryKey", JBool true)]);
            ("type", JStr "INTEGER"); ("name", JStr "n")])
  = Ok ("n" ++ " " ++ "INTEGER"
          ++ modifiers [("unique", JBool true); ("nullable", JBool false);
                        ("primaryKey", JBool true)]
          ++ default_clause
               [("defaultValue", JInt 0);
                ("constraints", JDict [("unique", JBool true);
                                       ("nullable", JBool false);
                                       ("primaryKey", JBool true)]);
                ("type", JStr "INTEGER"); ("name", JStr "n")]).
Proof.
  apply (column_def_orders_modifiers
           [("defaultValue", JInt 0);
            ("constraints", JDict [("unique", JBool true);
                                   ("nullable", JBool false);
                                   ("primaryKey", JBool true)]);
            ("type", JStr "INTEGER"); ("name", JStr "n")]
           [("unique", JBool true); ("nullable", JBool false);
            ("primaryKey", JBool true)]
           (JStr "n") (JStr "INTEGER")); reflexivity.
Defined.

Example column_def_in_fixed_order :
  column_def
    (JDict [("defaultValue", JInt 0);
            ("constraints", JDict [("unique", JBool true);
                                   ("nullable", JBool false);
                                   ("primaryKey", JBool true)]);
            ("type", JStr "INTEGER"); ("name", JStr "n")])
  = Ok "n INTEGER PRIMARY KEY NOT NULL UNIQUE DEFAULT 0".
Proof. reflexivity. Qed.

Lemma column_def_constraints_edge_witness :
  column_def
    (JDict [("name", JStr "n"); ("type", JStr "TEXT");
            ("constraints", JNull)])
  = Raise AttributeError.
Proof.
  exact (column_def_constraints_edge
           [("name", JStr "n"); ("type", JStr "TEXT");
            ("constraints", JNull)]
           (JStr "n") (JStr "TEXT") eq_refl eq_refl).
Defined.

(* ================================================================== *)

(* ================================================================== *)
(** ** Further properties: the ledger across runs *)

(** The identifiers of a table that are not NULL. *)
Definition text_ids (rows : list ChangelogRow) : list string :=
  flat_map (fun r => match row_id r with Some s => [s] | None => [] end)
    rows.

Lemma text_ids_app (a b : list ChangelogRow) :
  text_ids (a ++ b) = (text_ids a ++ text_ids b)%list.
Proof. unfold text_ids. apply flat_map_app. Qed.

Lemma id_is_In (t : option string) (rows : list ChangelogRow) :
  existsb (id_is t) rows = false ->
  forall s, t = Some s -> ~ In s (text_ids rows).
Proof.
  intros X s -> H. unfold text_ids in H. apply in_flat_map in H.
  destruct H as (r & Hr & Hs).
  assert (Q : id_is (Some s) r = true).
  { unfold id_is. destruct (row_id r) as [b |]; simpl in Hs; [| easy].
    destruct Hs as [-> | []]. apply String.eqb_refl. }
  assert (Y : existsb (id_is (Some s)) rows = true)
    by (apply existsb_exists; eauto).
  congruence.
Qed.

Lemma append_keeps_the_key (rows : list ChangelogRow) (row : ChangelogRow) :
  NoDup (text_ids rows) ->
  existsb (id_is (row_id row)) rows = false ->
  NoDup (text_ids (rows ++ [row])).
Proof.
  intros N X. rewrite text_ids_app. unfold text_ids at 2. simpl.
  destruct (row_id row) as [s |] eqn:E; simpl.
  - apply NoDup_incl_NoDup with (l := s :: text_ids rows).
    + constructor; [| exact N]. now apply (id_is_In (Some s) rows X).
    + rewrite length_app. simpl. lia.
    + intros x [<- | Hx]; apply in_or_app; [right; now left | now left].
  - now rewrite app_nil_r.
Qed.

Lemma delete_keeps_the_key (keep : ChangelogRow -> bool)
    (rows : list ChangelogRow) :
  NoDup (text_ids rows) -> NoDup (text_ids (filter keep rows)).
Proof.
  induction rows as [| r rows IH]; simpl; intro N; [constructor |].
  change (text_ids (r :: rows))
    with ((match row_id r with Some s => [s] | None => [] end)
          ++ text_ids rows)%list in N.
  destruct (keep r); [| apply IH; now apply NoDup_app_remove_l in N].
  change (text_ids (r :: filter keep rows))
    with ((match row_id r with Some s => [s] | None => [] end)
          ++ text_ids (filter keep rows))%list.
  destruct (row_id r) as [s |]; simpl in *; [| now apply IH].
  inversion N as [| ? ? Hs N']; subst. constructor; [| now apply IH].
  intro H. apply Hs. unfold text_ids in *. apply in_flat_map in H.
  destruct H as (x & Hx & Hi). apply in_flat_map. exists x.
  apply filter_In in Hx. tauto.
Qed.

Lemma filter_twice {A : Type} (p q : A -> bool) (l : list A) :
  filter p (filter q l) = filter (fun x => q x && p x) l.
Proof.
  induction l as [| x l IH]; simpl; [reflexivity |].
  destruct (q x); simpl; [| assumption].
  destruct (p x); now rewrite IH.
Qed.

Lemma filter_all {A : Type} (p : A -> bool) (l : list A) :
  (forall x, In x l -> p x = true) -> filter p l = l.
Proof.
  induction l as [| x l IH]; simpl; intro H; [reflexivity |].
  rewrite (H x (or_introl eq_refl)). f_equal. apply IH. auto.
Qed.

(** Deleting by identifier removes at most one row of a table whose
    identifiers are distinct, and none when the identifier is NULL. *)
Lemma delete_one (t : option string) (l : list ChangelogRow) :
  NoDup (text_ids l) ->
  (length l <= length (filter (fun r => negb (id_is t r)) l) + 1)%nat.
Proof.
  induction l as [| x l IH]; simpl; intro N; [lia |].
  change (text_ids (x :: l))
    with ((match row_id x with Some s => [s] | None => [] end)
          ++ text_ids l)%list in N.
  destruct (id_is t x) eqn:E; simpl.
  - rewrite filter_all; [lia |].
    intros y Hy. apply negb_true_iff.
    unfold id_is in *. destruct t as [a |]; [| discriminate].
    destruct (row_id x) as [b |]; [| discriminate].
    apply String.eqb_eq in E. subst b.
    destruct (row_id y) as [c |] eqn:Ey; [| reflexivity].
    apply String.eqb_neq. intros ->. simpl in N.
    inversion N as [| ? ? Ha _]; subst. apply Ha.
    unfold text_ids. apply in_flat_map. exists y. rewrite Ey.
    split; [exact Hy | now left].
  - apply NoDup_app_remove_l in N. specialize (IH N). lia.
Qed.

Lemma find_snoc {A : Type} (p : A -> bool) (l : list A) (x : A) :
  find p (l ++ [x])
  = match find p l with
    | Some y => Some y
    | None => if p x then Some x else None
    end.
Proof.
  induction l as [| y l IH]; simpl; [reflexivity |].
  now destruct (p y).
Qed.

Lemma dense_snoc (rows : list ChangelogRow) (row : ChangelogRow) :
  dense rows ->
  order_executed row = Z.of_nat (length rows) + 1 ->
  dense (rows ++ [row]).
Proof.
  unfold dense. intros D E.
  rewrite map_app, length_app, D. simpl length.
  rewrite Nat.add_1_r, seq_S, map_app. simpl. f_equal. f_equal.
  rewrite E. lia.
Qed.

Section LedgerFacts.

Variable Schema : Type.
Variable sqlite_execute :
  string -> list jvalue -> Database Schema -> bool * Database Schema.
Variable isoformat : nat -> string.

Local Notation W := (World Schema).
Local Notation change := (_execute_change sqlite_execute).
Local Notation apply_migration := (execute_migration sqlite_execute isoformat).
Local Notation undo_migration := (rollback_migration sqlite_execute).
Local Notation run_changes := (execute_changes sqlite_execute).
Local Notation ledger := (fun w : W => changelog (db w)).

(** No operation of the list [v] writes [DATABASECHANGELOG]. *)
Definition keeps_ledger (v : jvalue) : Prop :=
  forall items c (w : W),
    Py.iter v = Ok items -> In c items ->
    ledger (snd (change c w)) = ledger w.

(** SQLite keeps the primary key of [DATABASECHANGELOG] whatever
    statement writes the table. *)
Definition primary_key_is_enforced : Prop :=
  forall sql params (d : Database Schema),
    NoDup (text_ids (changelog d)) ->
    NoDup (text_ids (changelog (snd (sqlite_execute sql params d)))).

Lemma execute_changes_keeps (R : W -> Prop) (v : jvalue) :
  (forall items c a,
      Py.iter v = Ok items -> In c items -> R a -> R (snd (change c a))) ->
  forall a, R a -> R (snd (run_changes v a)).
Proof.
  intros Step a Ha. unfold execute_changes, bind, lift.
  destruct (Py.iter v) as [items | e] eqn:E; simpl; [| exact Ha].
  apply (for_each_keeps_In Schema R); [| exact Ha].
  intros c b Hc. exact (Step items c b eq_refl Hc).
Qed.

Lemma update_keeps (R : W -> Prop) (ms : list Migration.t) (f : string) :
  (forall l a, R a -> R (add_console l a)) ->
  (forall m a, In m ms -> R a -> R (snd (apply_migration m f a))) ->
  forall w, R w -> R (snd (update sqlite_execute isoformat ms f w)).
Proof.
  intros Hc Hs w Hw. rewrite update_eq.
  destruct (pending_of ms (executed_ids w)) as [| p pending] eqn:P.
  - simpl. now apply Hc.
  - cbv zeta. apply (for_each_keeps_In Schema R); [| now apply Hc].
    intros m a Hm Ha. rewrite update_body_eq. simpl.
    apply Hs; [| exact Ha]. rewrite <- P in Hm.
    now apply filter_In in Hm.
Qed.

Lemma rollback_keeps (R : W -> Prop) (count : Z) (ms : list Migration.t) :
  (forall m a, In m ms -> R a -> R (snd (undo_migration m a))) ->
  forall w, R w -> R (snd (rollback sqlite_execute count ms w)).
Proof.
  intros Hs w Hw. rewrite rollback_eq.
  destruct (migrations_dict_of ms) as [d | e] eqn:D; [| exact Hw].
  apply (for_each_keeps Schema R); [| exact Hw].
  intros k a Ha. rewrite rollback_body_eq.
  destruct (dict_get d (PyKey.of_text k)) as [m |] eqn:G; [| exact Ha].
  simpl. apply Hs; [| exact Ha]. exact (migrations_dict_In ms d _ m D G).
Qed.

Lemma _execute_change_key (c : jvalue) (w : W) :
  primary_key_is_enforced ->
  NoDup (text_ids (ledger w)) ->
  NoDup (text_ids (ledger (snd (change c w)))).
Proof.
  intros K N.
  destruct (_execute_change_statement Schema sqlite_execute c)
    as (l & _ & [(e & H) | (sql & params & H)]); rewrite H.
  - exact N.
  - unfold execute_sql.
    specialize (K sql params (db (add_console l w)) N).
    destruct (sqlite_execute sql params (db (add_console l w)))
      as [[|] d]; exact K.
Qed.

(** What one [execute_migration] does to the ledger when the operations
    leave the ledger alone: nothing, or it adds the row of the change
    set. *)
Lemma execute_migration_ledger (m : Migration.t) (f : string) (w : W) :
  keeps_ledger (Migration.changes m) ->
  (fst (apply_migration m f w) = Ok false /\
   ledger (snd (apply_migration m f w)) = ledger w) \/
  (exists row,
      fst (apply_migration m f w) = Ok true /\
      ledger (snd (apply_migration m f w)) = (ledger w ++ [row])%list /\
      existsb (id_is (row_id row)) (ledger w) = false /\
      Sqlite.bind_text (Migration.id m) = Ok (row_id row) /\
      md5sum row = Migration.checksum m /\
      order_executed row = Z.of_nat (length (ledger w)) + 1).
Proof.
  intro K. rewrite execute_migration_eq.
  assert (L : ledger (snd (run_changes (Migration.changes m)
                             (announce m w))) = ledger w).
  { apply (execute_changes_keeps (fun a => ledger a = ledger w));
      [| reflexivity].
    intros items c a E Hc Ha. now rewrite (K items c a E Hc). }
  destruct (run_changes (Migration.changes m) (announce m w))
    as [[[] | e] w1]; simpl in L.
  - destruct (new_row isoformat m f w1) as [row | e] eqn:Row.
    + destruct (existsb _ _) eqn:X.
      * left. split; [reflexivity | exact L].
      * right. exists row. simpl. rewrite L in *.
        split; [reflexivity |]. split; [reflexivity |].
        split; [exact X |]. unfold new_row in Row.
        split; [exact (changelog_row_id _ _ _ _ _ _ _ _ Row) |].
        unfold changelog_row in Row.
        destruct (Sqlite.bind_text (Migration.id m)); simpl in Row;
          [| discriminate].
        destruct (Sqlite.bind_text (Migration.author m)) as [[au |] |];
          simpl in Row;
          destruct (Sqlite.bind_text (Migration.description m));
          simpl in Row; try discriminate.
        inversion Row. simpl. rewrite L. split; reflexivity.
    + left. split; [reflexivity | exact L].
  - left. split; [reflexivity | exact L].
Qed.

(** What one [rollback_migration] does to the ledger when the rollback
    operations leave the ledger alone: nothing, or it deletes the rows
    with the identifier of the change set. *)
Lemma rollback_migration_ledger (m : Migration.t) (w : W) :
  keeps_ledger (Migration.rollback m) ->
  ledger (snd (undo_migration m w)) = ledger w \/
  exists t,
    Sqlite.bind_text (Migration.id m) = Ok t /\
    ledger (snd (undo_migration m w))
    = filter (fun r => negb (id_is t r)) (ledger w).
Proof.
  intro K. rewrite rollback_migration_eq.
  destruct (Py.truthy (Migration.rollback m)); [| now left].
  assert (L : ledger (snd (run_changes (Migration.rollback m)
                             (rolling_back m w))) = ledger w).
  { apply (execute_changes_keeps (fun a => ledger a = ledger w));
      [| reflexivity].
    intros items c a E Hc Ha. now rewrite (K items c a E Hc). }
  destruct (run_changes (Migration.rollback m) (rolling_back m w))
    as [[[] | e] w1]; simpl in L; [| now left].
  destruct (Sqlite.bind_text (Migration.id m)) as [t | e]; [| now left].
  right. exists t. simpl. now rewrite L.
Qed.

(** X8. The identifier is checked against the ledger only by the final
    INSERT. When the operations of a change set return and its identifier
    is then in the ledger, the INSERT is refused: [execute_migration]
    prints the error and returns [False], the ledger is as the operations
    left it, and what the operations did stays committed. *)
Theorem recorded_id_is_rejected_after_the_operations
    (m : Migration.t) (f : string) (w w1 : W) (row : ChangelogRow) :
  run_changes (Migration.changes m) (announce m w) = (Ok tt, w1) ->
  new_row isoformat m f w1 = Ok row ->
  existsb (id_is (row_id row)) (ledger w1) = true ->
  apply_migration m f w = (Ok false, failed m SqliteError (tick w1)) /\
  db (failed m SqliteError (tick w1)) = db w1 /\
  durable (failed m SqliteError (tick w1)) = durable w1.
Proof.
  intros E R X. rewrite execute_migration_eq, E, R, X. repeat split.
Qed.

(** X9. The identifiers of the ledger stay pairwise distinct: SQLite
    keeping the primary key of the table for the statements of the
    operations, an update run and a rollback run each take a ledger
    without a repeated identifier to one without. *)
Theorem ledger_ids_stay_distinct
    (ms : list Migration.t) (f : string) (count : Z) (w : W) :
  primary_key_is_enforced ->
  NoDup (text_ids (ledger w)) ->
  NoDup (text_ids (ledger (snd (update sqlite_execute isoformat ms f w)))) /\
  NoDup (text_ids (ledger (snd (rollback sqlite_execute count ms w)))).
Proof.
  intros K N. split.
  - apply (update_keeps (fun a => NoDup (text_ids (ledger a))));
      try assumption; [intros l a Ha; exact Ha |].
    intros m a _ Ha. rewrite execute_migration_eq.
    assert (L : NoDup (text_ids (ledger (snd (run_changes
                  (Migration.changes m) (announce m a)))))).
    { apply (execute_changes_keeps
               (fun b => NoDup (text_ids (ledger b)))); [| exact Ha].
      intros items c b _ _. now apply _execute_change_key. }
    destruct (run_changes (Migration.changes m) (announce m a))
      as [[[] | e] w1]; simpl in L; [| exact L].
    destruct (new_row isoformat m f w1) as [row | e]; [| exact L].
    destruct (existsb _ _) eqn:X; [exact L |].
    simpl. now apply append_keeps_the_key.
  - apply (rollback_keeps (fun a => NoDup (text_ids (ledger a))));
      try assumption.
    intros m a _ Ha. rewrite rollback_migration_eq.
    destruct (Py.truthy (Migration.rollback m)); [| exact Ha].
    assert (L : NoDup (text_ids (ledger (snd (run_changes
                  (Migration.rollback m) (rolling_back m a)))))).
    { apply (execute_changes_keeps
               (fun b => NoDup (text_ids (ledger b)))); [| exact Ha].
      intros items c b _ _. now apply _execute_change_key. }
    destruct (run_changes (Migration.rollback m) (rolling_back m a))
      as [[[] | e] w1]; simpl in L; [| exact L].
    destruct (Sqlite.bind_text (Migration.id m)); [| exact L].
    simpl. now apply delete_keeps_the_key.
Qed.

(** X10. When the rollback operations of the document do not write the
    ledger themselves, a rollback run only deletes from it: the rows left
    are rows that were there, unchanged and in the same order. *)
Theorem rollback_only_deletes
    (count : Z) (ms : list Migration.t) (w : W) :
  (forall m, In m ms -> keeps_ledger (Migration.rollback m)) ->
  exists keep,
    ledger (snd (rollback sqlite_execute count ms w))
    = filter keep (ledger w).
Proof.
  intro K.
  apply (rollback_keeps
           (fun a => exists keep, ledger a = filter keep (ledger w))).
  - intros m a Hm (keep & Ha).
    destruct (rollback_migration_ledger m a (K m Hm))
      as [E | (t & _ & E)]; rewrite E.
    + eauto.
    + rewrite Ha, filter_twice. eauto.
  - exists (fun _ => true). symmetry. apply filter_all. reflexivity.
Qed.

Lemma rollback_loop_bound (ms : list Migration.t)
    (d : list (hkey * Migration.t)) (ks : list (option string)) (a : W) :
  (forall m, In m ms -> keeps_ledger (Migration.rollback m)) ->
  migrations_dict_of ms = Ok d ->
  NoDup (text_ids (ledger a)) ->
  (length (ledger a)
   <= length (ledger
                (snd (for_each ks (rollback_body sqlite_execute d) a)))
      + length ks)%nat.
Proof.
  intros K D. revert a. induction ks as [| k ks IH]; intros a N; simpl;
    [lia |].
  unfold bind. rewrite rollback_body_eq.
  destruct (dict_get d (PyKey.of_text k)) as [m |] eqn:G.
  - assert (Hm := migrations_dict_In ms d _ m D G).
    destruct (rollback_migration_ledger m a (K m Hm))
      as [E | (t & _ & E)].
    + assert (N1 : NoDup (text_ids (ledger (snd (undo_migration m a)))))
        by now rewrite E.
      specialize (IH _ N1). rewrite E in IH. lia.
    + assert (N1 : NoDup (text_ids (ledger (snd (undo_migration m a)))))
        by (rewrite E; now apply delete_keeps_the_key).
      specialize (IH _ N1). rewrite E in IH.
      pose proof (delete_one t (ledger a) N). lia.
  - specialize (IH a N). lia.
Qed.

(** X11. When the rollback operations of the document do not write the
    ledger themselves, a rollback run with a count of at least one
    deletes at most [count] rows from a ledger whose identifiers are
    distinct. *)
Theorem rollback_deletes_at_most_count
    (count : Z) (ms : list Migration.t) (w : W) :
  (forall m, In m ms -> keeps_ledger (Migration.rollback m)) ->
  1 <= count ->
  NoDup (text_ids (ledger w)) ->
  Z.of_nat (length (ledger w))
  <= Z.of_nat (length (ledger (snd (rollback sqlite_execute count ms w))))
     + count.
Proof.
  intros K Hc N. rewrite rollback_eq.
  destruct (migrations_dict_of ms) as [d | e] eqn:D; [| simpl; lia].
  pose proof (rollback_loop_bound ms d
                (to_rollback_of count (executed_ids w)) w K D N) as B.
  assert (L : (length (to_rollback_of count (executed_ids w))
               <= Z.to_nat count)%nat).
  { unfold to_rollback_of. rewrite slice_from_tail by assumption.
    apply firstn_le_length. }
  lia.
Qed.

(** X12. On an empty ledger a rollback run does nothing at all, whatever
    the count and the document: nothing is run and nothing is printed.
    (The run returns, unless the dictionary of the document cannot be
    built.) *)
Theorem rollback_of_an_empty_ledger
    (count : Z) (ms : list Migration.t) (w : W) :
  ledger w = [] ->
  rollback sqlite_execute count ms w
  = (match migrations_dict_of ms with
     | Ok _ => Ok tt
     | Raise e => Raise e
     end, w).
Proof.
  intro E. rewrite rollback_eq. unfold executed_ids. rewrite E. simpl.
  unfold to_rollback_of, slice_from. rewrite skipn_nil.
  now destruct (migrations_dict_of ms).
Qed.

(** X15. A rollback run against a document none of whose change sets has
    rollback operations undoes nothing: no statement is run and the
    database - ledger, user tables and lock row - is as before. *)
Theorem rollback_without_rollback_operations
    (count : Z) (ms : list Migration.t) (w : W) :
  (forall m, In m ms -> Py.truthy (Migration.rollback m) = false) ->
  db (snd (rollback sqlite_execute count ms w)) = db w /\
  durable (snd (rollback sqlite_execute count ms w)) = durable w.
Proof.
  intro H.
  apply (rollback_keeps (fun a => db a = db w /\ durable a = durable w));
    [| now split].
  intros m a Hm Ha. rewrite rollback_migration_eq, (H m Hm). exact Ha.
Qed.

(** X16. When the operations of the document do not write the ledger
    themselves, an update run keeps the numbering dense: if the
    [order_executed] values of the ledger are 1..n in table order before
    the run, they are 1..n' after it, whatever succeeded or failed during
    the run. *)
Theorem update_keeps_the_numbering_dense
    (ms : list Migration.t) (f : string) (w : W) :
  (forall m, In m ms -> keeps_ledger (Migration.changes m)) ->
  dense (ledger w) ->
  dense (ledger (snd (update sqlite_execute isoformat ms f w))).
Proof.
  intros K D.
  apply (update_keeps (fun a => dense (ledger a))); try assumption.
  - intros l a Ha. exact Ha.
  - intros m a Hm Ha.
    destruct (execute_migration_ledger m f a (K m Hm))
      as [(_ & E) | (row & _ & E & _ & _ & _ & O)]; rewrite E.
    + exact Ha.
    + now apply dense_snoc.
Qed.

Lemma statements_keep_the_ledger (v : jvalue) :
  statements_keep_ledger sqlite_execute -> keeps_ledger v.
Proof.
  intros K items c w _ _. now apply _execute_change_keeps_ledger.
Qed.

Lemma statements_keep_the_key :
  statements_keep_ledger sqlite_execute -> primary_key_is_enforced.
Proof. intros K sql params d N. now rewrite K. Qed.

End LedgerFacts.

Arguments keeps_ledger {Schema}.
Arguments primary_key_is_enforced {Schema}.

(* ================================================================== *)
(** ** Further properties: what a rollback targets *)

(** X13. A count that reaches the size of the ledger targets every applied
    change set, the latest first; a negative count [-k] also passes the
    bounds of the slice, leaves the [k] oldest change sets alone and
    targets all the others. *)
Theorem to_rollback_out_of_range {A : Type} (count : Z) (executed : list A) :
  (Z.of_nat (length executed) <= count ->
   to_rollback_of count executed = rev executed) /\
  (count < 0 ->
   to_rollback_of count executed
   = rev (skipn (Z.to_nat (- count)) executed)).
Proof.
  unfold to_rollback_of, slice_from. split; intro H; f_equal.
  - destruct (Z.ltb_spec (- count) 0).
    + replace (Z.to_nat (Z.max (- count + Z.of_nat (length executed)) 0))
        with 0%nat by lia.
      reflexivity.
    + replace (Z.to_nat (Z.min (- count) (Z.of_nat (length executed))))
        with 0%nat by lia.
      reflexivity.
  - destruct (Z.ltb_spec (- count) 0); [lia |].
    destruct (Z.le_ge_cases (- count) (Z.of_nat (length executed))).
    + f_equal. lia.
    + rewrite !skipn_all2 by lia. reflexivity.
Qed.

Lemma to_rollback_out_of_range_witness :
  to_rollback_of 5 [Some "A"; Some "B"; Some "C"]
  = rev [Some "A"; Some "B"; Some "C"] /\
  to_rollback_of (-1) [Some "A"; Some "B"; Some "C"]
  = rev (skipn (Z.to_nat (- (-1))) [Some "A"; Some "B"; Some "C"]).
Proof.
  split.
  - apply (proj1 (to_rollback_out_of_range 5
                    [Some "A"; Some "B"; Some "C"])).
    simpl. lia.
  - apply (proj2 (to_rollback_out_of_range (-1)
                    [Some "A"; Some "B"; Some "C"])).
    lia.
Defined.

(** [k == m.id] for a key [k] of the dictionary. *)
Definition has_key (k : hkey) (m : Migration.t) : bool :=
  match PyKey.key (Migration.id m) with
  | Some k' => PyKey.eqb k k'
  | None => false
  end.

Lemma migrations_dict_from_find (ms : list Migration.t)
    (acc d : list (hkey * Migration.t)) (k : hkey) :
  migrations_dict_from acc ms = Ok d ->
  dict_get d k
  = match find (has_key k) (rev ms) with
    | Some m => Some m
    | None => dict_get acc k
    end.
Proof.
  revert acc. induction ms as [| m ms IH]; intros acc; simpl.
  - intro E. now inversion E.
  - destruct (PyKey.key (Migration.id m)) as [km |] eqn:Km;
      [| discriminate].
    intro E. rewrite (IH _ E), find_snoc, dict_get_set.
    destruct (find (has_key k) (rev ms)); [reflexivity |].
    unfold has_key. rewrite Km. now destruct (PyKey.eqb k km).
Qed.

(** X14. When the document of a rollback holds several change sets with
    one identifier, the dictionary built from it keeps the last of them:
    looking an identifier up gives the last change set of the document
    that carries it, or nothing when none does. *)
Theorem migrations_dict_keeps_the_last
    (ms : list Migration.t) (d : list (hkey * Migration.t)) (k : hkey) :
  migrations_dict_of ms = Ok d ->
  dict_get d k = find (has_key k) (rev ms).
Proof.
  intro E. rewrite (migrations_dict_from_find ms [] d k E). simpl.
  now destruct (find (has_key k) (rev ms)).
Qed.

(** Witnesses, on the store that accepts every statement. *)

Lemma recorded_id_is_rejected_after_the_operations_witness :
  let w := cli_up [cs_A] fresh in
  let w1 := snd (execute_changes journal_execute (Migration.changes cs_A)
                   (announce cs_A w)) in
  execute_migration journal_execute stamp cs_A "changelog.yaml" w
  = (Ok false, failed cs_A SqliteError (tick w1)) /\
  db (failed cs_A SqliteError (tick w1)) = db w1 /\
  durable (failed cs_A SqliteError (tick w1)) = durable w1.
Proof.
  intros w w1.
  eapply (recorded_id_is_rejected_after_the_operations Journal
            journal_execute stamp cs_A "changelog.yaml" w w1).
  - reflexivity.
  - vm_compute. reflexivity.
  - vm_compute. reflexivity.
Defined.

Lemma ledger_ids_stay_distinct_witness :
  let w := cli_up [cs_A] fresh in
  NoDup (text_ids (changelog (db
    (snd (update journal_execute stamp [cs_A; cs_B] "changelog.yaml" w)))))
  /\
  NoDup (text_ids (changelog (db
    (snd (rollback journal_execute 1 [cs_A; cs_B] w))))).
Proof.
  intro w.
  apply (ledger_ids_stay_distinct Journal journal_execute stamp
           [cs_A; cs_B] "changelog.yaml" 1 w).
  - apply statements_keep_the_key. exact journal_keeps_ledger.
  - vm_compute. repeat constructor. intros [].
Defined.

Lemma rollback_only_deletes_witness :
  exists keep,
    changelog (db (snd (rollback journal_execute 1 [cs_A; cs_B]
                          applied_ABC)))
    = filter keep (changelog (db applied_ABC)).
Proof.
  apply (rollback_only_deletes Journal journal_execute 1 [cs_A; cs_B]
           applied_ABC).
  intros m _. apply statements_keep_the_ledger. exact journal_keeps_ledger.
Defined.

Lemma rollback_deletes_at_most_count_witness :
  Z.of_nat (length (changelog (db applied_ABC)))
  <= Z.of_nat (length (changelog (db
       (snd (rollback journal_execute 2 [cs_A; cs_B; cs_C] applied_ABC)))))
     + 2.
Proof.
  apply (rollback_deletes_at_most_count Journal journal_execute 2
           [cs_A; cs_B; cs_C] applied_ABC).
  - intros m _. apply statements_keep_the_ledger.
    exact journal_keeps_ledger.
  - lia.
  - vm_compute. repeat constructor; simpl; intuition discriminate.
Defined.

Lemma rollback_of_an_empty_ledger_witness :
  rollback journal_execute 3 [cs_A; cs_B] fresh
  = (match migrations_dict_of [cs_A; cs_B] with
     | Ok _ => Ok tt
     | Raise e => Raise e
     end, fresh).
Proof.
  apply (rollback_of_an_empty_ledger Journal journal_execute 3
           [cs_A; cs_B] fresh).
  reflexivity.
Defined.

Lemma rollback_without_rollback_operations_witness :
  let w := cli_up [cs_B_no_rollback] fresh in
  db (snd (rollback journal_execute 1 [cs_B_no_rollback] w)) = db w /\
  durable (snd (rollback journal_execute 1 [cs_B_no_rollback] w))
  = durable w.
Proof.
  intro w.
  apply (rollback_without_rollback_operations Journal journal_execute 1
           [cs_B_no_rollback] w).
  intros m [<- | []]. reflexivity.
Defined.

Lemma update_keeps_the_numbering_dense_witness :
  let w := cli_up [cs_A] fresh in
  dense (changelog (db
    (snd (update journal_execute stamp [cs_A; cs_bad; cs_B]
            "changelog.yaml" w)))).
Proof.
  intro w.
  apply (update_keeps_the_numbering_dense Journal journal_execute stamp
           [cs_A; cs_bad; cs_B] "changelog.yaml" w).
  - intros m _. apply statements_keep_the_ledger.
    exact journal_keeps_ledger.
  - reflexivity.
Defined.

Lemma migrations_dict_keeps_the_last_witness :
  dict_get (dict_of [cs_X; cs_A; cs_X_edited]) (KStr "X")
  = find (has_key (KStr "X")) (rev [cs_X; cs_A; cs_X_edited]).
Proof.
  apply (migrations_dict_keeps_the_last [cs_X; cs_A; cs_X_edited]).
  reflexivity.
Defined.

Example the_last_definition_of_X :
  option_map Migration.changes
    (dict_get (dict_of [cs_X; cs_A; cs_X_edited]) (KStr "X"))
  = Some (Migration.changes cs_X_edited).
Proof. vm_compute. reflexivity. Qed.

(* ================================================================== *)
(** ** Further properties: a run without an error line *)

Section RunFacts.

Variable Schema : Type.
Variable sqlite_execute :
  string -> list jvalue -> Database Schema -> bool * Database Schema.
Variable isoformat : nat -> string.

Local Notation W := (World Schema).
Local Notation apply_migration := (execute_migration sqlite_execute isoformat).
Local Notation ledger := (fun w : W => changelog (db w)).
Local Notation errors := (fun w : W => filter is_error (console w)).
Local Notation update_loop :=
  (fun f pending => for_each pending
                      (update_body sqlite_execute isoformat f)).

(** The row of [row] is the row of the change set [m]. *)
Definition row_of (m : Migration.t) (row : ChangelogRow) : Prop :=
  Sqlite.bind_text (Migration.id m) = Ok (row_id row) /\
  md5sum row = Migration.checksum m.

(** The order numbers [n + 1], [n + 2], ... of [rows]. *)
Definition numbered_from (n : nat) (rows : list ChangelogRow) : Prop :=
  map order_executed rows = map Z.of_nat (seq (n + 1) (length rows)).

(** [execute_migration] prints an error line exactly when it returns
    [False]. *)
Lemma execute_migration_errors (m : Migration.t) (f : string) (w : W) :
  exists l,
    errors (snd (apply_migration m f w)) = (errors w ++ l)%list /\
    (l = [] -> fst (apply_migration m f w) = Ok true).
Proof.
  destruct (execute_migration_console Schema sqlite_execute isoformat m f w)
    as (l & out & N & E & [(R & ->) | (R & e & ->)]); rewrite E;
    rewrite filter_app; simpl; rewrite filter_app, (notes_filter _ l);
    trivial; simpl.
  - exists []. split; [reflexivity | now intros _].
  - eexists. split; [reflexivity | discriminate].
Qed.

Lemma update_loop_rows (f : string) (pending : list Migration.t) :
  (forall m, In m pending -> keeps_ledger sqlite_execute
                               (Migration.changes m)) ->
  forall w,
  exists l,
    errors (snd (update_loop f pending w)) = (errors w ++ l)%list /\
    (l = [] ->
     exists rows,
       ledger (snd (update_loop f pending w)) = (ledger w ++ rows)%list /\
       Forall2 row_of pending rows /\
       numbered_from (length (ledger w)) rows).
Proof.
  induction pending as [| p pending IH]; intros K w.
  - exists []. simpl. rewrite !app_nil_r. split; [reflexivity |].
    intros _. exists []. rewrite app_nil_r.
    repeat split. constructor.
  - simpl. unfold bind. rewrite update_body_eq.
    destruct (execute_migration_errors p f w) as (l0 & E0 & R0).
    destruct (IH (fun m H => K m (or_intror H))
                 (snd (apply_migration p f w))) as (l1 & E1 & R1).
    exists (l0 ++ l1)%list. split; [now rewrite E1, E0, app_assoc |].
    intro E. apply app_eq_nil in E. destruct E as (L0 & L1).
    destruct (R1 L1) as (rows & Hl & Hr & Hn).
    destruct (execute_migration_ledger Schema sqlite_execute isoformat
                p f w (K p (or_introl eq_refl)))
      as [(F & _) | (row & _ & Hrow & _ & Hid & Hsum & Hord)].
    { rewrite (R0 L0) in F. discriminate. }
    exists (row :: rows). rewrite Hl, Hrow, <- app_assoc.
    split; [reflexivity |]. split; [constructor; [now split | exact Hr] |].
    unfold numbered_from in *. simpl. rewrite Hn, Hord, Hrow, length_app.
    simpl. f_equal; [lia |]. f_equal. f_equal. lia.
Qed.

Lemma update_rows
    (ms : list Migration.t) (f : string) (w : W) :
  (forall m, In m ms -> keeps_ledger sqlite_execute
                          (Migration.changes m)) ->
  errors (snd (update sqlite_execute isoformat ms f w)) = errors w ->
  exists rows,
    ledger (snd (update sqlite_execute isoformat ms f w))
    = (ledger w ++ rows)%list /\
    Forall2 row_of (pending_of ms (executed_ids w)) rows /\
    numbered_from (length (ledger w)) rows.
Proof.
  intros K Quiet. rewrite update_eq in *.
  destruct (pending_of ms (executed_ids w)) as [| p pending] eqn:P.
  - exists []. simpl. rewrite app_nil_r. repeat split. constructor.
  - cbv zeta in *.
    set (w0 := add_console [MsgFoundPending (length (p :: pending))] w)
      in *.
    destruct (update_loop_rows f (p :: pending)) with (w := w0)
      as (l & E & Rows).
    { intros x Hx. apply K. rewrite <- P in Hx.
      now apply filter_In in Hx. }
    apply Rows. rewrite Quiet in E. unfold w0 in E. simpl in E.
    rewrite filter_app in E. simpl in E. rewrite app_nil_r in E.
    rewrite <- (app_nil_r (filter is_error (console w))) in E at 1.
    apply app_inv_head in E. now symmetry.
Qed.

(** X17. When the operations of the document do not write the ledger
    themselves and the update run prints no error line, the run appends
    exactly one row for each pending change set, in document order,
    carrying its identifier and its checksum, and numbered on from the
    number of rows the ledger had. *)
Theorem update_appends_in_document_order
    (ms : list Migration.t) (f : string) (w : W) :
  (forall m, In m ms -> keeps_ledger sqlite_execute
                          (Migration.changes m)) ->
  errors (snd (update sqlite_execute isoformat ms f w)) = errors w ->
  exists rows,
    ledger (snd (update sqlite_execute isoformat ms f w))
    = (ledger w ++ rows)%list /\
    Forall2 row_of (pending_of ms (executed_ids w)) rows /\
    numbered_from (length (ledger w)) rows.
Proof. apply update_rows. Qed.

(** X22. [validate] counts the rows of the ledger: its count is the
    number of identifiers [get_executed_migrations] returns, and after an
    update run that printed no error line, with operations that do not
    write the ledger themselves, it has grown by the number of change
    sets that were pending. *)
Theorem validate_counts_the_applied
    (ms : list Migration.t) (f : string) (w : W) :
  fst (Cli.validate w) = Ok (Z.of_nat (length (executed_ids w))) /\
  ((forall m, In m ms -> keeps_ledger sqlite_execute
                           (Migration.changes m)) ->
   errors (snd (update sqlite_execute isoformat ms f w)) = errors w ->
   fst (Cli.validate (snd (update sqlite_execute isoformat ms f w)))
   = Ok (Z.of_nat (length (executed_ids w))
         + Z.of_nat (length (pending_of ms (executed_ids w))))).
Proof.
  unfold Cli.validate, fetch_count_changelog, bind, ret. simpl.
  rewrite executed_ids_length. split; [reflexivity |].
  intros K Quiet.
  destruct (update_rows ms f w K Quiet) as (rows & E & F & _).
  rewrite E, length_app, (Forall2_length F). f_equal. lia.
Qed.

End RunFacts.

Lemma update_appends_in_document_order_witness :
  let w := run DatabaseManager fresh in
  exists rows,
    changelog (db (snd (update strict_execute stamp [cs_A; cs_B]
                          "changelog.yaml" w)))
    = (changelog (db w) ++ rows)%list /\
    Forall2 row_of (pending_of [cs_A; cs_B] (executed_ids w)) rows /\
    numbered_from (length (changelog (db w))) rows.
Proof.
  intro w.
  apply (update_appends_in_document_order Journal strict_execute stamp
           [cs_A; cs_B] "changelog.yaml" w).
  - intros m _. apply statements_keep_the_ledger.
    exact strict_keeps_ledger.
  - vm_compute. reflexivity.
Defined.

Lemma validate_counts_the_applied_witness :
  let w := cli_up [cs_A] fresh in
  fst (Cli.validate
         (snd (update journal_execute stamp [cs_A; cs_B; cs_C]
                 "changelog.yaml" w)))
  = Ok (Z.of_nat (length (executed_ids w))
        + Z.of_nat (length (pending_of [cs_A; cs_B; cs_C]
                              (executed_ids w)))).
Proof.
  intro w.
  apply (proj2 (validate_counts_the_applied Journal journal_execute stamp
                  [cs_A; cs_B; cs_C] "changelog.yaml" w)).
  - intros m _. apply statements_keep_the_ledger.
    exact journal_keeps_ledger.
  - vm_compute. reflexivity.
Defined.

Example validate_after_three :
  let w := cli_up [cs_A; cs_B; cs_C] (cli_up [cs_A] fresh) in
  fst (Cli.validate w) = Ok 3.
Proof. vm_compute. reflexivity. Qed.

(* ================================================================== *)
(** ** Further properties: update and rollback undo each other *)

Definition is_rolled_back (msg : message) : bool :=
  match msg with MsgRolledBack _ => true | _ => false end.

Lemma dense_from_sorted (rows : list ChangelogRow) (k n : nat) :
  map order_executed rows = map Z.of_nat (seq k n) ->
  StronglySorted (fun a b => order_executed a <= order_executed b) rows.
Proof.
  revert k n. induction rows as [| r t IH]; intros k n E; [constructor |].
  destruct n as [| n]; [discriminate |]. simpl in E.
  injection E as Er Et. constructor; [now apply (IH (S k) n) |].
  apply Forall_forall. intros b Hb.
  assert (Hin : In (order_executed b) (map Z.of_nat (seq (S k) n)))
    by (rewrite <- Et; now apply in_map).
  apply in_map_iff in Hin. destruct Hin as (i & Ei & Hi).
  apply in_seq in Hi. lia.
Qed.

Lemma dense_app (a rows : list ChangelogRow) :
  dense a -> numbered_from (length a) rows -> dense (a ++ rows).
Proof.
  unfold dense, numbered_from. intros D N.
  rewrite map_app, length_app, D, N, seq_app, map_app.
  now rewrite Nat.add_comm.
Qed.

Lemma firstn_rev_app {A : Type} (a b : list A) :
  firstn (length b) (rev (a ++ b)) = rev b.
Proof.
  rewrite rev_app_distr, firstn_app, length_rev, Nat.sub_diag.
  simpl. rewrite app_nil_r. rewrite <- (length_rev b). apply firstn_all.
Qed.

Lemma dict_get_key (ms : list Migration.t) (d : list (hkey * Migration.t))
    (k : hkey) (m : Migration.t) :
  migrations_dict_of ms = Ok d -> dict_get d k = Some m ->
  has_key k m = true.
Proof.
  intros D G. rewrite (migrations_dict_from_find ms [] d k D) in G.
  destruct (find (has_key k) (rev ms)) as [m' |] eqn:F; [| discriminate].
  inversion G; subst. now apply find_some in F.
Qed.

Lemma filter_none {A : Type} (p : A -> bool) (l : list A) :
  (forall x, In x l -> p x = false) -> filter p l = [].
Proof.
  induction l as [| x l IH]; simpl; intro H; [reflexivity |].
  rewrite (H x (or_introl eq_refl)). apply IH. auto.
Qed.

Section UndoFacts.

Variable Schema : Type.
Variable sqlite_execute :
  string -> list jvalue -> Database Schema -> bool * Database Schema.
Variable isoformat : nat -> string.

Local Notation W := (World Schema).
Local Notation undo_migration := (rollback_migration sqlite_execute).
Local Notation run_changes := (execute_changes sqlite_execute).
Local Notation ledger := (fun w : W => changelog (db w)).
Local Notation errors := (fun w : W => filter is_error (console w)).
Local Notation rolled := (fun w : W => filter is_rolled_back (console w)).

(** The rows that no DELETE for an identifier of [ks] removes. *)
Definition survives (ks : list (option string)) (r : ChangelogRow) : bool :=
  negb (existsb (fun k => id_is k r) ks).

(** One [rollback_migration] prints at most one line of success, and when
    it prints one it has deleted the rows with the identifier of the
    change set. *)
Lemma rollback_migration_rolled (m : Migration.t) (w : W) :
  keeps_ledger sqlite_execute (Migration.rollback m) ->
  (rolled (snd (undo_migration m w)) = rolled w \/
   exists t,
     Sqlite.bind_text (Migration.id m) = Ok t /\
     rolled (snd (undo_migration m w))
     = (rolled w ++ [MsgRolledBack (Py.str (Migration.id m))])%list /\
     ledger (snd (undo_migration m w))
     = filter (fun r => negb (id_is t r)) (ledger w)).
Proof.
  intro K. rewrite rollback_migration_eq.
  destruct (Py.truthy (Migration.rollback m)).
  - destruct (execute_changes_console Schema sqlite_execute
                (Migration.rollback m) (rolling_back m w))
      as (_ & l & N & Hl).
    assert (L : ledger (snd (run_changes (Migration.rollback m)
                               (rolling_back m w))) = ledger w).
    { apply (execute_changes_keeps Schema sqlite_execute
               (fun a => ledger a = ledger w)); [| reflexivity].
      intros items c a E Hc Ha. now rewrite (K items c a E Hc). }
    destruct (run_changes (Migration.rollback m) (rolling_back m w))
      as [[[] | e] w1]; simpl in Hl, L.
    + destruct (Sqlite.bind_text (Migration.id m)) as [t | e].
      * right. exists t. split; [reflexivity |]. simpl.
        rewrite Hl, L, !filter_app, (notes_filter _ l); trivial.
        simpl. rewrite !app_nil_r. split; reflexivity.
      * left. simpl.
        rewrite Hl, !filter_app, (notes_filter _ l); trivial.
        simpl. now rewrite !app_nil_r.
    + left. simpl.
      rewrite Hl, !filter_app, (notes_filter _ l); trivial.
      simpl. now rewrite !app_nil_r.
  - left. simpl. rewrite !filter_app. simpl. now rewrite !app_nil_r.
Qed.

Lemma rollback_loop_rolled (ms : list Migration.t)
    (d : list (hkey * Migration.t)) (ks : list (option string)) :
  (forall m, In m ms -> exists s, Migration.id m = JStr s) ->
  (forall m, In m ms -> keeps_ledger sqlite_execute
                          (Migration.rollback m)) ->
  migrations_dict_of ms = Ok d ->
  forall a,
    (length (rolled (snd (for_each ks (rollback_body sqlite_execute d) a)))
     <= length (rolled a) + length ks)%nat /\
    (length (rolled (snd (for_each ks (rollback_body sqlite_execute d) a)))
     = (length (rolled a) + length ks)%nat ->
     ledger (snd (for_each ks (rollback_body sqlite_execute d) a))
     = filter (survives ks) (ledger a)).
Proof.
  intros Ids K D. induction ks as [| k ks IH]; intro a; simpl.
  - split; [lia |]. intros _. symmetry. apply filter_all. reflexivity.
  - unfold bind. rewrite rollback_body_eq.
    destruct (dict_get d (PyKey.of_text k)) as [m |] eqn:G.
    + assert (Hm := migrations_dict_In ms d _ m D G).
      destruct (IH (snd (undo_migration m a))) as (B & L).
      destruct (rollback_migration_rolled m a (K m Hm))
        as [E | (t & Ht & E & El)]; rewrite E in *.
      * split; [lia |]. intro Q. lia.
      * rewrite length_app in *. simpl in *. split; [lia |].
        intro Q. rewrite L by lia. rewrite El, filter_twice.
        apply filter_ext. intro r. unfold survives. simpl.
        rewrite negb_orb. f_equal. f_equal.
        destruct (Ids m Hm) as (s & Es).
        assert (Hk := dict_get_key ms d _ m D G).
        unfold has_key in Hk. rewrite Es in *. simpl in Hk, Ht.
        inversion Ht; subst t.
        destruct k as [s' |]; simpl in Hk; [| discriminate].
        apply String.eqb_eq in Hk. now subst.
    + destruct (IH a) as (B & L). split; [lia |]. intro Q. lia.
Qed.

Lemma migrations_dict_builds (ms : list Migration.t) :
  (forall m, In m ms -> exists s, Migration.id m = JStr s) ->
  forall acc, exists d, migrations_dict_from acc ms = Ok d.
Proof.
  induction ms as [| m ms IH]; intros Ids acc; simpl; [eauto |].
  destruct (Ids m (or_introl eq_refl)) as (s & ->). simpl.
  apply IH. intros x Hx. apply Ids. now right.
Qed.

Lemma row_of_pending (pending : list Migration.t)
    (rows : list ChangelogRow) (row : ChangelogRow) :
  Forall2 row_of pending rows -> In row rows ->
  exists m, In m pending /\ row_of m row.
Proof.
  induction 1 as [| m r ms rs Hr _ IH]; intros []; subst.
  - exists m. split; [now left | exact Hr].
  - destruct (IH H) as (m' & Hm' & Hr'). exists m'.
    split; [now right | exact Hr'].
Qed.

(** X18. Update and rollback undo each other on the ledger. Take a
    ledger numbered 1..n and a document with string identifiers whose
    operations and rollback operations do not write the ledger
    themselves. When an update run with pending change sets prints no
    error line, and the rollback of as many change sets as were pending
    then prints a line of success for each of them, the ledger is again
    what it was before the update. *)
Theorem rollback_undoes_update_on_the_ledger
    (ms : list Migration.t) (f : string) (w : W) :
  (forall m, In m ms -> exists s, Migration.id m = JStr s) ->
  (forall m, In m ms ->
     keeps_ledger sqlite_execute (Migration.changes m) /\
     keeps_ledger sqlite_execute (Migration.rollback m)) ->
  dense (ledger w) ->
  pending_of ms (executed_ids w) <> [] ->
  errors (snd (update sqlite_execute isoformat ms f w)) = errors w ->
  length (rolled
            (snd (rollback sqlite_execute
                    (Z.of_nat (length (pending_of ms (executed_ids w))))
                    ms (snd (update sqlite_execute isoformat ms f w)))))
  = (length (rolled (snd (update sqlite_execute isoformat ms f w)))
     + length (pending_of ms (executed_ids w)))%nat ->
  ledger (snd (rollback sqlite_execute
                 (Z.of_nat (length (pending_of ms (executed_ids w))))
                 ms (snd (update sqlite_execute isoformat ms f w))))
  = ledger w.
Proof.
  intros Ids K D NE Quiet.
  destruct (update_rows Schema sqlite_execute isoformat ms f w
              (fun m H => proj1 (K m H)) Quiet) as (rows & E & F & Nm).
  set (pending := pending_of ms (executed_ids w)) in *.
  set (w1 := snd (update sqlite_execute isoformat ms f w)) in *.
  assert (Len : length rows = length pending)
    by (symmetry; exact (Forall2_length F)).
  destruct (migrations_dict_builds ms Ids []) as (d & Dd).
  rewrite rollback_eq. unfold migrations_dict_of. rewrite Dd.
  assert (Ex : executed_ids w1 = map row_id (ledger w ++ rows)).
  { rewrite executed_ids_of_sorted; [unfold ledger_ids; now rewrite E |].
    rewrite E. apply (dense_from_sorted _ 1 (length (ledger w ++ rows))).
    now apply dense_app. }
  assert (T : to_rollback_of (Z.of_nat (length pending)) (executed_ids w1)
              = rev (map row_id rows)).
  { unfold to_rollback_of. rewrite slice_from_tail.
    - rewrite Nat2Z.id, Ex, map_app, <- Len, <- (length_map row_id rows).
      apply firstn_rev_app.
    - destruct pending; [congruence | simpl; lia]. }
  rewrite T.
  destruct (rollback_loop_rolled ms d (rev (map row_id rows)) Ids
              (fun m H => proj2 (K m H)) Dd w1) as (_ & L).
  rewrite length_rev, length_map, Len in L.
  intro Rolled. rewrite (L Rolled), E, filter_app.
  rewrite (filter_all (survives (rev (map row_id rows))) (ledger w)).
  - rewrite <- (app_nil_r (ledger w)) at 2. f_equal.
    apply filter_none. intros row Hrow.
    destruct (row_of_pending pending rows row F Hrow)
      as (m & Hm & Hb & _).
    apply filter_In in Hm. destruct Hm as (Hm & _).
    destruct (Ids m Hm) as (s & Es). rewrite Es in Hb. simpl in Hb.
    unfold survives. apply negb_false_iff, existsb_exists.
    exists (row_id row). split.
    + rewrite <- in_rev. now apply in_map.
    + inversion Hb as [Hs]. unfold id_is. rewrite <- Hs.
      apply String.eqb_refl.
  - intros r Hr. unfold survives. apply negb_true_iff.
    apply not_true_is_false. intro X. apply existsb_exists in X.
    destruct X as (k & Hk & Q). rewrite <- in_rev in Hk.
    apply in_map_iff in Hk.
    destruct Hk as (row & <- & Hrow).
    destruct (row_of_pending pending rows row F Hrow)
      as (m & Hm & Hb & _).
    apply filter_In in Hm. destruct Hm as (Hm & Hp).
    destruct (Ids m Hm) as (s & Es). rewrite Es in Hb. simpl in Hb.
    inversion Hb as [Hs]. rewrite <- Hs in Q. unfold id_is in Q.
    destruct (row_id r) as [s' |] eqn:Er; [| discriminate].
    apply String.eqb_eq in Q. subst s'.
    apply negb_true_iff in Hp.
    assert (Y : is_executed (executed_ids w) m = true).
    { apply (is_executed_str _ m s Es), executed_ids_In.
      rewrite <- Er. now apply in_map. }
    congruence.
Qed.

End UndoFacts.

Lemma rollback_undoes_update_on_the_ledger_witness :
  let w := cli_up [cs_A] fresh in
  let w1 := snd (update strict_execute stamp [cs_A; cs_B; cs_C]
                   "changelog.yaml" w) in
  changelog (db (snd (rollback strict_execute
                        (Z.of_nat (length (pending_of [cs_A; cs_B; cs_C]
                                             (executed_ids w))))
                        [cs_A; cs_B; cs_C] w1)))
  = changelog (db w).
Proof.
  intros w w1.
  apply (rollback_undoes_update_on_the_ledger Journal strict_execute stamp
           [cs_A; cs_B; cs_C] "changelog.yaml" w).
  - intros m [<- | [<- | [<- | []]]]; eexists; reflexivity.
  - intros m _. split; apply statements_keep_the_ledger;
      exact strict_keeps_ledger.
  - reflexivity.
  - vm_compute. discriminate.
  - vm_compute. reflexivity.
  - vm_compute. reflexivity.
Defined.

Example update_then_rollback_of_two :
  let w := cli_up [cs_A] fresh in
  let w1 := cli_up [cs_A; cs_B; cs_C] w in
  let w2 := cli_back 2 [cs_A; cs_B; cs_C] w1 in
  ids_and_orders w = [(Some "A", 1)] /\
  ids_and_orders w1 = [(Some "A", 1); (Some "B", 2); (Some "C", 3)] /\
  ids_and_orders w2 = [(Some "A", 1)].
Proof. vm_compute. repeat split. Qed.

(* ================================================================== *)
(** ** Further properties: the other commands *)

Lemma insert_by_order_map (g : ChangelogRow -> ChangelogRow)
    (r : ChangelogRow) (l : list ChangelogRow) :
  (forall x, order_executed (g x) = order_executed x) ->
  insert_by_order (g r) (map g l) = map g (insert_by_order r l).
Proof.
  intro H. induction l as [| x t IH]; simpl; [reflexivity |].
  rewrite !H. destruct (order_executed r <=? order_executed x); simpl.
  - reflexivity.
  - now rewrite IH.
Qed.

Lemma order_by_map (g : ChangelogRow -> ChangelogRow)
    (rows : list ChangelogRow) :
  (forall x, order_executed (g x) = order_executed x) ->
  order_by_order_executed (map g rows) = map g (order_by_order_executed rows).
Proof.
  intro H. induction rows as [| r t IH]; simpl; [reflexivity |].
  now rewrite IH, insert_by_order_map.
Qed.

Lemma hd_rev_last {A : Type} (l : list A) (d : A) :
  l <> [] -> hd_error (rev l) = Some (last l d).
Proof.
  destruct l as [| x l] using rev_ind; [congruence |].
  intros _. now rewrite rev_app_distr, last_last.
Qed.

(** What the [UPDATE ... SET tag = ? WHERE id = ?] of [tag] does to a
    row. *)
Definition retag (t : string) (k : option string) (r : ChangelogRow)
  : ChangelogRow :=
  if id_is k r then set_tag t r else r.

Section CommandFacts.

Variable Schema : Type.

Local Notation W := (World Schema).
Local Notation ledger := (fun w : W => changelog (db w)).

(** X19. On an empty ledger [tag] reports that there is nothing to tag and
    changes nothing. Otherwise it tags the rows whose identifier is the
    last one of the listing by [order_executed] - the one a rollback of
    one would target - and commits; nothing else changes: the
    identifiers, orders and checksums of the ledger, what
    [get_executed_migrations] returns, the user's tables and the lock row
    are as before, and the other rows keep their tags. *)
Theorem tag_marks_the_last_listed (t : string) (w : W) :
  match executed_ids w with
  | [] => Cli.tag t w = (Ok MsgNoMigrationsToTag, w)
  | _ =>
      let k := last (executed_ids w) None in
      let w' := snd (Cli.tag t w) in
      hd_error (to_rollback_of 1 (executed_ids w)) = Some k /\
      fst (Cli.tag t w) = Ok (MsgTagged t) /\
      map row_id (ledger w') = map row_id (ledger w) /\
      map order_executed (ledger w') = map order_executed (ledger w) /\
      map md5sum (ledger w') = map md5sum (ledger w) /\
      map tag (ledger w')
      = map (fun r => if id_is k r then Some t else tag r) (ledger w) /\
      executed_ids w' = executed_ids w /\
      tables (db w') = tables (db w) /\
      changeloglock (db w') = changeloglock (db w) /\
      durable w' = db w'
  end.
Proof.
  destruct (executed_ids w) as [| e l] eqn:E.
  - unfold Cli.tag, bind. rewrite get_executed_migrations_eq, E.
    reflexivity.
  - cbv zeta. unfold Cli.tag, bind.
    rewrite get_executed_migrations_eq, E.
    set (k := last (e :: l) None).
    unfold execute_sql_update_tag, ret. simpl fst. simpl snd.
    assert (P : forall x, order_executed (retag t k x) = order_executed x)
      by (intro x; unfold retag; now destruct (id_is k x)).
    assert (Q : forall x, row_id (retag t k x) = row_id x)
      by (intro x; unfold retag; now destruct (id_is k x)).
    simpl. fold (retag t k).
    repeat match goal with |- _ /\ _ => split end.
    + unfold to_rollback_of. rewrite slice_from_tail by lia.
      simpl Z.to_nat. unfold k.
      rewrite <- (hd_rev_last (e :: l) None) by discriminate.
      now destruct (rev (e :: l)).
    + reflexivity.
    + rewrite map_map. apply map_ext. exact Q.
    + rewrite map_map. apply map_ext. exact P.
    + rewrite map_map. apply map_ext. intro x. unfold retag.
      now destruct (id_is k x).
    + rewrite map_map. apply map_ext. intro x. unfold retag.
      now destruct (id_is k x).
    + rewrite <- E. unfold executed_ids. simpl.
      rewrite (order_by_map _ _ P), map_map.
      apply map_ext. exact Q.
    + reflexivity.
    + reflexivity.
    + reflexivity.
Qed.

(** X20. [clear] empties the ledger, commits, and touches nothing else:
    the user's tables and the lock row are as before, [validate] then
    counts 0, and every change set of any document is pending again for
    the next update. *)
Theorem clear_forgets_what_was_applied (ms : list Migration.t) (w : W) :
  let w' := snd (Cli.clear w) in
  ledger w' = [] /\
  tables (db w') = tables (db w) /\
  changeloglock (db w') = changeloglock (db w) /\
  durable w' = db w' /\
  fst (Cli.validate w') = Ok 0 /\
  pending_of ms (executed_ids w') = ms.
Proof.
  cbv zeta. unfold Cli.clear, execute_sql_clear_changelog. simpl.
  repeat split. apply filter_all. reflexivity.
Qed.

(** X21. [_init_changelog_table] only ever adds the lock row and commits:
    run on a store that has the row it changes nothing in the database,
    so running it twice is running it once, and the ledger and the user's
    tables are never touched. The same holds for opening the database a
    second time. *)
Theorem init_changelog_table_is_idempotent (w : W) :
  let w' := snd (_init_changelog_table w) in
  _init_changelog_table w' = (Ok tt, w') /\
  (changeloglock (db w) <> None -> w' = commit w) /\
  (changeloglock (db w) <> None -> durable w = db w -> w' = w) /\
  (changeloglock (db w) = None ->
   changeloglock (db w') = Some (mkLock false None None)) /\
  ledger w' = ledger w /\
  tables (db w') = tables (db w) /\
  DatabaseManager (snd (DatabaseManager w))
  = (Ok tt, snd (DatabaseManager w)).
Proof.
  cbv zeta. unfold DatabaseManager, bind, connect, _init_changelog_table.
  simpl. destruct w as [d u c o]. simpl.
  destruct (changeloglock d) as [l |] eqn:E; simpl.
  - rewrite E.
    destruct (changeloglock u) as [l' |] eqn:E'; simpl; rewrite ?E';
      repeat split; try discriminate; try congruence.
    intros _ ->. reflexivity.
  - destruct (changeloglock u) as [l' |] eqn:E'; simpl; rewrite ?E';
      repeat split; congruence.
Qed.

End CommandFacts.

Lemma init_changelog_table_is_idempotent_witness :
  snd (_init_changelog_table held) = held /\
  changeloglock (db (snd (_init_changelog_table fresh)))
  = Some (mkLock false None None).
Proof.
  split.
  - apply (proj1 (proj2 (proj2
             (init_changelog_table_is_idempotent Journal held)))).
    + discriminate.
    + reflexivity.
  - apply (proj1 (proj2 (proj2 (proj2
             (init_changelog_table_is_idempotent Journal fresh))))).
    reflexivity.
Defined.

(** A tag after two change sets: the row of B, last in the listing, is
    tagged. *)
Example tag_after_two :
  let w := cli_up [cs_A; cs_B] fresh in
  map (fun r => (row_id r, tag r)) (changelog (db (snd (Cli.tag "v1" w))))
  = [(Some "A", None); (Some "B", Some "v1")].
Proof. vm_compute. reflexivity. Qed.

(* ================================================================== *)
(** ** Further properties: the changelog parser *)

Module ParserFacts.

Import ChangelogParser.

(** The usual shape of an entry of [databaseChangeLog]. *)
Definition entry (cs : list (string * jvalue)) : jvalue :=
  JDict [("changeSet", JDict cs)].

(** The first of the keys the parser indexes that a change set lacks. *)
Definition first_missing (cs : list (string * jvalue)) : option string :=
  match Py.lookup "id" cs, Py.lookup "author" cs, Py.lookup "changes" cs with
  | None, _, _ => Some "id"
  | _, None, _ => Some "author"
  | _, _, None => Some "changes"
  | _, _, _ => None
  end.

Lemma map_result_app {A B : Type} (f : A -> result B) (l1 l2 : list A) :
  map_result f (l1 ++ l2)
  = match map_result f l1 with
    | Ok a =>
        match map_result f l2 with
        | Ok b => Ok (a ++ b)%list
        | Raise e => Raise e
        end
    | Raise e => Raise e
    end.
Proof.
  induction l1 as [| x l1 IH]; simpl.
  - now destruct (map_result f l2).
  - destruct (f x) as [y | e]; simpl; [| reflexivity].
    rewrite IH. destruct (map_result f l1); simpl; [| reflexivity].
    now destruct (map_result f l2).
Qed.

Lemma somes_app {A : Type} (l1 l2 : list (option A)) :
  somes (l1 ++ l2) = (somes l1 ++ somes l2)%list.
Proof.
  induction l1 as [| [x |] l1 IH]; simpl; [reflexivity | | assumption].
  now rewrite IH.
Qed.

Lemma parse_of_entries (d : list (string * jvalue)) (entries : list jvalue) :
  Py.lookup "databaseChangeLog" d = Some (JList entries) ->
  parse (JDict d)
  = match map_result parse_entry entries with
    | Ok ms => Ok (somes ms)
    | Raise e => Raise e
    end.
Proof.
  intro H. unfold parse. simpl. rewrite H. simpl.
  now destruct (map_result parse_entry entries).
Qed.

Lemma parse_entry_complete (cs : list (string * jvalue)) :
  first_missing cs = None ->
  exists m,
    parse_entry (entry cs) = Ok (Some m) /\
    Some (Migration.id m) = Py.lookup "id" cs /\
    Some (Migration.author m) = Py.lookup "author" cs /\
    Some (Migration.changes m) = Py.lookup "changes" cs.
Proof.
  unfold first_missing, parse_entry, entry. simpl.
  destruct (Py.lookup "id" cs) as [i |]; [| discriminate].
  destruct (Py.lookup "author" cs) as [a |]; [| discriminate].
  destruct (Py.lookup "changes" cs) as [c |]; [| discriminate].
  intros _. simpl.
  destruct (Py.lookup "comment" cs), (Py.lookup "rollback" cs); simpl;
    eexists; repeat split.
Qed.

(** X23. An entry of [databaseChangeLog] that is a dictionary without a
    ['changeSet'] key is skipped: the parser returns, or raises, what it
    would without that entry. *)
Theorem entries_without_change_set_are_skipped
    (d d' e : list (string * jvalue)) (l1 l2 : list jvalue) :
  Py.lookup "databaseChangeLog" d = Some (JList (l1 ++ JDict e :: l2)) ->
  Py.lookup "databaseChangeLog" d' = Some (JList (l1 ++ l2)) ->
  Py.lookup "changeSet" e = None ->
  parse (JDict d) = parse (JDict d').
Proof.
  intros H H' He.
  rewrite (parse_of_entries _ _ H), (parse_of_entries _ _ H').
  rewrite !map_result_app. simpl.
  unfold parse_entry at 2. simpl. rewrite He. simpl.
  destruct (map_result parse_entry l1) as [a |]; [| reflexivity].
  destruct (map_result parse_entry l2) as [b |]; simpl; [| reflexivity].
  now rewrite !somes_app.
Qed.

(** X24. A change set that lacks ['id'], ['author'] or ['changes'] makes
    the whole parse raise [KeyError] for the first of them that is
    missing, once the entries before it have parsed: no change set of the
    document is returned. *)
Theorem incomplete_change_set_fails_the_parse
    (d cs : list (string * jvalue)) (l1 l2 : list jvalue)
    (ps : list (option Migration.t)) (key : string) :
  Py.lookup "databaseChangeLog" d = Some (JList (l1 ++ entry cs :: l2)) ->
  map_result parse_entry l1 = Ok ps ->
  first_missing cs = Some key ->
  parse (JDict d) = Raise (KeyError key).
Proof.
  intros H H1 Hm. rewrite (parse_of_entries _ _ H), map_result_app, H1.
  simpl. unfold first_missing in Hm. unfold parse_entry, entry. simpl.
  destruct (Py.lookup "id" cs); simpl.
  - destruct (Py.lookup "author" cs); simpl.
    + destruct (Py.lookup "changes" cs); simpl; [discriminate |].
      inversion Hm. destruct (Py.lookup "comment" cs); reflexivity.
    + now inversion Hm.
  - now inversion Hm.
Qed.

(** X25. The parser keeps the document order: from entries that all hold
    a complete change set it returns one migration for each entry, in the
    order of the entries, with the identifier, author and changes of the
    entry. *)
Theorem parse_keeps_document_order
    (d : list (string * jvalue)) (css : list (list (string * jvalue))) :
  Py.lookup "databaseChangeLog" d = Some (JList (map entry css)) ->
  (forall cs, In cs css -> first_missing cs = None) ->
  exists ms,
    parse (JDict d) = Ok ms /\
    map (fun m => Some (Migration.id m)) ms = map (Py.lookup "id") css /\
    map (fun m => Some (Migration.author m)) ms
    = map (Py.lookup "author") css /\
    map (fun m => Some (Migration.changes m)) ms
    = map (Py.lookup "changes") css.
Proof.
  intros H Hc. rewrite (parse_of_entries _ _ H). clear H.
  induction css as [| cs css IH]; simpl.
  - exists []. repeat split.
  - destruct (parse_entry_complete cs (Hc cs (or_introl eq_refl)))
      as (p & E & I & A & C).
    destruct IH as (ps & E' & I' & A' & C').
    { intros cs' Hcs'. apply Hc. now right. }
    rewrite E. simpl.
    destruct (map_result parse_entry (map entry css)) as [ms |];
      [| discriminate].
    inversion E'; subst. exists (p :: somes ms). simpl.
    rewrite I, A, C, I', A', C'. repeat split.
Qed.

(** X26. Documents without change sets: a dictionary without
    ['databaseChangeLog'] parses to no migration; a document that is not a
    dictionary, as an empty file gives, raises [AttributeError]; and a
    ['databaseChangeLog'] that is neither a list, a dictionary nor a string
    raises [TypeError]. *)
Theorem parse_of_documents_without_a_list
    (data : jvalue) :
  match data with
  | JDict d =>
      match Py.lookup "databaseChangeLog" d with
      | None => parse data = Ok []
      | Some (JList _) | Some (JDict _) | Some (JStr _) => True
      | Some _ => parse data = Raise TypeError
      end
  | _ => parse data = Raise AttributeError
  end.
Proof.
  destruct data; try reflexivity.
  unfold parse. simpl.
  destruct (Py.lookup "databaseChangeLog" d) as [v |]; [| reflexivity].
  destruct v; simpl; auto.
Qed.

Lemma new_of_its_fields (i a d c r : jvalue) :
  Migration.new i a d c r
  = Migration.new (Migration.id (Migration.new i a d c r))
      (Migration.author (Migration.new i a d c r))
      (Migration.description (Migration.new i a d c r))
      (Migration.changes (Migration.new i a d c r))
      (Migration.rollback (Migration.new i a d c r)).
Proof.
  unfold Migration.new. simpl. f_equal.
  destruct (Py.truthy r) eqn:E; [now rewrite E | reflexivity].
Qed.

Lemma parse_entry_new (cs : list (string * jvalue)) (m : Migration.t) :
  parse_entry (entry cs) = Ok (Some m) ->
  exists i a d c r, m = Migration.new i a d c r.
Proof.
  unfold parse_entry, entry. simpl.
  destruct (Py.lookup "id" cs) as [i |]; simpl; [| discriminate].
  destruct (Py.lookup "author" cs) as [a |]; simpl; [| discriminate].
  destruct (Py.lookup "changes" cs) as [c |]; simpl;
    [| destruct (Py.lookup "comment" cs); discriminate].
  destruct (Py.lookup "comment" cs), (Py.lookup "rollback" cs);
    simpl; intro H; inversion H; eauto 6.
Qed.

(** X27. The migration the parser builds carries the checksum of its own
    fields: it is the migration the constructor builds from them, and its
    checksum is the digest of its identifier, author and changes. An
    integer identifier gives the checksum of the string of its digits,
    and a [rollback] that is [None] becomes the empty list. *)
Theorem parsed_checksum_is_the_checksum_of_the_fields
    (cs : list (string * jvalue)) (m : Migration.t)
    (author description changes rollback : jvalue) (n : Z) :
  parse_entry (entry cs) = Ok (Some m) ->
  m = Migration.new (Migration.id m) (Migration.author m)
        (Migration.description m) (Migration.changes m)
        (Migration.rollback m) /\
  Migration.checksum m
  = Migration._calculate_checksum (Migration.id m) (Migration.author m)
      (Migration.changes m) /\
  Migration.checksum
    (Migration.new (JInt n) author description changes rollback)
  = Migration.checksum
      (Migration.new (JStr (PyStr.of_int n)) author description changes
         rollback) /\
  Migration.rollback
    (Migration.new (JInt n) author description changes JNull) = JList [].
Proof.
  intro H. destruct (parse_entry_new cs m H) as (i & a & d & c & r & ->).
  split; [apply new_of_its_fields |]. repeat split.
Qed.

End ParserFacts.

Lemma entries_without_change_set_are_skipped_witness :
  ChangelogParser.parse
    (JDict [("databaseChangeLog",
             JList ([] ++ JDict [("include", JStr "other.yaml")]
                       :: [ParserFacts.entry
                             [("id", JStr "1"); ("author", JStr "a");
                              ("changes", JList [])]]))])
  = ChangelogParser.parse
      (JDict [("databaseChangeLog",
               JList ([] ++ [ParserFacts.entry
                               [("id", JStr "1"); ("author", JStr "a");
                                ("changes", JList [])]]))]).
Proof.
  apply (ParserFacts.entries_without_change_set_are_skipped
           _ _ [("include", JStr "other.yaml")] []
           [ParserFacts.entry [("id", JStr "1"); ("author", JStr "a");
                               ("changes", JList [])]]);
    reflexivity.
Defined.

Lemma incomplete_change_set_fails_the_parse_witness :
  ChangelogParser.parse
    (JDict [("databaseChangeLog",
             JList ([ParserFacts.entry
                       [("id", JStr "1"); ("author", JStr "a");
                        ("changes", JList [])]]
                    ++ ParserFacts.entry [("id", JStr "2");
                                          ("changes", JList [])]
                    :: []))])
  = Raise (KeyError "author").
Proof.
  apply (ParserFacts.incomplete_change_set_fails_the_parse
           _ [("id", JStr "2"); ("changes", JList [])]
           [ParserFacts.entry [("id", JStr "1"); ("author", JStr "a");
                               ("changes", JList [])]]
           []
           [Some (Migration.new (JStr "1") (JStr "a") (JStr "")
                    (JList []) (JList []))]
           "author"); reflexivity.
Defined.

Lemma parse_keeps_document_order_witness :
  exists ms,
    ChangelogParser.parse
      (JDict [("databaseChangeLog",
               JList (map ParserFacts.entry
                        [[("id", JInt 2); ("author", JStr "a");
                          ("changes", JList [])];
                         [("id", JInt 1); ("author", JStr "b");
                          ("changes", JList [])]]))])
    = Ok ms /\
    map (fun m => Some (Migration.id m)) ms
    = map (Py.lookup "id")
        [[("id", JInt 2); ("author", JStr "a"); ("changes", JList [])];
         [("id", JInt 1); ("author", JStr "b"); ("changes", JList [])]] /\
    map (fun m => Some (Migration.author m)) ms
    = map (Py.lookup "author")
        [[("id", JInt 2); ("author", JStr "a"); ("changes", JList [])];
         [("id", JInt 1); ("author", JStr "b"); ("changes", JList [])]] /\
    map (fun m => Some (Migration.changes m)) ms
    = map (Py.lookup "changes")
        [[("id", JInt 2); ("author", JStr "a"); ("changes", JList [])];
         [("id", JInt 1); ("author", JStr "b"); ("changes", JList [])]].
Proof.
  apply (ParserFacts.parse_keeps_document_order
           [("databaseChangeLog",
             JList (map ParserFacts.entry
                      [[("id", JInt 2); ("author", JStr "a");
                        ("changes", JList [])];
                       [("id", JInt 1); ("author", JStr "b");
                        ("changes", JList [])]]))]).
  - reflexivity.
  - intros cs [<- | [<- | []]]; reflexivity.
Defined.

Lemma parsed_checksum_is_the_checksum_of_the_fields_witness :
  let m := Migration.new (JInt 1) (JStr "john.doe") (JStr "")
             (JList []) (JList []) in
  m = Migration.new (Migration.id m) (Migration.author m)
        (Migration.description m) (Migration.changes m)
        (Migration.rollback m) /\
  Migration.checksum m
  = Migration._calculate_checksum (Migration.id m) (Migration.author m)
      (Migration.changes m) /\
  Migration.checksum
    (Migration.new (JInt 1) (JStr "john.doe") (JStr "") (JList []) JNull)
  = Migration.checksum
      (Migration.new (JStr (PyStr.of_int 1)) (JStr "john.doe") (JStr "")
         (JList []) JNull) /\
  Migration.rollback
    (Migration.new (JInt 1) (JStr "john.doe") (JStr "") (JList []) JNull)
  = JList [].
Proof.
  intro m.
  apply (ParserFacts.parsed_checksum_is_the_checksum_of_the_fields
           [("id", JInt 1); ("author", JStr "john.doe");
            ("changes", JList []); ("rollback", JNull)]
           m (JStr "john.doe") (JStr "") (JList []) JNull 1).
  reflexivity.
Defined.
